(** * systeccan: a shallow embedding of [systeccan.py]

    The Python module wraps the SYSTEC USB-CANmodul driver library.  This
    development embeds the parts of it that carry behaviour of their own:
    the return-code taxonomy ([check_*], [check_result]), the version and
    acceptance-filter helpers of [USBCanServer], the message tables, and the
    life cycle of a [USBCanServer] session (construction, [init_hardware],
    [init_can], [shutdown]).

    Conventions.
    - Python integers are [Z]; [&], [|], [^], [<<], [>>] are [Z.land],
      [Z.lor], [Z.lxor], [Z.shiftl], [Z.shiftr] (both sides use the infinite
      two's complement reading of negative numbers).
    - A ctypes scalar is the [Z] it holds; building one truncates to its
      width ([BYTE], [WORD], [DWORD]).
    - The driver library is opaque: it is a parameter [dll] that answers each
      foreign call from the history of the calls issued so far.
    - Methods run in a state-and-exception monad; the state is what the
      method can mutate, and it survives a raised exception. *)

From Stdlib Require Import ZArith List String Bool Lia.
From Stdlib Require Import Ascii DecimalString.
Import ListNotations.

Local Open Scope string_scope.
Local Open Scope list_scope.
Local Open Scope Z_scope.

(* ================================================================= *)
(** ** ctypes scalars *)

Definition BYTE (v : Z) : Z := v mod 2 ^ 8.
Definition WORD (v : Z) : Z := v mod 2 ^ 16.
Definition DWORD (v : Z) : Z := v mod 2 ^ 32.

(** [class Handle(BYTE)] *)
Definition Handle (v : Z) : Z := BYTE v.

(* ================================================================= *)
(** ** Module-level constants and enumerations *)

Definition MAX_MODULES : Z := 64.
Definition MAX_INSTANCES : Z := 64.
Definition ANY_MODULE : Z := 255.
Definition INVALID_HANDLE : Z := 0xFF.
Definition AMR_ALL : Z := 0xFFFFFFFF.
Definition ACR_ALL : Z := 0x0.
Definition DEFAULT_BUFFER_ENTRIES : Z := 4096.
Definition MAX_CYCLIC_CAN_MSG : Z := 16.

Module ReturnCode.
Definition SUCCESSFUL : Z := 0x0.
Definition ERR : Z := 0x1.
Definition ERRCMD : Z := 0x40.
Definition WARNING : Z := 0x80.
Definition RESERVED : Z := 0xC0.

Definition ERR_RESOURCE : Z := 0x1.
Definition ERR_MAXMODULES : Z := 0x2.
Definition ERR_HWINUSE : Z := 0x3.
Definition ERR_ILLVERSION : Z := 0x4.
Definition ERR_ILLHW : Z := 0x5.
Definition ERR_ILLHANDLE : Z := 0x6.
Definition ERR_ILLPARAM : Z := 0x7.
Definition ERR_BUSY : Z := 0x8.
Definition ERR_TIMEOUT : Z := 0x9.
Definition ERR_IOFAILED : Z := 0xA.
Definition ERR_DLL_TXFULL : Z := 0xB.
Definition ERR_MAXINSTANCES : Z := 0xC.
Definition ERR_CANNOTINIT : Z := 0xD.
Definition ERR_DISCONECT : Z := 0xE.
Definition ERR_NOHWCLASS : Z := 0xF.
Definition ERR_ILLCHANNEL : Z := 0x10.
Definition ERR_RESERVED1 : Z := 0x11.
Definition ERR_ILLHWTYPE : Z := 0x12.

Definition ERRCMD_NOTEQU : Z := 0x40.
Definition ERRCMD_REGTST : Z := 0x41.
Definition ERRCMD_ILLCMD : Z := 0x42.
Definition ERRCMD_EEPROM : Z := 0x43.
Definition ERRCMD_RESERVED1 : Z := 0x44.
Definition ERRCMD_RESERVED2 : Z := 0x45.
Definition ERRCMD_RESERVED3 : Z := 0x46.
Definition ERRCMD_ILLBDR : Z := 0x47.
Definition ERRCMD_NOTINIT : Z := 0x48.
Definition ERRCMD_ALREADYINIT : Z := 0x49.
Definition ERRCMD_ILLSUBCMD : Z := 0x4A.
Definition ERRCMD_ILLIDX : Z := 0x4B.
Definition ERRCMD_RUNNING : Z := 0x4C.

Definition WARN_NODATA : Z := 0x80.
Definition WARN_SYS_RXOVERRUN : Z := 0x81.
Definition WARN_DLL_RXOVERRUN : Z := 0x82.
Definition WARN_RESERVED1 : Z := 0x83.
Definition WARN_RESERVED2 : Z := 0x84.
Definition WARN_FW_TXOVERRUN : Z := 0x85.
Definition WARN_FW_RXOVERRUN : Z := 0x86.
Definition WARN_FW_TXMSGLOST : Z := 0x87.
Definition WARN_NULL_PTR : Z := 0x90.
Definition WARN_TXLIMIT : Z := 0x91.
Definition WARN_BUSY : Z := 0x92.
End ReturnCode.

Module Channel.
Definition CHANNEL_CH0 : Z := 0.
Definition CHANNEL_CH1 : Z := 1.
Definition CHANNEL_ALL : Z := 254.
Definition CHANNEL_ANY : Z := 255.
Definition CHANNEL_CAN1 : Z := CHANNEL_CH0.
Definition CHANNEL_CAN2 : Z := CHANNEL_CH1.
Definition CHANNEL_LIN : Z := CHANNEL_CH1.
End Channel.

Module Mode.
Definition MODE_NORMAL : Z := 0.
Definition MODE_LISTEN_ONLY : Z := 1.
Definition MODE_TX_ECHO : Z := 2.
Definition MODE_RX_ORDER_CH : Z := 4.
Definition MODE_HIGH_RES_TIMER : Z := 8.
End Mode.

Module OutputControl.
Definition OCR_DEFAULT : Z := 0x1A.
Definition OCR_RS485_ISOLATED : Z := 0x1E.
Definition OCR_RS485_NOT_ISOLATED : Z := 0xA.
End OutputControl.

(* ================================================================= *)
(** ** Python objects the wrapper passes around *)

(** The entry points of the driver library whose [errcheck] is
    [check_result]. *)
Inductive NativeFn : Type :=
| UcanInitHwConnectControlEx
| UcanDeinitHwConnectControl
| UcanInitHardwareEx
| UcanInitHardwareEx2
| UcanGetModuleTime
| UcanGetHardwareInfoEx2
| UcanInitCanEx2
| UcanSetBaudrateEx
| UcanSetAcceptanceEx
| UcanResetCanEx
| UcanReadCanMsgEx
| UcanWriteCanMsgEx
| UcanGetStatusEx
| UcanGetMsgCountInfoEx
| UcanGetMsgPending
| UcanGetCanErrorCounter
| UcanSetTxTimeout
| UcanDeinitCanEx
| UcanDeinitHardware
| UcanDefineCyclicCanMsg
| UcanReadCyclicCanMsg
| UcanEnableCyclicCanMsg.

(** Bound methods wrapped into native callback trampolines. *)
Inductive PyCallback : Type :=
| CallbackFktEx_callback          (* CallbackFktEx(self._callback) *)
| ConnectControlFktEx_connect_control.  (* ConnectControlFktEx(self._connect_control) *)

(** [class InitCanParam(Structure)], packed, field by field. *)
Record InitCanParam : Type := {
  m_dwSize : Z;
  m_bMode : Z;
  m_bBTR0 : Z;
  m_bBTR1 : Z;
  m_bOCR : Z;
  m_dwAMR : Z;
  m_dwACR : Z;
  m_dwBaudrate : Z;
  m_wNrOfRxBufferEntries : Z;
  m_wNrOfTxBufferEntries : Z
}.

(** [sizeof(InitCanParam)] with [_pack_ = 1]: 4+1+1+1+1+4+4+4+2+2. *)
Definition sizeof_InitCanParam : Z := 24.

(** [InitCanParam.__init__]: every field is stored at its ctypes width. *)
Definition InitCanParam_init
  (mode BTR OCR AMR ACR baudrate rx_buffer_entries tx_buffer_entries : Z)
  : InitCanParam := {|
  m_dwSize := DWORD sizeof_InitCanParam;
  m_bMode := BYTE mode;
  m_bBTR0 := BYTE (Z.shiftr BTR 8);
  m_bBTR1 := BYTE BTR;
  m_bOCR := BYTE OCR;
  m_dwAMR := DWORD AMR;
  m_dwACR := DWORD ACR;
  m_dwBaudrate := DWORD baudrate;
  m_wNrOfRxBufferEntries := WORD rx_buffer_entries;
  m_wNrOfTxBufferEntries := WORD tx_buffer_entries
|}.

(** One actual argument of a foreign call. *)
Inductive Arg : Type :=
| ArgInt (v : Z)                  (* a scalar passed by value *)
| ArgByref (v : Z)                (* byref(cell), the cell holding v at call time *)
| ArgCallback (cb : PyCallback)
| ArgInitCanParam (p : InitCanParam)
| ArgNone.

(** The payload every [USBCanException] carries: [result.value], [func]
    and [arguments]. *)
Record USBCanException : Type := {
  exc_result : Z;
  exc_func : NativeFn;
  exc_arguments : list Arg
}.

(** Exceptions, by class. *)
Inductive Exn : Type :=
| USBCanError (e : USBCanException)
| USBCanCmdError (e : USBCanException)
| USBCanWarning (e : USBCanException)
| AttributeError (cls attr : string)
| KeyError (key : Z).

(* ================================================================= *)
(** ** The state-and-exception monad *)

Inductive Outcome (A : Type) : Type :=
| Returned (a : A)
| Raised (e : Exn).
Arguments Returned {A} a.
Arguments Raised {A} e.

Definition M (S A : Type) : Type := S -> Outcome A * S.

Definition ret {S A} (a : A) : M S A := fun s => (Returned a, s).

Definition bind {S A B} (m : M S A) (k : A -> M S B) : M S B :=
  fun s =>
    match m s with
    | (Returned a, s') => k a s'
    | (Raised e, s') => (Raised e, s')
    end.

Definition raise {S A} (e : Exn) : M S A := fun s => (Raised e, s).
Definition gets {S A} (f : S -> A) : M S A := fun s => (Returned (f s), s).
Definition modify {S} (f : S -> S) : M S unit := fun s => (Returned tt, f s).

Notation "x <- m ;; k" := (bind m (fun x => k))
  (at level 61, m at next level, right associativity).
Notation "m ;; k" := (bind m (fun _ => k))
  (at level 61, right associativity).

(* ================================================================= *)
(** ** Return-code predicates *)

(** Each predicate receives [result.value], a byte. *)

Definition check_valid_rx_can_msg (result : Z) : bool :=
  (result =? ReturnCode.SUCCESSFUL) || (result >? ReturnCode.WARNING).

Definition check_tx_ok (result : Z) : bool :=
  (result =? ReturnCode.SUCCESSFUL) || (result >? ReturnCode.WARNING).

Definition check_tx_success (result : Z) : bool :=
  result =? ReturnCode.SUCCESSFUL.

Definition check_tx_not_all (result : Z) : bool :=
  result =? ReturnCode.WARN_TXLIMIT.

Definition check_warning (result : Z) : bool :=
  result >=? ReturnCode.WARNING.

Definition check_error (result : Z) : bool :=
  negb (result =? ReturnCode.SUCCESSFUL) && (result <? ReturnCode.WARNING).

Definition check_error_cmd (result : Z) : bool :=
  (result >=? ReturnCode.ERRCMD) && (result <? ReturnCode.WARNING).

(** The module logger: the records handed to [logger.warning], oldest
    first. *)
Definition Log : Type := list Exn.

(** [check_result], the [errcheck] hook of every checked entry point.  Its
    only state is the logger. *)
Definition check_result (result : Z) (func : NativeFn) (arguments : list Arg)
  : M Log Z :=
  (if check_warning result then
     modify (fun log => log ++ [USBCanWarning
       {| exc_result := result; exc_func := func; exc_arguments := arguments |}])
   else if check_error result then
     if check_error_cmd result then
       raise (USBCanCmdError
         {| exc_result := result; exc_func := func; exc_arguments := arguments |})
     else
       raise (USBCanError
         {| exc_result := result; exc_func := func; exc_arguments := arguments |})
   else ret tt) ;;
  ret result.

(* ================================================================= *)
(** ** Python dictionaries with integer keys *)

(** A [dict] keeps insertion order, and iteration follows it, so it is an
    association list with distinct keys. *)
Section Dict.
Context {V : Type}.

(** [d[k]]; [None] stands for [KeyError]. *)
Fixpoint dict_lookup (d : list (Z * V)) (k : Z) : option V :=
  match d with
  | [] => None
  | (k', v) :: rest => if k' =? k then Some v else dict_lookup rest k
  end.

(** [d.get(k, default)] *)
Definition dict_get (d : list (Z * V)) (k : Z) (default : V) : V :=
  match dict_lookup d k with
  | Some v => v
  | None => default
  end.

(** [d[k] = v]: an existing key keeps its position, a new one goes last. *)
Fixpoint dict_set (d : list (Z * V)) (k : Z) (v : V) : list (Z * V) :=
  match d with
  | [] => [(k, v)]
  | (k', v') :: rest =>
      if k' =? k then (k', v) :: rest else (k', v') :: dict_set rest k v
  end.

(** A dictionary display [{k1: v1, k2: v2, ...}], entries evaluated and
    stored left to right. *)
Definition dict_display (entries : list (Z * V)) : list (Z * V) :=
  fold_left (fun d kv => dict_set d (fst kv) (snd kv)) entries [].
End Dict.

(* ================================================================= *)
(** ** Classes used as name spaces: [Baudrate] and [BaudrateEx] *)

Module Baudrate.
Definition BAUD_1MBit : Z := 0x14.
Definition BAUD_800kBit : Z := 0x16.
Definition BAUD_500kBit : Z := 0x1C.
Definition BAUD_250kBit : Z := 0x11C.
Definition BAUD_125kBit : Z := 0x31C.
Definition BAUD_100kBit : Z := 0x432F.
Definition BAUD_50kBit : Z := 0x472F.
Definition BAUD_20kBit : Z := 0x532F.
Definition BAUD_10kBit : Z := 0x672F.
Definition BAUD_USE_BTREX : Z := 0x0.
Definition BAUD_AUTO : Z := -1.
End Baudrate.

Module BaudrateEx.
Definition BAUDEX_1MBit : Z := 0x20354.
Definition BAUDEX_800kBit : Z := 0x30254.
Definition BAUDEX_500kBit : Z := 0x50354.
Definition BAUDEX_250kBit : Z := 0xB0354.
Definition BAUDEX_125kBit : Z := 0x170354.
Definition BAUDEX_100kBit : Z := 0x170466.
Definition BAUDEX_50kBit : Z := 0x2F0466.
Definition BAUDEX_20kBit : Z := 0x770466.
Definition BAUDEX_10kBit : Z := 0x80770466.
Definition BAUDEX_SP2_1MBit : Z := 0x20741.
Definition BAUDEX_SP2_800kBit : Z := 0x30731.
Definition BAUDEX_SP2_500kBit : Z := 0x50741.
Definition BAUDEX_SP2_250kBit : Z := 0xB0741.
Definition BAUDEX_SP2_125kBit : Z := 0x170741.
Definition BAUDEX_SP2_100kBit : Z := 0x1D1741.
Definition BAUDEX_SP2_50kBit : Z := 0x3B1741.
Definition BAUDEX_SP2_20kBit : Z := 0x771772.
Definition BAUDEX_SP2_10kBit : Z := 0x80771772.
Definition BAUDEX_G4_1MBit : Z := 0x406F0000.
Definition BAUDEX_G4_800kBit : Z := 0x402A0001.
Definition BAUDEX_G4_500kBit : Z := 0x406F0001.
Definition BAUDEX_G4_250kBit : Z := 0x406F0003.
Definition BAUDEX_G4_125kBit : Z := 0x406F0007.
Definition BAUDEX_G4_100kBit : Z := 0x416F0009.
Definition BAUDEX_G4_50kBit : Z := 0x416F0013.
Definition BAUDEX_G4_20kBit : Z := 0x417F002F.
Definition BAUDEX_G4_10kBit : Z := 0x417F005F.
Definition BAUDEX_USE_BTR01 : Z := 0x0.
Definition BAUDEX_AUTO : Z := 0xFFFFFFFF.
End BaudrateEx.

(** A class object as far as attribute access sees it: its name and the
    names its body binds.  The ctypes bases ([WORD], [DWORD]) bind none of
    the [BAUD_*] or [BAUDEX_*] names, so the body decides those lookups. *)
Record PyClass : Type := {
  cls_name : string;
  cls_dict : list (string * Z)
}.

Definition Baudrate_class : PyClass := {|
  cls_name := "Baudrate";
  cls_dict :=
    [ ("BAUD_1MBit", Baudrate.BAUD_1MBit);
      ("BAUD_800kBit", Baudrate.BAUD_800kBit);
      ("BAUD_500kBit", Baudrate.BAUD_500kBit);
      ("BAUD_250kBit", Baudrate.BAUD_250kBit);
      ("BAUD_125kBit", Baudrate.BAUD_125kBit);
      ("BAUD_100kBit", Baudrate.BAUD_100kBit);
      ("BAUD_50kBit", Baudrate.BAUD_50kBit);
      ("BAUD_20kBit", Baudrate.BAUD_20kBit);
      ("BAUD_10kBit", Baudrate.BAUD_10kBit);
      ("BAUD_USE_BTREX", Baudrate.BAUD_USE_BTREX);
      ("BAUD_AUTO", Baudrate.BAUD_AUTO) ]
|}.

Definition BaudrateEx_class : PyClass := {|
  cls_name := "BaudrateEx";
  cls_dict :=
    [ ("BAUDEX_1MBit", BaudrateEx.BAUDEX_1MBit);
      ("BAUDEX_800kBit", BaudrateEx.BAUDEX_800kBit);
      ("BAUDEX_500kBit", BaudrateEx.BAUDEX_500kBit);
      ("BAUDEX_250kBit", BaudrateEx.BAUDEX_250kBit);
      ("BAUDEX_125kBit", BaudrateEx.BAUDEX_125kBit);
      ("BAUDEX_100kBit", BaudrateEx.BAUDEX_100kBit);
      ("BAUDEX_50kBit", BaudrateEx.BAUDEX_50kBit);
      ("BAUDEX_20kBit", BaudrateEx.BAUDEX_20kBit);
      ("BAUDEX_10kBit", BaudrateEx.BAUDEX_10kBit);
      ("BAUDEX_SP2_1MBit", BaudrateEx.BAUDEX_SP2_1MBit);
      ("BAUDEX_SP2_800kBit", BaudrateEx.BAUDEX_SP2_800kBit);
      ("BAUDEX_SP2_500kBit", BaudrateEx.BAUDEX_SP2_500kBit);
      ("BAUDEX_SP2_250kBit", BaudrateEx.BAUDEX_SP2_250kBit);
      ("BAUDEX_SP2_125kBit", BaudrateEx.BAUDEX_SP2_125kBit);
      ("BAUDEX_SP2_100kBit", BaudrateEx.BAUDEX_SP2_100kBit);
      ("BAUDEX_SP2_50kBit", BaudrateEx.BAUDEX_SP2_50kBit);
      ("BAUDEX_SP2_20kBit", BaudrateEx.BAUDEX_SP2_20kBit);
      ("BAUDEX_SP2_10kBit", BaudrateEx.BAUDEX_SP2_10kBit);
      ("BAUDEX_G4_1MBit", BaudrateEx.BAUDEX_G4_1MBit);
      ("BAUDEX_G4_800kBit", BaudrateEx.BAUDEX_G4_800kBit);
      ("BAUDEX_G4_500kBit", BaudrateEx.BAUDEX_G4_500kBit);
      ("BAUDEX_G4_250kBit", BaudrateEx.BAUDEX_G4_250kBit);
      ("BAUDEX_G4_125kBit", BaudrateEx.BAUDEX_G4_125kBit);
      ("BAUDEX_G4_100kBit", BaudrateEx.BAUDEX_G4_100kBit);
      ("BAUDEX_G4_50kBit", BaudrateEx.BAUDEX_G4_50kBit);
      ("BAUDEX_G4_20kBit", BaudrateEx.BAUDEX_G4_20kBit);
      ("BAUDEX_G4_10kBit", BaudrateEx.BAUDEX_G4_10kBit);
      ("BAUDEX_USE_BTR01", BaudrateEx.BAUDEX_USE_BTR01);
      ("BAUDEX_AUTO", BaudrateEx.BAUDEX_AUTO) ]
|}.

Fixpoint lookup_name (d : list (string * Z)) (name : string) : option Z :=
  match d with
  | [] => None
  | (n, v) :: rest => if String.eqb n name then Some v else lookup_name rest name
  end.

(** [cls.name]: the value bound in the class, or [AttributeError]. *)
Definition getattr {S} (cls : PyClass) (name : string) : M S Z :=
  match lookup_name (cls_dict cls) name with
  | Some v => ret v
  | None => raise (AttributeError (cls_name cls) name)
  end.

(** Evaluation of the entries of a dictionary display whose keys are class
    attributes: keys are looked up left to right, and the first failing
    lookup aborts the display. *)
Fixpoint eval_entries {S} (cls : PyClass) (entries : list (string * string))
  : M S (list (Z * string)) :=
  match entries with
  | [] => ret []
  | (name, msg) :: rest =>
      k <- getattr cls name ;;
      tl <- eval_entries cls rest ;;
      ret ((k, msg) :: tl)
  end.

(** [USBCanServer.get_baudrate_message] *)
Definition get_baudrate_message {S} (baudrate : Z) : M S string :=
  entries <- eval_entries Baudrate_class
    [ ("BAUD_AUTO", "auto baudrate");
      ("BAUD_10kBit", "10 kBit/sec");
      ("BAUD_20kBit", "20 kBit/sec");
      ("BAUD_50kBit", "50 kBit/sec");
      ("BAUD_100kBit", "100 kBit/sec");
      ("BAUD_125kBit", "125 kBit/sec");
      ("BAUD_250kBit", "250 kBit/sec");
      ("BAUD_500kBit", "500 kBit/sec");
      ("BAUD_800kBit", "800 kBit/sec");
      ("BAUD_1MBit", "1 MBit/s");
      ("BAUD_USE_BTREX", "BTR Ext is used") ] ;;
  ret (dict_get (dict_display entries) baudrate "BTR is unknown (user specific)").

(** [USBCanServer.get_baudrate_ex_message]: the keys are read from
    [Baudrate], as the source has it. *)
Definition get_baudrate_ex_message {S} (baudrate_ex : Z) : M S string :=
  entries <- eval_entries Baudrate_class
    [ ("BAUDEX_AUTO", "auto baudrate");
      ("BAUDEX_10kBit", "10 kBit/sec");
      ("BAUDEX_SP2_10kBit", "10 kBit/sec");
      ("BAUDEX_20kBit", "20 kBit/sec");
      ("BAUDEX_SP2_20kBit", "20 kBit/sec");
      ("BAUDEX_50kBit", "50 kBit/sec");
      ("BAUDEX_SP2_50kBit", "50 kBit/sec");
      ("BAUDEX_100kBit", "100 kBit/sec");
      ("BAUDEX_SP2_100kBit", "100 kBit/sec");
      ("BAUDEX_125kBit", "125 kBit/sec");
      ("BAUDEX_SP2_125kBit", "125 kBit/sec");
      ("BAUDEX_250kBit", "250 kBit/sec");
      ("BAUDEX_SP2_250kBit", "250 kBit/sec");
      ("BAUDEX_500kBit", "500 kBit/sec");
      ("BAUDEX_SP2_500kBit", "500 kBit/sec");
      ("BAUDEX_800kBit", "800 kBit/sec");
      ("BAUDEX_SP2_800kBit", "800 kBit/sec");
      ("BAUDEX_1MBit", "1 MBit/s");
      ("BAUDEX_SP2_1MBit", "1 MBit/s");
      ("BAUDEX_USE_BTR01", "BTR0/BTR1 is used") ] ;;
  ret (dict_get (dict_display entries) baudrate_ex "BTR is unknown (user specific)").

(* ================================================================= *)
(** ** Version helpers *)

Definition convert_to_major_ver (version : Z) : Z := Z.land version 0xFF.

Definition convert_to_minor_ver (version : Z) : Z :=
  Z.shiftr (Z.land version 0xFF00) 8.

Definition convert_to_release_ver (version : Z) : Z :=
  Z.shiftr (Z.land version 0xFFFF0000) 16.

Definition check_version_is_equal_or_higher (version cmp_major cmp_minor : Z)
  : bool :=
  (convert_to_major_ver version >? cmp_major)
  || ((convert_to_major_ver version =? cmp_major)
      && (convert_to_minor_ver version >=? cmp_minor)).

(* ================================================================= *)
(** ** Acceptance filter registers *)

Definition calculate_amr (is_extended : bool) (from_id to_id : Z)
  (rtr_only rtr_too : bool) : Z :=
  if is_extended then
    Z.lor (Z.shiftl (Z.lxor from_id to_id) 3)
          (if rtr_too && negb rtr_only then 0x7 else 0x3)
  else
    Z.lor (Z.shiftl (Z.lxor from_id to_id) 21)
          (if rtr_too && negb rtr_only then 0x1FFFFF else 0xFFFFF).

Definition calculate_acr (is_extended : bool) (from_id to_id : Z)
  (rtr_only rtr_too : bool) : Z :=
  if is_extended then
    Z.lor (Z.shiftl (Z.land from_id to_id) 3) (if rtr_only then 0x04 else 0)
  else
    Z.lor (Z.shiftl (Z.land from_id to_id) 21) (if rtr_only then 0x100000 else 0).

(** Where an identifier sits in the 32-bit filter registers: the shift
    both functions above apply to it. *)
Definition id_shift (is_extended : bool) : Z := if is_extended then 3 else 21.

(** Number of identifier bits of a frame format. *)
Definition id_width (is_extended : bool) : Z := if is_extended then 29 else 11.

Definition register_image (is_extended : bool) (can_id : Z) : Z :=
  Z.shiftl can_id (id_shift is_extended).

(** The acceptance test the filter pair is written for (performed by the
    CAN controller, not by the wrapper): a register image passes when, on
    each of the 32 bit positions, AMR holds 1 (masked, don't care) or the
    image agrees with ACR. *)
Definition bit_passes (amr acr image i : Z) : bool :=
  Z.testbit amr i || Bool.eqb (Z.testbit image i) (Z.testbit acr i).

Definition register_bits : list Z := map Z.of_nat (seq 0 32).

Definition accepts (amr acr image : Z) : bool :=
  forallb (bit_passes amr acr image) register_bits.

(* ================================================================= *)
(** ** The process: driver library, logger and class attributes *)

(** A foreign call: the entry point and its actual arguments. *)
Definition Call : Type := (NativeFn * list Arg)%type.

(** What the driver library hands back: the raw return value, and for an
    entry point with a [Handle*] parameter the value it leaves in that
    cell. *)
Record Reply : Type := {
  r_code : Z;
  r_out : Z
}.

(** State shared by every object of the process. *)
Record World : Type := {
  trace : list Call;      (* foreign calls issued so far, oldest first *)
  log : Log;              (* records passed to logger.warning *)
  USBCanServer__connect_control_ref : option PyCallback
                          (* class attribute USBCanServer._connect_control_ref;
                             [None] is Python's None *)
}.

(** A process right after the module is imported. *)
Definition fresh_process : World := {|
  trace := [];
  log := [];
  USBCanServer__connect_control_ref := None
|}.

Definition record_call (c : Call) (w : World) : World := {|
  trace := trace w ++ [c];
  log := log w;
  USBCanServer__connect_control_ref := USBCanServer__connect_control_ref w
|}.

Definition with_log (w : World) (l : Log) : World := {|
  trace := trace w;
  log := l;
  USBCanServer__connect_control_ref := USBCanServer__connect_control_ref w
|}.

(** Runs a computation on the logger inside the process. *)
Definition on_log {A} (m : M Log A) : M World A :=
  fun w => let (o, l) := m (log w) in (o, with_log w l).

(** The attributes of one [USBCanServer] instance. *)
Record USBCanServer : Type := {
  _handle : Z;
  _is_initialized : bool;
  _hw_is_initialized : bool;
  _ch_is_initialized : list (Z * bool);
  _callback_ref : PyCallback;
  _connect_control_ref : option PyCallback
    (* the entry of the instance's own __dict__; [None] when it has none *)
}.

Definition set_handle (h : Z) (self : USBCanServer) : USBCanServer := {|
  _handle := h;
  _is_initialized := _is_initialized self;
  _hw_is_initialized := _hw_is_initialized self;
  _ch_is_initialized := _ch_is_initialized self;
  _callback_ref := _callback_ref self;
  _connect_control_ref := _connect_control_ref self
|}.

Definition set_hw_is_initialized (b : bool) (self : USBCanServer) : USBCanServer := {|
  _handle := _handle self;
  _is_initialized := _is_initialized self;
  _hw_is_initialized := b;
  _ch_is_initialized := _ch_is_initialized self;
  _callback_ref := _callback_ref self;
  _connect_control_ref := _connect_control_ref self
|}.

Definition with_channels (d : list (Z * bool)) (self : USBCanServer)
  : USBCanServer := {|
  _handle := _handle self;
  _is_initialized := _is_initialized self;
  _hw_is_initialized := _hw_is_initialized self;
  _ch_is_initialized := d;
  _callback_ref := _callback_ref self;
  _connect_control_ref := _connect_control_ref self
|}.

(** [self._ch_is_initialized[channel] = b] *)
Definition set_ch_is_initialized (channel : Z) (b : bool) (self : USBCanServer)
  : USBCanServer :=
  with_channels (dict_set (_ch_is_initialized self) channel b) self.

Definition set_connect_control_ref (cb : PyCallback) (self : USBCanServer)
  : USBCanServer := {|
  _handle := _handle self;
  _is_initialized := _is_initialized self;
  _hw_is_initialized := _hw_is_initialized self;
  _ch_is_initialized := _ch_is_initialized self;
  _callback_ref := _callback_ref self;
  _connect_control_ref := Some cb
|}.

(** [self._connect_control_ref] read through an instance: the instance's
    own entry if it has one, the class attribute otherwise. *)
Definition getattr_connect_control_ref (self : USBCanServer) (w : World)
  : option PyCallback :=
  match _connect_control_ref self with
  | Some cb => Some cb
  | None => USBCanServer__connect_control_ref w
  end.

(** The state a method of an instance runs in. *)
Definition St : Type := (USBCanServer * World)%type.

Definition on_world {A} (m : M World A) : M St A :=
  fun st => let (o, w) := m (snd st) in (o, (fst st, w)).

Definition self_get {A} (f : USBCanServer -> A) : M St A :=
  gets (fun st => f (fst st)).

Definition self_set (f : USBCanServer -> USBCanServer) : M St unit :=
  modify (fun st => (f (fst st), snd st)).

(** The properties. *)
Definition is_initialized (self : USBCanServer) : bool := _is_initialized self.

Definition is_can0_initialized (self : USBCanServer) : Outcome bool :=
  match dict_lookup (_ch_is_initialized self) Channel.CHANNEL_CH0 with
  | Some b => Returned b
  | None => Raised (KeyError Channel.CHANNEL_CH0)
  end.

Definition is_can1_initialized (self : USBCanServer) : Outcome bool :=
  match dict_lookup (_ch_is_initialized self) Channel.CHANNEL_CH1 with
  | Some b => Returned b
  | None => Raised (KeyError Channel.CHANNEL_CH1)
  end.

Definition is_install (c : Call) : bool :=
  match fst c with
  | UcanInitHwConnectControlEx => true
  | _ => false
  end.

(** How often the connect-control callback was handed to the library. *)
Definition installs (t : list Call) : nat := List.length (filter is_install t).

Definition is_deinit (c : Call) : bool :=
  match fst c with
  | UcanDeinitCanEx | UcanDeinitHardware => true
  | _ => false
  end.

Section Server.

(** The driver library: its answer to a call, given the calls before. *)
Variable dll : list Call -> Call -> Reply.

(** The library executes the call. *)
Definition native (func : NativeFn) (arguments : list Arg) : M World Reply :=
  fun w => (Returned (dll (trace w) (func, arguments)),
            record_call (func, arguments) w).

(** ctypes turns the raw value into a [ReturnCode] and runs [errcheck]. *)
Definition errcheck (r : Reply) (func : NativeFn) (arguments : list Arg)
  : M World Z :=
  on_log (check_result (BYTE (r_code r)) func arguments).

(** A checked foreign call. *)
Definition foreign (func : NativeFn) (arguments : list Arg) : M World Z :=
  r <- native func arguments ;;
  errcheck r func arguments.

(** A checked foreign call whose first argument is [byref(self._handle)]:
    the library writes the cell, then the return value is checked. *)
Definition foreign_handle (func : NativeFn) (arguments : list Arg) : M St Z :=
  r <- on_world (native func arguments) ;;
  self_set (set_handle (Handle (r_out r))) ;;
  on_world (errcheck r func arguments).

(** [USBCanServer.__init__] *)
Definition __init__ : M World USBCanServer :=
  fun w =>
    let self := {|
      _handle := Handle INVALID_HANDLE;
      _is_initialized := false;
      _hw_is_initialized := false;
      _ch_is_initialized :=
        dict_display [ (Channel.CHANNEL_CH0, false); (Channel.CHANNEL_CH1, false) ];
      _callback_ref := CallbackFktEx_callback;
      _connect_control_ref := None
    |} in
    match getattr_connect_control_ref self w with
    | None =>
        let self := set_connect_control_ref ConnectControlFktEx_connect_control self in
        match
          foreign UcanInitHwConnectControlEx
            [ ArgCallback ConnectControlFktEx_connect_control; ArgNone ] w
        with
        | (Returned _, w') => (Returned self, w')
        | (Raised e, w') => (Raised e, w')
        end
    | Some _ => (Returned self, w)
    end.

(** [USBCanServer.init_hardware] *)
Definition init_hardware (serial : option Z) (device_number : Z) : M St unit :=
  hw <- self_get _hw_is_initialized ;;
  if negb hw then
    h <- self_get _handle ;;
    cb <- self_get _callback_ref ;;
    match serial with
    | None =>
        foreign_handle UcanInitHardwareEx
          [ ArgByref h; ArgInt (BYTE device_number); ArgCallback cb; ArgNone ]
    | Some sn =>
        foreign_handle UcanInitHardwareEx2
          [ ArgByref h; ArgInt (DWORD sn); ArgCallback cb; ArgNone ]
    end ;;
    self_set (set_hw_is_initialized true)
  else ret tt.

(** [USBCanServer.init_can] *)
Definition init_can
  (channel BTR baudrate AMR ACR mode OCR rx_buffer_entries tx_buffer_entries : Z)
  : M St unit :=
  chs <- self_get _ch_is_initialized ;;
  if negb (dict_get chs channel false) then
    let init_param :=
      InitCanParam_init mode BTR OCR AMR ACR baudrate
                        rx_buffer_entries tx_buffer_entries in
    h <- self_get _handle ;;
    on_world (foreign UcanInitCanEx2
                [ ArgInt h; ArgInt (BYTE channel); ArgInitCanParam init_param ]) ;;
    self_set (set_ch_is_initialized channel true)
  else ret tt.

(** The loop of [shutdown] over [self._ch_is_initialized.items()].  The
    loop assigns only the entry it is visiting, after reading it, so the
    live view yields what the dictionary held when the loop began. *)
Fixpoint shutdown_channels (items : list (Z * bool)) (channel : Z)
  (shutdown_hardware : bool) : M St unit :=
  match items with
  | [] => ret tt
  | (_channel, is_initialized) :: rest =>
      (if is_initialized
          && ((_channel =? channel) || (channel =? Channel.CHANNEL_ALL)
              || shutdown_hardware)
       then
         h <- self_get _handle ;;
         on_world (foreign UcanDeinitCanEx [ ArgInt h; ArgInt (BYTE _channel) ]) ;;
         self_set (set_ch_is_initialized _channel false)
       else ret tt) ;;
      shutdown_channels rest channel shutdown_hardware
  end.

(** [USBCanServer.shutdown] *)
Definition shutdown (channel : Z) (shutdown_hardware : bool) : M St unit :=
  items <- self_get _ch_is_initialized ;;
  shutdown_channels items channel shutdown_hardware ;;
  hw <- self_get _hw_is_initialized ;;
  if hw && shutdown_hardware then
    h <- self_get _handle ;;
    on_world (foreign UcanDeinitHardware [ ArgInt h ]) ;;
    self_set (set_hw_is_initialized false) ;;
    self_set (set_handle (Handle INVALID_HANDLE))
  else ret tt.

(** Methods that hand their arguments to one entry point and assign no
    attribute. *)
Definition set_baudrate (channel BTR baudarate : Z) : M St unit :=
  h <- self_get _handle ;;
  on_world (foreign UcanSetBaudrateEx
              [ ArgInt h; ArgInt (BYTE channel); ArgInt (BYTE (Z.shiftr BTR 8));
                ArgInt (BYTE BTR); ArgInt (DWORD baudarate) ]) ;;
  ret tt.

Definition set_acceptance (channel AMR ACR : Z) : M St unit :=
  h <- self_get _handle ;;
  on_world (foreign UcanSetAcceptanceEx
              [ ArgInt h; ArgInt (BYTE channel); ArgInt (DWORD AMR);
                ArgInt (DWORD ACR) ]) ;;
  ret tt.

Definition reset_can (chanel flags : Z) : M St unit :=
  h <- self_get _handle ;;
  on_world (foreign UcanResetCanEx
              [ ArgInt h; ArgInt (BYTE chanel); ArgInt (DWORD flags) ]) ;;
  ret tt.

Definition enable_cyclic_can_msg (channel flags : Z) : M St unit :=
  h <- self_get _handle ;;
  on_world (foreign UcanEnableCyclicCanMsg
              [ ArgInt h; ArgInt (BYTE channel); ArgInt (DWORD flags) ]) ;;
  ret tt.

(** The shape of the remaining methods ([read_can_msg], [write_can_msg],
    [get_status], [get_msg_count_info], [get_hardware_info],
    [define_cyclic_can_msg], [read_cyclic_can_msg], [get_msg_pending],
    [get_can_error_counter], [set_tx_timeout]): one checked foreign call on
    [self._handle]; what the library writes goes to objects local to the
    call, and no attribute is assigned. *)
Definition passthrough (func : NativeFn) (rest : list Arg) : M St Z :=
  h <- self_get _handle ;;
  on_world (foreign func (ArgInt h :: rest)).

(** The states an instance can be in: it is constructed in some process
    state, and then any of its methods runs, each in whatever state the
    process has reached meanwhile, and whether it returns or raises. *)
Inductive reachable : USBCanServer -> Prop :=
| reach_new : forall w self w',
    __init__ w = (Returned self, w') -> reachable self
| reach_init_hardware : forall self w serial device_number o self' w',
    reachable self ->
    init_hardware serial device_number (self, w) = (o, (self', w')) ->
    reachable self'
| reach_init_can : forall self w channel BTR baudrate AMR ACR mode OCR rx tx o self' w',
    reachable self ->
    init_can channel BTR baudrate AMR ACR mode OCR rx tx (self, w) = (o, (self', w')) ->
    reachable self'
| reach_shutdown : forall self w channel shutdown_hardware o self' w',
    reachable self ->
    shutdown channel shutdown_hardware (self, w) = (o, (self', w')) ->
    reachable self'
| reach_set_baudrate : forall self w channel BTR baudarate o self' w',
    reachable self ->
    set_baudrate channel BTR baudarate (self, w) = (o, (self', w')) ->
    reachable self'
| reach_set_acceptance : forall self w channel AMR ACR o self' w',
    reachable self ->
    set_acceptance channel AMR ACR (self, w) = (o, (self', w')) ->
    reachable self'
| reach_reset_can : forall self w chanel flags o self' w',
    reachable self ->
    reset_can chanel flags (self, w) = (o, (self', w')) ->
    reachable self'
| reach_enable_cyclic_can_msg : forall self w channel flags o self' w',
    reachable self ->
    enable_cyclic_can_msg channel flags (self, w) = (o, (self', w')) ->
    reachable self'
| reach_passthrough : forall self w func rest o self' w',
    reachable self ->
    passthrough func rest (self, w) = (o, (self', w')) ->
    reachable self'.

End Server.

(** A driver library that answers every call with [SUCCESSFUL] and hands
    out handle 0. *)
Definition dll_ok : list Call -> Call -> Reply :=
  fun _ _ => {| r_code := ReturnCode.SUCCESSFUL; r_out := 0 |}.

(* ================================================================= *)
(** ** A sample run *)

(** The instance the first construction of a process yields. *)
Definition demo_self0 : USBCanServer := {|
  _handle := INVALID_HANDLE;
  _is_initialized := false;
  _hw_is_initialized := false;
  _ch_is_initialized := [ (Channel.CHANNEL_CH0, false); (Channel.CHANNEL_CH1, false) ];
  _callback_ref := CallbackFktEx_callback;
  _connect_control_ref := Some ConnectControlFktEx_connect_control
|}.

Definition demo_world0 : World := snd (__init__ dll_ok fresh_process).

(** ... after [init_hardware()] *)
Definition demo_st1 : St :=
  snd (init_hardware dll_ok None ANY_MODULE (demo_self0, demo_world0)).

(** ... after [init_can(CHANNEL_CH0)] with the default arguments *)
Definition demo_st2 : St :=
  snd (init_can dll_ok Channel.CHANNEL_CH0 Baudrate.BAUD_1MBit
         BaudrateEx.BAUDEX_USE_BTR01 AMR_ALL ACR_ALL Mode.MODE_NORMAL
         OutputControl.OCR_DEFAULT DEFAULT_BUFFER_ENTRIES DEFAULT_BUFFER_ENTRIES
         demo_st1).

(** ... after [init_can(CHANNEL_CH1)] *)
Definition demo_st3 : St :=
  snd (init_can dll_ok Channel.CHANNEL_CH1 Baudrate.BAUD_1MBit
         BaudrateEx.BAUDEX_USE_BTR01 AMR_ALL ACR_ALL Mode.MODE_NORMAL
         OutputControl.OCR_DEFAULT DEFAULT_BUFFER_ENTRIES DEFAULT_BUFFER_ENTRIES
         demo_st2).

(** ... after [shutdown()] *)
Definition demo_st4 : St :=
  snd (shutdown dll_ok Channel.CHANNEL_ALL true demo_st3).

(** A library whose module is unplugged once the channels are up: the
    initialization entry points succeed, the two deinitialization entry
    points report [ERR_DISCONECT]. *)
Definition dll_unplugged : list Call -> Call -> Reply :=
  fun _ c =>
    if is_deinit c
    then {| r_code := ReturnCode.ERR_DISCONECT; r_out := 0 |}
    else {| r_code := ReturnCode.SUCCESSFUL; r_out := 0 |}.

Definition unplugged_world0 : World := snd (__init__ dll_unplugged fresh_process).

(** ... after [init_hardware()] *)
Definition unplugged_st1 : St :=
  snd (init_hardware dll_unplugged None ANY_MODULE (demo_self0, unplugged_world0)).

(** ... after [init_can(CHANNEL_CH0)] *)
Definition unplugged_st2 : St :=
  snd (init_can dll_unplugged Channel.CHANNEL_CH0 Baudrate.BAUD_1MBit
         BaudrateEx.BAUDEX_USE_BTR01 AMR_ALL ACR_ALL Mode.MODE_NORMAL
         OutputControl.OCR_DEFAULT DEFAULT_BUFFER_ENTRIES DEFAULT_BUFFER_ENTRIES
         unplugged_st1).

(** ... after a first [shutdown()] *)
Definition unplugged_st3 : St :=
  snd (shutdown dll_unplugged Channel.CHANNEL_ALL true unplugged_st2).

(** A library that finds no module: the hardware initialization entry
    points report [ERR_ILLHW], and they have already written 5 into the
    handle cell by then. *)
Definition dll_stale : list Call -> Call -> Reply :=
  fun _ c =>
    match fst c with
    | UcanInitHardwareEx | UcanInitHardwareEx2 =>
        {| r_code := ReturnCode.ERR_ILLHW; r_out := 5 |}
    | _ => {| r_code := ReturnCode.SUCCESSFUL; r_out := 0 |}
    end.

(** ... after a failed [init_hardware()] *)
Definition stale_st1 : St :=
  snd (init_hardware dll_stale None ANY_MODULE
         (demo_self0, snd (__init__ dll_stale fresh_process))).

(** A library that, whenever it reports an error, leaves the sentinel in
    the handle cell. *)
Definition keeps_sentinel_on_error (dll : list Call -> Call -> Reply) : Prop :=
  forall t c,
    check_error (BYTE (r_code (dll t c))) = true ->
    Handle (r_out (dll t c)) = INVALID_HANDLE.

(* ================================================================= *)
(** ** Vocabulary of the statements *)

(** The data-model invariant tying the handle to the hardware flag: while
    the hardware is not initialized the handle is the sentinel. *)
Definition handle_inv (self : USBCanServer) : Prop :=
  _hw_is_initialized self = false -> _handle self = INVALID_HANDLE.

(** A dictionary of channel flags is well formed when its keys are
    distinct and both hardware channels have an entry. *)
Definition channels_wf (d : list (Z * bool)) : Prop :=
  NoDup (map fst d)
  /\ In Channel.CHANNEL_CH0 (map fst d)
  /\ In Channel.CHANNEL_CH1 (map fst d).

(** Idempotence of [shutdown(CHANNEL_ALL, True)] from a state, in the
    words of the specification: after a first call both channel flags and
    the hardware flag are false and the handle is the sentinel, and a second
    call right after returns without an error and leaves instance and
    process (hence the trace of foreign calls) as they were. *)
Definition shutdown_is_idempotent_at (dll : list Call -> Call -> Reply) (st : St)
  : Prop :=
  is_can0_initialized (fst (snd (shutdown dll Channel.CHANNEL_ALL true st)))
    = Returned false
  /\ is_can1_initialized (fst (snd (shutdown dll Channel.CHANNEL_ALL true st)))
     = Returned false
  /\ _hw_is_initialized (fst (snd (shutdown dll Channel.CHANNEL_ALL true st))) = false
  /\ _handle (fst (snd (shutdown dll Channel.CHANNEL_ALL true st))) = INVALID_HANDLE
  /\ shutdown dll Channel.CHANNEL_ALL true
       (snd (shutdown dll Channel.CHANNEL_ALL true st))
     = (Returned tt, snd (shutdown dll Channel.CHANNEL_ALL true st)).

(** Every flag of the dictionary is false. *)
Definition all_clear (d : list (Z * bool)) : Prop :=
  forall kv, In kv d -> snd kv = false.

(** What one turn of the loop of [shutdown] does to the dictionary when it
    deinitializes every initialized channel. *)
Definition clear_entry (d : list (Z * bool)) (kv : Z * bool) : list (Z * bool) :=
  if snd kv then dict_set d (fst kv) false else d.

Definition cleared (kv : Z * bool) : Z * bool := (fst kv, false).

(** An invariant of the instance that an assignment to [_handle], to
    [_hw_is_initialized], or to an entry of [_ch_is_initialized] keeps. *)
Definition stable_handle (I : USBCanServer -> Prop) : Prop :=
  forall h s, I s -> I (set_handle h s).

Definition stable_hw (I : USBCanServer -> Prop) : Prop :=
  forall b s, I s -> I (set_hw_is_initialized b s).

Definition stable_ch (I : USBCanServer -> Prop) : Prop :=
  forall k b s, I s -> I (set_ch_is_initialized k b s).

(** A computation keeps an invariant of the instance, whether it returns
    or raises. *)
Definition preserves {A} (I : USBCanServer -> Prop) (m : M St A) : Prop :=
  forall st o st', I (fst st) -> m st = (o, st') -> I (fst st').

(** The payload built from the three arguments of [check_result]. *)
Definition payload (result : Z) (func : NativeFn) (arguments : list Arg)
  : USBCanException :=
  {| exc_result := result; exc_func := func; exc_arguments := arguments |}.

(** Version 2.16 with release 5, as the driver encodes it. *)
Definition version_2_16 : Z := Z.lor (Z.lor 2 (Z.shiftl 16 8)) (Z.shiftl 5 16).

(* ================================================================= *)
(** ** Structures *)

(** Exceptions the structure classes can raise. *)
Inductive PyError : Type :=
| IndexError           (* too many initializers for a ctypes array *)
| TypeError            (* calling an object that is not callable *)
| ReadOnlyAttribute.   (* AttributeError: assigning a property without setter *)

Inductive Result (A : Type) : Type :=
| Ok (a : A)
| Err (e : PyError).
Arguments Ok {A} a.
Arguments Err {A} e.

(** The array type [BYTE * 8] called with the items of [init] as
    initializers: at most eight of them, each stored as a byte, the rest of
    the array zero. *)
Definition BYTE_Array_8 (init : list Z) : Result (list Z) :=
  if (8 <? List.length init)%nat then Err IndexError
  else Ok (map BYTE init ++ repeat 0 (8 - List.length init)).

(** [class CanMsg(Structure)] *)
Record CanMsg : Type := {
  m_dwID : Z;
  m_bFF : Z;
  m_bDLC : Z;
  m_bData : list Z;
  m_dwTime : Z
}.

(** [CanMsg.__init__(id, frame_format, data)] *)
Definition CanMsg_init (id frame_format : Z) (data : list Z) : Result CanMsg :=
  match BYTE_Array_8 data with
  | Err e => Err e
  | Ok arr =>
      Ok {| m_dwID := DWORD id;
            m_bFF := BYTE frame_format;
            m_bDLC := BYTE (Z.of_nat (List.length data));
            m_bData := arr;
            m_dwTime := DWORD 0 |}
  end.

(** The properties [id], [frame_format], [data], [time]. *)
Definition CanMsg_id (self : CanMsg) : Z := m_dwID self.
Definition CanMsg_frame_format (self : CanMsg) : Z := m_bFF self.
Definition CanMsg_time (self : CanMsg) : Z := m_dwTime self.

(** [self.m_bData[:self.m_bDLC]]: a slice stops at the end of the array. *)
Definition CanMsg_data (self : CanMsg) : list Z :=
  firstn (Z.to_nat (m_bDLC self)) (m_bData self).

Definition CanMsg_set_id (id : Z) (self : CanMsg) : CanMsg := {|
  m_dwID := DWORD id;
  m_bFF := m_bFF self;
  m_bDLC := m_bDLC self;
  m_bData := m_bData self;
  m_dwTime := m_dwTime self
|}.

Definition CanMsg_set_frame_format (frame_format : Z) (self : CanMsg) : CanMsg := {|
  m_dwID := m_dwID self;
  m_bFF := BYTE frame_format;
  m_bDLC := m_bDLC self;
  m_bData := m_bData self;
  m_dwTime := m_dwTime self
|}.

Definition CanMsg_with_DLC (dlc : Z) (self : CanMsg) : CanMsg := {|
  m_dwID := m_dwID self;
  m_bFF := m_bFF self;
  m_bDLC := dlc;
  m_bData := m_bData self;
  m_dwTime := m_dwTime self
|}.

(** The setter of [data]: it stores the length, builds the new array, and
    then calls [self.m_bData] with it; a ctypes array is not callable.  The
    result is the outcome together with the message as the setter leaves
    it. *)
Definition CanMsg_set_data (data : list Z) (self : CanMsg) : Result unit * CanMsg :=
  let self1 := CanMsg_with_DLC (BYTE (Z.of_nat (List.length data))) self in
  match BYTE_Array_8 data with
  | Err e => (Err e, self1)
  | Ok _ => (Err TypeError, self1)
  end.

(** A Python [property] object: its getter and, once [setter] was applied,
    its setter. *)
Record property (Obj V : Type) : Type := {
  fget : Obj -> V;
  fset : option (V -> Obj -> Obj)
}.
Arguments fget {Obj V} p.
Arguments fset {Obj V} p.

(** [@property] applied to a getter. *)
Definition property_of {Obj V} (getter : Obj -> V) : property Obj V :=
  {| fget := getter; fset := None |}.

(** [@p.setter] applied to a function: a copy of [p] with that setter. *)
Definition property_setter {Obj V} (p : property Obj V) (f : V -> Obj -> Obj)
  : property Obj V :=
  {| fget := fget p; fset := Some f |}.

(** [obj.name] and [obj.name = v] through the property bound to [name]. *)
Definition property_get {Obj V} (p : property Obj V) (obj : Obj) : V := fget p obj.

Definition property_set {Obj V} (p : property Obj V) (v : V) (obj : Obj)
  : Result Obj :=
  match fset p with
  | Some f => Ok (f v obj)
  | None => Err ReadOnlyAttribute
  end.

Definition InitCanParam_with_BTR (btr0 btr1 : Z) (self : InitCanParam)
  : InitCanParam := {|
  m_dwSize := m_dwSize self;
  m_bMode := m_bMode self;
  m_bBTR0 := btr0;
  m_bBTR1 := btr1;
  m_bOCR := m_bOCR self;
  m_dwAMR := m_dwAMR self;
  m_dwACR := m_dwACR self;
  m_dwBaudrate := m_dwBaudrate self;
  m_wNrOfRxBufferEntries := m_wNrOfRxBufferEntries self;
  m_wNrOfTxBufferEntries := m_wNrOfTxBufferEntries self
|}.

Definition InitCanParam_with_rx (v : Z) (self : InitCanParam) : InitCanParam := {|
  m_dwSize := m_dwSize self;
  m_bMode := m_bMode self;
  m_bBTR0 := m_bBTR0 self;
  m_bBTR1 := m_bBTR1 self;
  m_bOCR := m_bOCR self;
  m_dwAMR := m_dwAMR self;
  m_dwACR := m_dwACR self;
  m_dwBaudrate := m_dwBaudrate self;
  m_wNrOfRxBufferEntries := v;
  m_wNrOfTxBufferEntries := m_wNrOfTxBufferEntries self
|}.

Definition InitCanParam_with_tx (v : Z) (self : InitCanParam) : InitCanParam := {|
  m_dwSize := m_dwSize self;
  m_bMode := m_bMode self;
  m_bBTR0 := m_bBTR0 self;
  m_bBTR1 := m_bBTR1 self;
  m_bOCR := m_bOCR self;
  m_dwAMR := m_dwAMR self;
  m_dwACR := m_dwACR self;
  m_dwBaudrate := m_dwBaudrate self;
  m_wNrOfRxBufferEntries := m_wNrOfRxBufferEntries self;
  m_wNrOfTxBufferEntries := v
|}.

(** The property [BTR] of [InitCanParam] (and of [ChannelInfo]):
    [self.m_bBTR0 << 8 | self.m_bBTR1], and its setter
    [self.m_bBTR0, self.m_bBTR1 = BTR >> 8, BTR]. *)
Definition InitCanParam_BTR (self : InitCanParam) : Z :=
  Z.lor (Z.shiftl (m_bBTR0 self) 8) (m_bBTR1 self).

Definition InitCanParam_set_BTR (BTR : Z) (self : InitCanParam) : InitCanParam :=
  InitCanParam_with_BTR (BYTE (Z.shiftr BTR 8)) (BYTE BTR) self.

(** The class body of [InitCanParam] binds [rx_buffer_entries] and
    [tx_buffer_entries] in four steps, in this order:
    [@property def rx_buffer_entries],
    [@rx_buffer_entries.setter def rx_buffer_entries],
    [@property def tx_buffer_entries],
    [@rx_buffer_entries.setter def tx_buffer_entries]. *)
Definition rx_buffer_entries_getter : property InitCanParam Z :=
  property_of m_wNrOfRxBufferEntries.

Definition InitCanParam_rx_buffer_entries : property InitCanParam Z :=
  property_setter rx_buffer_entries_getter
    (fun rx_buffer_entries => InitCanParam_with_rx (WORD rx_buffer_entries)).

Definition tx_buffer_entries_getter : property InitCanParam Z :=
  property_of m_wNrOfTxBufferEntries.

(** The last binding of [tx_buffer_entries] replaces [tx_buffer_entries_getter]. *)
Definition InitCanParam_tx_buffer_entries : property InitCanParam Z :=
  property_setter InitCanParam_rx_buffer_entries
    (fun tx_buffer_entries => InitCanParam_with_tx (WORD tx_buffer_entries)).

(* ================================================================= *)
(** ** CAN status messages *)

Module CanStatus.
Definition CANERR_OK : Z := 0x0.
Definition CANERR_XMTFULL : Z := 0x1.
Definition CANERR_OVERRUN : Z := 0x2.
Definition CANERR_BUSLIGHT : Z := 0x4.
Definition CANERR_BUSHEAVY : Z := 0x8.
Definition CANERR_BUSOFF : Z := 0x10.
Definition CANERR_QRCVEMPTY : Z := 0x20.
Definition CANERR_QOVERRUN : Z := 0x40.
Definition CANERR_QXMTFULL : Z := 0x80.
Definition CANERR_REGTEST : Z := 0x100.
Definition CANERR_MEMTEST : Z := 0x200.
Definition CANERR_TXMSGLOST : Z := 0x400.
End CanStatus.

(** The table of [get_can_status_message], in insertion order. *)
Definition status_msgs : list (Z * string) :=
  dict_display
    [ (CanStatus.CANERR_TXMSGLOST, "Transmit message lost");
      (CanStatus.CANERR_MEMTEST, "Memory test failed");
      (CanStatus.CANERR_REGTEST, "Register test failed");
      (CanStatus.CANERR_QXMTFULL, "Transmit queue is full");
      (CanStatus.CANERR_QOVERRUN, "Receive queue overrun");
      (CanStatus.CANERR_QRCVEMPTY, "Receive queue is empty");
      (CanStatus.CANERR_BUSOFF, "Bus Off");
      (CanStatus.CANERR_BUSHEAVY, "Error Passive");
      (CanStatus.CANERR_BUSLIGHT, "Warning Limit");
      (CanStatus.CANERR_OVERRUN, "Rx-buffer is full");
      (CanStatus.CANERR_XMTFULL, "Tx-buffer is full") ].

(** The messages the generator yields: those whose flag shares a bit with
    [can_status]. *)
Definition selected_msgs (can_status : Z) : list string :=
  map snd (filter (fun kv => negb (Z.land can_status (fst kv) =? 0)) status_msgs).

(** [USBCanServer.get_can_status_message] *)
Definition get_can_status_message (can_status : Z) : string :=
  if can_status =? CanStatus.CANERR_OK then "OK"
  else String.concat ", " (selected_msgs can_status).

(* ================================================================= *)
(** ** Product codes and capability tests *)

Definition PRODCODE_PID_TWO_CHA : Z := 0x1.
Definition PRODCODE_PID_TERM : Z := 0x1.
Definition PRODCODE_PID_RBUSER : Z := 0x1.
Definition PRODCODE_PID_RBCAN : Z := 0x1.
Definition PRODCODE_PID_G4 : Z := 0x20.
Definition PRODCODE_PID_RESVD : Z := 0x40.

Definition PRODCODE_MASK_DID : Z := 0xFFFF0000.
Definition PRODCODE_MASK_PID : Z := 0xFFFF.
Definition PRODCODE_MASK_PIDG3 : Z := Z.land PRODCODE_MASK_PID 0xFFFFFFBF.

Module ProductCode.
Definition PRODCODE_PID_GW001 : Z := 0x1100.
Definition PRODCODE_PID_GW002 : Z := 0x1102.
Definition PRODCODE_PID_MULTIPORT : Z := 0x1103.
Definition PRODCODE_PID_BASIC : Z := 0x1104.
Definition PRODCODE_PID_ADVANCED : Z := 0x1105.
Definition PRODCODE_PID_USBCAN8 : Z := 0x1107.
Definition PRODCODE_PID_USBCAN16 : Z := 0x1109.
Definition PRODCODE_PID_RESERVED3 : Z := 0x1110.
Definition PRODCODE_PID_ADVANCED_G4 : Z := 0x1121.
Definition PRODCODE_PID_BASIC_G4 : Z := 0x1122.
Definition PRODCODE_PID_RESERVED1 : Z := 0x1144.
Definition PRODCODE_PID_RESERVED2 : Z := 0x1145.
End ProductCode.

(** [class HardwareInfoEx(Structure)] *)
Module HardwareInfoEx.
Record t : Type := {
  m_dwSize : Z;
  m_UcanHandle : Z;
  m_bDeviceNr : Z;
  m_dwSerialNr : Z;
  m_dwFwVersionEx : Z;
  m_dwProductCode : Z;
  m_dwUniqueId0 : Z;
  m_dwUniqueId1 : Z;
  m_dwUniqueId2 : Z;
  m_dwUniqueId3 : Z;
  m_dwFlags : Z
}.
End HardwareInfoEx.

(** What a Python expression built with [and] over a comparison and a
    masked integer can evaluate to. *)
Inductive PyVal : Type :=
| PyBool (b : bool)
| PyInt (z : Z).

(** Truth value testing. *)
Definition truthy (v : PyVal) : bool :=
  match v with
  | PyBool b => b
  | PyInt z => negb (z =? 0)
  end.

Definition check_is_systec (hw_info_ex : HardwareInfoEx.t) : bool :=
  Z.land (HardwareInfoEx.m_dwProductCode hw_info_ex) PRODCODE_MASK_PID
  >=? ProductCode.PRODCODE_PID_MULTIPORT.

(** Returns the masked integer, not a [bool]. *)
Definition check_is_G4 (hw_info_ex : HardwareInfoEx.t) : Z :=
  Z.land (HardwareInfoEx.m_dwProductCode hw_info_ex) PRODCODE_PID_G4.

Definition check_is_G3 (hw_info_ex : HardwareInfoEx.t) : bool :=
  check_is_systec hw_info_ex && negb (truthy (PyInt (check_is_G4 hw_info_ex))).

Definition check_support_cyclic_msg (hw_info_ex : HardwareInfoEx.t) : bool :=
  check_is_systec hw_info_ex
  && check_version_is_equal_or_higher
       (HardwareInfoEx.m_dwFwVersionEx hw_info_ex) 3 6.

(** [check_is_systec(...) and (product_code & PRODCODE_PID_TWO_CHA)]: [False]
    when the first operand is false, the masked integer otherwise. *)
Definition check_support_two_channel (hw_info_ex : HardwareInfoEx.t) : PyVal :=
  if check_is_systec hw_info_ex
  then PyInt (Z.land (HardwareInfoEx.m_dwProductCode hw_info_ex) PRODCODE_PID_TWO_CHA)
  else PyBool false.

Definition check_support_term_resistor (hw_info_ex : HardwareInfoEx.t) : Z :=
  Z.land (HardwareInfoEx.m_dwProductCode hw_info_ex) PRODCODE_PID_TERM.

Definition check_support_user_port (hw_info_ex : HardwareInfoEx.t) : bool :=
  negb (Z.land (HardwareInfoEx.m_dwProductCode hw_info_ex) PRODCODE_MASK_PID
        =? ProductCode.PRODCODE_PID_BASIC)
  && negb (Z.land (HardwareInfoEx.m_dwProductCode hw_info_ex) PRODCODE_MASK_PID
           =? ProductCode.PRODCODE_PID_RESERVED1)
  && check_version_is_equal_or_higher
       (HardwareInfoEx.m_dwFwVersionEx hw_info_ex) 2 16.

Definition check_support_rb_user_port (hw_info_ex : HardwareInfoEx.t) : Z :=
  Z.land (HardwareInfoEx.m_dwProductCode hw_info_ex) PRODCODE_PID_RBUSER.

Definition check_support_rb_can_port (hw_info_ex : HardwareInfoEx.t) : Z :=
  Z.land (HardwareInfoEx.m_dwProductCode hw_info_ex) PRODCODE_PID_RBCAN.

Definition check_support_ucannet (hw_info_ex : HardwareInfoEx.t) : bool :=
  check_is_systec hw_info_ex
  && check_version_is_equal_or_higher
       (HardwareInfoEx.m_dwFwVersionEx hw_info_ex) 3 8.

(* ================================================================= *)
(** ** Rendering exceptions *)

(** [func.__name__] of an entry point of the library. *)
Definition func_name (func : NativeFn) : string :=
  match func with
  | UcanInitHwConnectControlEx => "UcanInitHwConnectControlEx"
  | UcanDeinitHwConnectControl => "UcanDeinitHwConnectControl"
  | UcanInitHardwareEx => "UcanInitHardwareEx"
  | UcanInitHardwareEx2 => "UcanInitHardwareEx2"
  | UcanGetModuleTime => "UcanGetModuleTime"
  | UcanGetHardwareInfoEx2 => "UcanGetHardwareInfoEx2"
  | UcanInitCanEx2 => "UcanInitCanEx2"
  | UcanSetBaudrateEx => "UcanSetBaudrateEx"
  | UcanSetAcceptanceEx => "UcanSetAcceptanceEx"
  | UcanResetCanEx => "UcanResetCanEx"
  | UcanReadCanMsgEx => "UcanReadCanMsgEx"
  | UcanWriteCanMsgEx => "UcanWriteCanMsgEx"
  | UcanGetStatusEx => "UcanGetStatusEx"
  | UcanGetMsgCountInfoEx => "UcanGetMsgCountInfoEx"
  | UcanGetMsgPending => "UcanGetMsgPending"
  | UcanGetCanErrorCounter => "UcanGetCanErrorCounter"
  | UcanSetTxTimeout => "UcanSetTxTimeout"
  | UcanDeinitCanEx => "UcanDeinitCanEx"
  | UcanDeinitHardware => "UcanDeinitHardware"
  | UcanDefineCyclicCanMsg => "UcanDefineCyclicCanMsg"
  | UcanReadCyclicCanMsg => "UcanReadCyclicCanMsg"
  | UcanEnableCyclicCanMsg => "UcanEnableCyclicCanMsg"
  end.

(** [self.return_msgs] as each subclass sets it in [__init__]. *)
Definition USBCanError_return_msgs : list (Z * string) :=
  dict_display
    [ (ReturnCode.ERR_RESOURCE, "could not created a resource (memory, handle, ...)");
      (ReturnCode.ERR_MAXMODULES, "the maximum number of opened modules is reached");
      (ReturnCode.ERR_HWINUSE, "the specified module is already in use");
      (ReturnCode.ERR_ILLVERSION,
       "the software versions of the module and library are incompatible");
      (ReturnCode.ERR_ILLHW,
       "the module with the specified device number is not connected (or used by an other application)");
      (ReturnCode.ERR_ILLHANDLE, "wrong USB-CAN-Handle handed over to the function");
      (ReturnCode.ERR_ILLPARAM, "wrong parameter handed over to the function");
      (ReturnCode.ERR_BUSY, "instruction can not be processed at this time");
      (ReturnCode.ERR_TIMEOUT, "no answer from module");
      (ReturnCode.ERR_IOFAILED, "a request to the driver failed");
      (ReturnCode.ERR_DLL_TXFULL, "a CAN message did not fit into the transmit buffer");
      (ReturnCode.ERR_MAXINSTANCES, "maximum number of applications is reached");
      (ReturnCode.ERR_CANNOTINIT, "CAN interface is not yet initialized");
      (ReturnCode.ERR_DISCONECT, "USB-CANmodul was disconnected");
      (ReturnCode.ERR_NOHWCLASS, "the needed device class does not exist");
      (ReturnCode.ERR_ILLCHANNEL, "illegal CAN channel");
      (ReturnCode.ERR_RESERVED1, "reserved");
      (ReturnCode.ERR_ILLHWTYPE, "the API function can not be used with this hardware") ].

Definition USBCanCmdError_return_msgs : list (Z * string) :=
  dict_display
    [ (ReturnCode.ERRCMD_NOTEQU,
       "the received response does not match to the transmitted command");
      (ReturnCode.ERRCMD_REGTST, "no access to the CAN controller");
      (ReturnCode.ERRCMD_ILLCMD, "the module could not interpret the command");
      (ReturnCode.ERRCMD_EEPROM, "error while reading the EEPROM");
      (ReturnCode.ERRCMD_RESERVED1, "reserved");
      (ReturnCode.ERRCMD_RESERVED2, "reserved");
      (ReturnCode.ERRCMD_RESERVED3, "reserved");
      (ReturnCode.ERRCMD_ILLBDR,
       "illegal baud rate value specified in BTR0/BTR1 for systec USB-CANmoduls");
      (ReturnCode.ERRCMD_NOTINIT, "CAN channel is not initialized");
      (ReturnCode.ERRCMD_ALREADYINIT, "CAN channel is already initialized");
      (ReturnCode.ERRCMD_ILLSUBCMD, "illegal sub-command specified");
      (ReturnCode.ERRCMD_ILLIDX,
       "illegal index specified (e.g. index for cyclic CAN messages)");
      (ReturnCode.ERRCMD_RUNNING,
       "cyclic CAN message(s) can not be defined because transmission of cyclic CAN messages is already running") ].

Definition USBCanWarning_return_msgs : list (Z * string) :=
  dict_display
    [ (ReturnCode.WARN_NODATA, "no CAN messages received");
      (ReturnCode.WARN_SYS_RXOVERRUN, "overrun in receive buffer of the kernel driver");
      (ReturnCode.WARN_DLL_RXOVERRUN, "overrun in receive buffer of the USB-CAN-library");
      (ReturnCode.WARN_RESERVED1, "reserved");
      (ReturnCode.WARN_RESERVED2, "reserved");
      (ReturnCode.WARN_FW_TXOVERRUN,
       "overrun in transmit buffer of the firmware (but this CAN message was successfully stored in buffer of the ibrary)");
      (ReturnCode.WARN_FW_RXOVERRUN,
       "overrun in receive buffer of the firmware (but this CAN message was successfully read)");
      (ReturnCode.WARN_FW_TXMSGLOST, "reserved");
      (ReturnCode.WARN_NULL_PTR, "pointer is NULL");
      (ReturnCode.WARN_TXLIMIT,
       "not all CAN messages could be stored to the transmit buffer in USB-CAN-library");
      (ReturnCode.WARN_BUSY, "reserved") ].

(** [return_msgs.get(self.result, "unknown")] for the three classes built
    by [check_result]. *)
Definition message_text (e : Exn) : string :=
  match e with
  | USBCanError x => dict_get USBCanError_return_msgs (exc_result x) "unknown"
  | USBCanCmdError x => dict_get USBCanCmdError_return_msgs (exc_result x) "unknown"
  | USBCanWarning x => dict_get USBCanWarning_return_msgs (exc_result x) "unknown"
  | _ => "unknown"
  end.

(** ["%d" % n] *)
Definition format_d (n : Z) : string := NilZero.string_of_int (Z.to_int n).

(** [USBCanException.__str__] for the three classes built by
    [check_result]. *)
Definition USBCanException_str (e : Exn) : string :=
  match e with
  | USBCanError x | USBCanCmdError x | USBCanWarning x =>
      "Function " ++ func_name (exc_func x) ++ " returned "
      ++ format_d (exc_result x) ++ ": " ++ message_text e
  | _ => ""
  end.

(** The record [check_result] builds for a code: the exception it raises or
    the warning it logs; none for [SUCCESSFUL]. *)
Definition record_built (result : Z) (func : NativeFn) (arguments : list Arg)
  : option Exn :=
  match check_result result func arguments [] with
  | (Raised e, _) => Some e
  | (Returned _, l) => hd_error l
  end.

(** The return codes that have a name in [ReturnCode]. *)
Definition named_code (c : Z) : bool :=
  ((1 <=? c) && (c <=? 0x12)) || ((0x40 <=? c) && (c <=? 0x4C))
  || ((0x80 <=? c) && (c <=? 0x87)) || ((0x90 <=? c) && (c <=? 0x92)).

(* ================================================================= *)
(** ** Sample structures *)

(** A USB-CANmodul2 G3 with firmware 3.8. *)
Definition sample_hw_info : HardwareInfoEx.t := {|
  HardwareInfoEx.m_dwSize := 36;
  HardwareInfoEx.m_UcanHandle := 0;
  HardwareInfoEx.m_bDeviceNr := 0;
  HardwareInfoEx.m_dwSerialNr := 4711;
  HardwareInfoEx.m_dwFwVersionEx := Z.lor 3 (Z.shiftl 8 8);
  HardwareInfoEx.m_dwProductCode := ProductCode.PRODCODE_PID_ADVANCED;
  HardwareInfoEx.m_dwUniqueId0 := 0;
  HardwareInfoEx.m_dwUniqueId1 := 0;
  HardwareInfoEx.m_dwUniqueId2 := 0;
  HardwareInfoEx.m_dwUniqueId3 := 0;
  HardwareInfoEx.m_dwFlags := 0
|}.

(** A received message whose length code exceeds the eight data bytes. *)
Definition sample_msg : CanMsg := {|
  m_dwID := 0x123;
  m_bFF := 0;
  m_bDLC := 3;
  m_bData := [0x11; 0x22; 0x33; 0x44; 0x55; 0x66; 0x77; 0x88];
  m_dwTime := 1000
|}.

(* ================================================================= *)
(** ** Vocabulary of the further statements *)

(** The text looked up for a code by the class [check_result] picks for it. *)
Definition class_text (c : Z) : string :=
  if check_warning c then dict_get USBCanWarning_return_msgs c "unknown"
  else if check_error c then
    if check_error_cmd c then dict_get USBCanCmdError_return_msgs c "unknown"
    else dict_get USBCanError_return_msgs c "unknown"
  else "unknown".

Definition all_bytes : list Z := map Z.of_nat (seq 0 256).

(** The foreign call [init_can] issues. *)
Definition init_can_call (self : USBCanServer)
  (channel BTR baudrate AMR ACR mode OCR rx_buffer_entries tx_buffer_entries : Z)
  : Call :=
  (UcanInitCanEx2,
   [ ArgInt (_handle self); ArgInt (BYTE channel);
     ArgInitCanParam (InitCanParam_init mode BTR OCR AMR ACR baudrate
                        rx_buffer_entries tx_buffer_entries) ]).

(** The foreign call [init_hardware] issues. *)
Definition init_hardware_call (self : USBCanServer) (serial : option Z)
  (device_number : Z) : Call :=
  match serial with
  | None =>
      (UcanInitHardwareEx,
       [ ArgByref (_handle self); ArgInt (BYTE device_number);
         ArgCallback (_callback_ref self); ArgNone ])
  | Some sn =>
      (UcanInitHardwareEx2,
       [ ArgByref (_handle self); ArgInt (DWORD sn);
         ArgCallback (_callback_ref self); ArgNone ])
  end.



(** The sample run, branching off after both channels are up:
    [shutdown(CHANNEL_CH0, False)]. *)
Definition demo_st5 : St :=
  snd (shutdown dll_ok Channel.CHANNEL_CH0 false demo_st3).

(** The library reports no error (it may report warnings). *)
Definition reports_no_error (dll : list Call -> Call -> Reply) : Prop :=
  forall t c, check_error (BYTE (r_code (dll t c))) = false.

(** One [UcanDeinitCanEx] call per entry flagged initialized, in the order
    of the dictionary. *)
Definition deinit_channel_calls (h : Z) (items : list (Z * bool)) : list Call :=
  map (fun kv => (UcanDeinitCanEx, [ArgInt h; ArgInt (BYTE (fst kv))]))
      (filter snd items).

(** The calls a complete shutdown of an instance consists of. *)
Definition deinit_calls (self : USBCanServer) : list Call :=
  deinit_channel_calls (_handle self) (_ch_is_initialized self)
  ++ (if _hw_is_initialized self
      then [(UcanDeinitHardware, [ArgInt (_handle self)])]
      else []).

(* ================================================================= *)
(** * Properties *)

(* ================================================================= *)
(** ** The return-code taxonomy *)

Ltac unfold_codes :=
  unfold check_valid_rx_can_msg, check_tx_ok, check_tx_success, check_tx_not_all,
    check_warning, check_error, check_error_cmd,
    ReturnCode.SUCCESSFUL, ReturnCode.ERRCMD, ReturnCode.WARNING,
    ReturnCode.WARN_TXLIMIT in *.

Ltac bool_to_Z :=
  repeat rewrite ?andb_true_iff, ?orb_true_iff, ?negb_true_iff,
    ?Z.eqb_eq, ?Z.eqb_neq, ?Z.ltb_lt, ?Z.geb_le, ?Z.gtb_lt in *.

Lemma check_warning_true (c : Z) : check_warning c = true <-> 0x80 <= c.
Proof. unfold_codes. bool_to_Z. lia. Qed.

Lemma check_error_true (c : Z) : check_error c = true <-> c <> 0 /\ c < 0x80.
Proof. unfold_codes. bool_to_Z. lia. Qed.

Lemma check_error_cmd_true (c : Z) : check_error_cmd c = true <-> 0x40 <= c < 0x80.
Proof. unfold_codes. bool_to_Z. lia. Qed.

Lemma check_warning_false (c : Z) : check_warning c = false <-> c < 0x80.
Proof.
  rewrite <- not_true_iff_false, check_warning_true. lia.
Qed.

Lemma check_error_false (c : Z) : check_error c = false <-> c = 0 \/ 0x80 <= c.
Proof.
  rewrite <- not_true_iff_false, check_error_true. lia.
Qed.

Lemma check_error_cmd_false (c : Z) : check_error_cmd c = false <-> c < 0x40 \/ 0x80 <= c.
Proof.
  rewrite <- not_true_iff_false, check_error_cmd_true. lia.
Qed.

(** C2.  On a byte-valued return code, [check_error] holds exactly for the
    nonzero codes below [0x80], [check_warning] exactly from [0x80] on, the
    two never hold together, and [check_error_cmd] holds exactly on the
    firmware band [0x40 .. 0x7F]. *)
Theorem check_bands (c : Z) (Hbyte : 0 <= c <= 255) :
  (check_error c = true <-> c <> ReturnCode.SUCCESSFUL /\ c < ReturnCode.WARNING)
  /\ (check_warning c = true <-> ReturnCode.WARNING <= c)
  /\ ~ (check_error c = true /\ check_warning c = true)
  /\ (check_error_cmd c = true <-> ReturnCode.ERRCMD <= c < ReturnCode.WARNING)
  /\ ReturnCode.WARNING = 0x80 /\ ReturnCode.ERRCMD = 0x40.
Proof.
  unfold ReturnCode.SUCCESSFUL, ReturnCode.ERRCMD, ReturnCode.WARNING.
  split; [apply check_error_true|].
  split; [apply check_warning_true|].
  split; [rewrite check_error_true, check_warning_true; lia|].
  split; [apply check_error_cmd_true|].
  split; reflexivity.
Qed.

Lemma check_bands_witness :
  0 <= 0x41 <= 255
  /\ check_error 0x41 = true /\ check_error_cmd 0x41 = true
  /\ ~ (check_error 0x41 = true /\ check_warning 0x41 = true).
Proof.
  assert (H : 0 <= 0x41 <= 255) by lia.
  destruct (check_bands 0x41 H) as (He & _ & Hex & Hc & _).
  split; [exact H|]. split; [|split].
  - apply He. unfold ReturnCode.SUCCESSFUL, ReturnCode.WARNING. lia.
  - apply Hc. unfold ReturnCode.ERRCMD, ReturnCode.WARNING. lia.
  - exact Hex.
Defined.

(** C4.  [check_valid_rx_can_msg] and [check_tx_ok] hold exactly for code 0
    and for the codes strictly above [0x80] (so not for [WARN_NODATA]);
    [check_tx_success] holds exactly for code 0; [check_tx_not_all] holds
    exactly for [WARN_TXLIMIT], which is [0x91]. *)
Theorem check_rx_tx_predicates (c : Z) :
  (check_valid_rx_can_msg c = true <-> c = 0 \/ 0x80 < c)
  /\ (check_tx_ok c = true <-> c = 0 \/ 0x80 < c)
  /\ check_valid_rx_can_msg ReturnCode.WARN_NODATA = false
  /\ check_tx_ok ReturnCode.WARN_NODATA = false
  /\ ReturnCode.WARN_NODATA = 0x80
  /\ (check_tx_success c = true <-> c = 0)
  /\ (check_tx_not_all c = true <-> c = ReturnCode.WARN_TXLIMIT)
  /\ ReturnCode.WARN_TXLIMIT = 0x91.
Proof.
  split; [unfold_codes; bool_to_Z; lia|].
  split; [unfold_codes; bool_to_Z; lia|].
  split; [reflexivity|]. split; [reflexivity|]. split; [reflexivity|].
  split; [unfold_codes; bool_to_Z; lia|].
  split; [unfold_codes; bool_to_Z; lia|reflexivity].
Qed.

(** C3.  [check_result] on a warning-band code appends one [USBCanWarning]
    record (function, raw code, arguments) to the log and returns the code;
    on a firmware-band code it raises [USBCanCmdError] with that payload; on
    any other nonzero code below [0x80] it raises [USBCanError] with that
    payload; on code 0 it returns the code and logs nothing.  Raising leaves
    the log as it was. *)
Theorem check_result_classifies (result : Z) (func : NativeFn)
  (arguments : list Arg) (log : Log) :
  (ReturnCode.WARNING <= result ->
     check_result result func arguments log
     = (Returned result, log ++ [USBCanWarning (payload result func arguments)]))
  /\ (ReturnCode.ERRCMD <= result < ReturnCode.WARNING ->
     check_result result func arguments log
     = (Raised (USBCanCmdError (payload result func arguments)), log))
  /\ (result <> ReturnCode.SUCCESSFUL -> result < ReturnCode.WARNING ->
      ~ (ReturnCode.ERRCMD <= result < ReturnCode.WARNING) ->
     check_result result func arguments log
     = (Raised (USBCanError (payload result func arguments)), log))
  /\ (result = ReturnCode.SUCCESSFUL ->
     check_result result func arguments log = (Returned result, log)).
Proof.
  unfold ReturnCode.SUCCESSFUL, ReturnCode.ERRCMD, ReturnCode.WARNING.
  unfold check_result, payload, bind.
  repeat split; intros.
  - replace (check_warning result) with true
      by (symmetry; apply check_warning_true; lia).
    reflexivity.
  - replace (check_warning result) with false
      by (symmetry; apply check_warning_false; lia).
    replace (check_error result) with true
      by (symmetry; apply check_error_true; lia).
    replace (check_error_cmd result) with true
      by (symmetry; apply check_error_cmd_true; lia).
    reflexivity.
  - replace (check_warning result) with false
      by (symmetry; apply check_warning_false; lia).
    replace (check_error result) with true
      by (symmetry; apply check_error_true; lia).
    replace (check_error_cmd result) with false
      by (symmetry; apply check_error_cmd_false; lia).
    reflexivity.
  - subst result. reflexivity.
Qed.

Lemma check_result_classifies_witness :
  check_result ReturnCode.WARN_TXLIMIT UcanWriteCanMsgEx [ArgInt 0] []
  = (Returned ReturnCode.WARN_TXLIMIT,
     [USBCanWarning (payload ReturnCode.WARN_TXLIMIT UcanWriteCanMsgEx [ArgInt 0])])
  /\ check_result ReturnCode.ERRCMD_NOTINIT UcanWriteCanMsgEx [ArgInt 0] []
     = (Raised (USBCanCmdError
                  (payload ReturnCode.ERRCMD_NOTINIT UcanWriteCanMsgEx [ArgInt 0])), [])
  /\ check_result ReturnCode.ERR_ILLHANDLE UcanWriteCanMsgEx [ArgInt 0] []
     = (Raised (USBCanError
                  (payload ReturnCode.ERR_ILLHANDLE UcanWriteCanMsgEx [ArgInt 0])), [])
  /\ check_result ReturnCode.SUCCESSFUL UcanWriteCanMsgEx [ArgInt 0] []
     = (Returned ReturnCode.SUCCESSFUL, []).
Proof.
  split; [|split; [|split]].
  - apply (check_result_classifies ReturnCode.WARN_TXLIMIT UcanWriteCanMsgEx [ArgInt 0] []).
    vm_compute. discriminate.
  - apply (check_result_classifies ReturnCode.ERRCMD_NOTINIT UcanWriteCanMsgEx [ArgInt 0] []).
    vm_compute. split; [discriminate | reflexivity].
  - apply (check_result_classifies ReturnCode.ERR_ILLHANDLE UcanWriteCanMsgEx [ArgInt 0] []).
    + vm_compute. discriminate.
    + vm_compute. reflexivity.
    + vm_compute. intros [H _]. apply H. reflexivity.
  - apply (check_result_classifies ReturnCode.SUCCESSFUL UcanWriteCanMsgEx [ArgInt 0] []).
    reflexivity.
Defined.

(* ================================================================= *)
(** ** Version comparison *)

Lemma convert_to_minor_ver_shift_mask (version : Z) :
  convert_to_minor_ver version = Z.land (Z.shiftr version 8) 0xFF.
Proof.
  unfold convert_to_minor_ver.
  rewrite Z.shiftr_land. reflexivity.
Qed.

Lemma check_version_is_equal_or_higher_true (version cmp_major cmp_minor : Z) :
  check_version_is_equal_or_higher version cmp_major cmp_minor = true
  <-> convert_to_major_ver version > cmp_major
      \/ (convert_to_major_ver version = cmp_major
          /\ convert_to_minor_ver version >= cmp_minor).
Proof.
  unfold check_version_is_equal_or_higher.
  rewrite orb_true_iff, andb_true_iff, Z.gtb_lt, Z.eqb_eq, Z.geb_le. lia.
Qed.

(** C7.  The code reads the major version as [version & 0xFF] and the
    minor version as [(version >> 8) & 0xFF].
    [check_version_is_equal_or_higher] is true exactly when the major
    version is strictly greater than the compared one, or equal to it with
    the minor version at least the compared one.  On any version whose major
    is 2 and minor is 16 it answers true against (2,16) and (1,99) and false
    against (2,17) and (3,0). *)
Theorem check_version_is_equal_or_higher_spec (version cmp_major cmp_minor : Z) :
  convert_to_major_ver version = Z.land version 0xFF
  /\ convert_to_minor_ver version = Z.land (Z.shiftr version 8) 0xFF
  /\ (check_version_is_equal_or_higher version cmp_major cmp_minor = true
      <-> convert_to_major_ver version > cmp_major
          \/ (convert_to_major_ver version = cmp_major
              /\ convert_to_minor_ver version >= cmp_minor))
  /\ (convert_to_major_ver version = 2 -> convert_to_minor_ver version = 16 ->
      check_version_is_equal_or_higher version 2 16 = true
      /\ check_version_is_equal_or_higher version 1 99 = true
      /\ check_version_is_equal_or_higher version 2 17 = false
      /\ check_version_is_equal_or_higher version 3 0 = false).
Proof.
  split; [reflexivity|].
  split; [apply convert_to_minor_ver_shift_mask|].
  split; [apply check_version_is_equal_or_higher_true|].
  intros Hmaj Hmin.
  split; [|split; [|split]].
  - apply check_version_is_equal_or_higher_true. lia.
  - apply check_version_is_equal_or_higher_true. lia.
  - apply not_true_iff_false. rewrite check_version_is_equal_or_higher_true. lia.
  - apply not_true_iff_false. rewrite check_version_is_equal_or_higher_true. lia.
Qed.

Lemma check_version_is_equal_or_higher_witness :
  convert_to_major_ver version_2_16 = 2
  /\ convert_to_minor_ver version_2_16 = 16
  /\ check_version_is_equal_or_higher version_2_16 2 16 = true
  /\ check_version_is_equal_or_higher version_2_16 1 99 = true
  /\ check_version_is_equal_or_higher version_2_16 2 17 = false
  /\ check_version_is_equal_or_higher version_2_16 3 0 = false.
Proof.
  split; [reflexivity|]. split; [reflexivity|].
  apply (check_version_is_equal_or_higher_spec version_2_16 0 0); reflexivity.
Defined.

(* ================================================================= *)
(** ** The baud-rate message tables *)

Lemma get_baudrate_message_known (S : Type) (s : S) :
  get_baudrate_message Baudrate.BAUD_1MBit s = (Returned "1 MBit/s", s)
  /\ get_baudrate_message Baudrate.BAUD_USE_BTREX s = (Returned "BTR Ext is used", s)
  /\ get_baudrate_message 0x15 s = (Returned "BTR is unknown (user specific)", s).
Proof. repeat split. Qed.

(** C10.  [get_baudrate_ex_message] raises [AttributeError] on every input
    and in every state, before any message is produced: the first key of
    its table, [Baudrate.BAUDEX_AUTO], is a name class [Baudrate] does not
    bind ([BaudrateEx] does). *)
Theorem get_baudrate_ex_message_raises (S : Type) (s : S) (baudrate_ex : Z) :
  get_baudrate_ex_message baudrate_ex s
  = (Raised (AttributeError "Baudrate" "BAUDEX_AUTO"), s)
  /\ lookup_name (cls_dict Baudrate_class) "BAUDEX_AUTO" = None
  /\ lookup_name (cls_dict BaudrateEx_class) "BAUDEX_AUTO"
     = Some BaudrateEx.BAUDEX_AUTO.
Proof. repeat split. Qed.

(** No name of the table is bound by [Baudrate]; all are bound by
    [BaudrateEx]. *)
Lemma baudex_names_only_in_BaudrateEx :
  forall name, In name (map fst (cls_dict BaudrateEx_class)) ->
    lookup_name (cls_dict Baudrate_class) name = None
    /\ lookup_name (cls_dict BaudrateEx_class) name <> None.
Proof.
  intros name H. simpl in H.
  repeat (destruct H as [<- | H]; [split; [reflexivity | discriminate]|]).
  destruct H.
Qed.

(* ================================================================= *)
(** ** The single-identifier acceptance filter *)

Lemma In_register_bits (i : Z) : In i register_bits <-> 0 <= i < 32.
Proof.
  unfold register_bits. rewrite in_map_iff. split.
  - intros (n & <- & Hn). apply in_seq in Hn. lia.
  - intros Hi. exists (Z.to_nat i). split; [lia|]. apply in_seq. lia.
Qed.

(** [accepts] decides the acceptance test: agreement with ACR on every
    register bit where AMR holds 0. *)
Lemma accepts_true (amr acr image : Z) :
  accepts amr acr image = true
  <-> forall i, 0 <= i < 32 -> Z.testbit amr i = false ->
        Z.testbit image i = Z.testbit acr i.
Proof.
  unfold accepts. rewrite forallb_forall. split.
  - intros H i Hi Hamr.
    specialize (H i (proj2 (In_register_bits i) Hi)).
    unfold bit_passes in H. rewrite Hamr in H. simpl in H.
    apply eqb_prop. exact H.
  - intros H i Hi. apply In_register_bits in Hi.
    unfold bit_passes. destruct (Z.testbit amr i) eqn:Hamr; [reflexivity|].
    simpl. rewrite (H i Hi Hamr). apply eqb_reflx.
Qed.

Lemma accepts_false_bit (amr acr image i : Z) :
  0 <= i < 32 -> Z.testbit amr i = false ->
  Z.testbit image i <> Z.testbit acr i ->
  accepts amr acr image = false.
Proof.
  intros Hi Hamr Hne. apply not_true_iff_false. intros Hacc.
  apply Hne. exact (proj1 (accepts_true amr acr image) Hacc i Hi Hamr).
Qed.

Lemma testbit_above_width (w n i : Z) :
  0 <= w -> 0 <= n < 2 ^ w -> w <= i -> Z.testbit n i = false.
Proof.
  intros Hw Hn Hi.
  rewrite <- (Z.mod_small n (2 ^ w)) by exact Hn.
  apply Z.mod_pow2_bits_high. lia.
Qed.

(** A mask of [k] low ones and a code [id << k] let through exactly the
    image of [id], among identifiers of [32 - k] bits. *)
Lemma filter_exact (k w id id' : Z) :
  0 <= k -> 0 <= w -> k + w = 32 ->
  0 <= id < 2 ^ w -> 0 <= id' < 2 ^ w ->
  (accepts (Z.ones k) (Z.shiftl id k) (Z.shiftl id' k) = true <-> id' = id).
Proof.
  intros Hk Hw Hkw Hid Hid'. rewrite accepts_true. split.
  - intros H. apply Z.bits_inj'. intros j Hj.
    destruct (Z_lt_ge_dec j w) as [Hlt | Hge].
    + specialize (H (j + k)).
      rewrite !Z.shiftl_spec in H by lia.
      replace (j + k - k) with j in H by lia.
      apply H; [lia|]. apply Z.ones_spec_high. lia.
    + rewrite (testbit_above_width w id j), (testbit_above_width w id' j) by lia.
      reflexivity.
  - intros -> i _ _. reflexivity.
Qed.

Lemma calculate_amr_single (is_extended : bool) (id : Z) :
  calculate_amr is_extended id id false true = Z.ones (id_shift is_extended).
Proof.
  unfold calculate_amr, id_shift.
  rewrite Z.lxor_nilpotent.
  destruct is_extended; reflexivity.
Qed.

Lemma calculate_acr_single (is_extended : bool) (id : Z) :
  calculate_acr is_extended id id false true = register_image is_extended id.
Proof.
  unfold calculate_acr, register_image, id_shift.
  rewrite Z.land_diag.
  destruct is_extended; simpl; apply Z.lor_0_r.
Qed.

(** C8.  With [from_id = to_id = id] (and the default [rtr_only = False],
    [rtr_too = True]), the pair [calculate_amr], [calculate_acr] is a
    single-identifier filter: an identifier of the same width passes the
    acceptance test exactly when it equals [id], and an identifier whose
    image differs from ACR on a bit that AMR does not mask is rejected. *)
Theorem single_id_filter (is_extended : bool) (id id' : Z)
  (Hid : 0 <= id < 2 ^ id_width is_extended)
  (Hid' : 0 <= id' < 2 ^ id_width is_extended) :
  (accepts (calculate_amr is_extended id id false true)
           (calculate_acr is_extended id id false true)
           (register_image is_extended id') = true
   <-> id' = id)
  /\ (forall i, 0 <= i < 32 ->
        Z.testbit (calculate_amr is_extended id id false true) i = false ->
        Z.testbit (register_image is_extended id') i
          <> Z.testbit (calculate_acr is_extended id id false true) i ->
        accepts (calculate_amr is_extended id id false true)
                (calculate_acr is_extended id id false true)
                (register_image is_extended id') = false).
Proof.
  split.
  - rewrite calculate_amr_single, calculate_acr_single.
    unfold register_image.
    apply (filter_exact (id_shift is_extended) (id_width is_extended));
      try assumption; destruct is_extended; simpl; lia.
  - intros i. apply accepts_false_bit.
Qed.

Lemma single_id_filter_witness :
  (0 <= 0x123 < 2 ^ id_width false /\ 0 <= 0x122 < 2 ^ id_width false)
  /\ accepts (calculate_amr false 0x123 0x123 false true)
             (calculate_acr false 0x123 0x123 false true)
             (register_image false 0x122) = false
  /\ accepts (calculate_amr true 0x1ABCDEF0 0x1ABCDEF0 false true)
             (calculate_acr true 0x1ABCDEF0 0x1ABCDEF0 false true)
             (register_image true 0x1ABCDEF0) = true.
Proof.
  assert (H1 : 0 <= 0x123 < 2 ^ id_width false) by (simpl; lia).
  assert (H2 : 0 <= 0x122 < 2 ^ id_width false) by (simpl; lia).
  assert (H3 : 0 <= 0x1ABCDEF0 < 2 ^ id_width true) by (simpl; lia).
  split; [split; assumption|]. split.
  - apply not_true_iff_false. intros Hacc.
    apply (proj1 (single_id_filter false 0x123 0x122 H1 H2)) in Hacc.
    discriminate Hacc.
  - apply (proj1 (single_id_filter true 0x1ABCDEF0 0x1ABCDEF0 H3 H3)).
    reflexivity.
Defined.

(* ================================================================= *)
(** ** Reasoning about monadic code *)

Lemma bind_inv_Returned {S A B} (m : M S A) (k : A -> M S B) s b s2 :
  bind m k s = (Returned b, s2) ->
  exists a s1, m s = (Returned a, s1) /\ k a s1 = (Returned b, s2).
Proof.
  unfold bind. destruct (m s) as [[a | e] s1]; intros H.
  - exists a, s1. split; [reflexivity | exact H].
  - discriminate H.
Qed.

Lemma preserves_ret {A} (I : USBCanServer -> Prop) (a : A) : preserves I (ret a).
Proof. intros st o st' HI H. inversion H; subst. exact HI. Qed.

Lemma preserves_bind {A B} (I : USBCanServer -> Prop) (m : M St A) (k : A -> M St B) :
  preserves I m -> (forall a, preserves I (k a)) -> preserves I (bind m k).
Proof.
  intros Hm Hk st o st' HI H. unfold bind in H.
  destruct (m st) as [[a | e] s1] eqn:E.
  - apply (Hk a s1 o st'); [|exact H]. apply (Hm st _ s1 HI E).
  - inversion H; subst. apply (Hm st _ st' HI E).
Qed.

Lemma preserves_on_world {A} (I : USBCanServer -> Prop) (m : M World A) :
  preserves I (on_world m).
Proof.
  intros [s w] o st' HI H. unfold on_world in H. simpl in H.
  destruct (m w) as [o' w']. inversion H; subst. exact HI.
Qed.

Lemma preserves_self_get {A} (I : USBCanServer -> Prop) (f : USBCanServer -> A) :
  preserves I (self_get f).
Proof. intros st o st' HI H. inversion H; subst. exact HI. Qed.

Lemma preserves_self_set (I : USBCanServer -> Prop) (f : USBCanServer -> USBCanServer) :
  (forall s, I s -> I (f s)) -> preserves I (self_set f).
Proof. intros Hf st o st' HI H. inversion H; subst. simpl. apply Hf, HI. Qed.

(** Splits a goal [preserves I m] along the structure of [m]. *)
Ltac preserve :=
  repeat first
    [ apply preserves_ret
    | apply preserves_on_world
    | apply preserves_self_get
    | apply preserves_self_set; intros; auto
    | apply preserves_bind; [| intros ] ].

(* ================================================================= *)
(** ** Dictionaries *)

Lemma dict_set_keys {V} (d : list (Z * V)) (k : Z) (v : V) :
  In k (map fst d) -> map fst (dict_set d k v) = map fst d.
Proof.
  induction d as [| [k' v'] d IH]; simpl; intros Hin; [destruct Hin|].
  destruct (k' =? k) eqn:E; simpl; [reflexivity|].
  f_equal. apply IH. destruct Hin as [-> | Hin]; [|exact Hin].
  rewrite Z.eqb_refl in E. discriminate E.
Qed.

Lemma dict_set_keys_new {V} (d : list (Z * V)) (k : Z) (v : V) :
  ~ In k (map fst d) -> map fst (dict_set d k v) = map fst d ++ [k].
Proof.
  induction d as [| [k' v'] d IH]; simpl; intros Hnin; [reflexivity|].
  destruct (k' =? k) eqn:E; simpl.
  - apply Z.eqb_eq in E. exfalso. apply Hnin. left. exact E.
  - f_equal. apply IH. intros H. apply Hnin. right. exact H.
Qed.

Lemma dict_set_wf (d : list (Z * bool)) (k : Z) (v : bool) :
  channels_wf d -> channels_wf (dict_set d k v).
Proof.
  intros (Hnd & H0 & H1). unfold channels_wf.
  destruct (in_dec Z.eq_dec k (map fst d)) as [Hin | Hnin].
  - rewrite (dict_set_keys d k v Hin). auto.
  - rewrite (dict_set_keys_new d k v Hnin). repeat split.
    + apply NoDup_app; [exact Hnd | repeat constructor; intros [] |].
      intros x Hx [<- | []]. exact (Hnin Hx).
    + apply in_or_app. left. exact H0.
    + apply in_or_app. left. exact H1.
Qed.

Lemma dict_set_app_notin {V} (pre post : list (Z * V)) (k : Z) (v0 v : V) :
  ~ In k (map fst pre) ->
  dict_set (pre ++ (k, v0) :: post) k v = pre ++ (k, v) :: post.
Proof.
  induction pre as [| [k' v'] pre IH]; simpl; intros Hnin.
  - rewrite Z.eqb_refl. reflexivity.
  - destruct (k' =? k) eqn:E.
    + apply Z.eqb_eq in E. exfalso. apply Hnin. left. exact E.
    + f_equal. apply IH. intros H. apply Hnin. right. exact H.
Qed.

(** Clearing entry after entry, over the dictionary's own items, clears
    the whole dictionary and keeps its keys and their order. *)
Lemma clear_entries_from (items pre : list (Z * bool)) :
  NoDup (map fst (pre ++ items)) ->
  fold_left clear_entry items (pre ++ items) = pre ++ map cleared items.
Proof.
  revert pre. induction items as [| [k b] items IH]; intros pre Hnd; simpl.
  - reflexivity.
  - assert (Hk : ~ In k (map fst pre)).
    { rewrite map_app in Hnd. simpl in Hnd.
      apply NoDup_remove_2 in Hnd. intros H. apply Hnd.
      apply in_or_app. left. exact H. }
    assert (Hstep : clear_entry (pre ++ (k, b) :: items) (k, b)
                    = (pre ++ [(k, false)]) ++ items).
    { unfold clear_entry. simpl. rewrite <- app_assoc. simpl.
      destruct b; [apply dict_set_app_notin; exact Hk | reflexivity]. }
    rewrite Hstep, IH.
    + rewrite <- app_assoc. reflexivity.
    + rewrite <- app_assoc. simpl.
      rewrite !map_app in *. simpl in *. exact Hnd.
Qed.

Lemma clear_entries (d : list (Z * bool)) :
  NoDup (map fst d) -> fold_left clear_entry d d = map cleared d.
Proof. intros H. apply (clear_entries_from d []). exact H. Qed.

Lemma all_clear_cleared (d : list (Z * bool)) : all_clear (map cleared d).
Proof.
  intros kv Hin. apply in_map_iff in Hin. destruct Hin as (x & <- & _). reflexivity.
Qed.

Lemma dict_lookup_cleared (d : list (Z * bool)) (k : Z) :
  In k (map fst d) -> dict_lookup (map cleared d) k = Some false.
Proof.
  induction d as [| [k' b] d IH]; simpl; intros Hin; [destruct Hin|].
  destruct (k' =? k) eqn:E; [reflexivity|].
  apply IH. destruct Hin as [-> | Hin]; [|exact Hin].
  rewrite Z.eqb_refl in E. discriminate E.
Qed.

Lemma dict_get_all_clear (d : list (Z * bool)) (k : Z) :
  all_clear d -> dict_get d k false = false.
Proof.
  unfold dict_get. induction d as [| [k' b] d IH]; simpl; intros Hc; [reflexivity|].
  destruct (k' =? k).
  - exact (Hc (k', b) (or_introl eq_refl)).
  - apply IH. intros kv Hin. apply Hc. right. exact Hin.
Qed.

Lemma dict_get_lookup {V} (d : list (Z * V)) (k : Z) (v default : V) :
  dict_lookup d k = Some v -> dict_get d k default = v.
Proof. unfold dict_get. intros ->. reflexivity. Qed.

(* ================================================================= *)
(** ** Record bookkeeping *)

Lemma with_channels_same (self : USBCanServer) :
  with_channels (_ch_is_initialized self) self = self.
Proof. destruct self. reflexivity. Qed.

Lemma set_ch_is_initialized_with (d : list (Z * bool)) (k : Z) (b : bool)
  (self : USBCanServer) :
  set_ch_is_initialized k b (with_channels d self)
  = with_channels (dict_set d k b) self.
Proof. reflexivity. Qed.

(* ================================================================= *)
(** ** The session *)

Section ServerProperties.

Variable dll : list Call -> Call -> Reply.

(** *** What a foreign call does to the process *)

Lemma foreign_trace (func : NativeFn) (arguments : list Arg) (w : World) :
  trace (snd (foreign dll func arguments w)) = trace w ++ [(func, arguments)]
  /\ USBCanServer__connect_control_ref (snd (foreign dll func arguments w))
     = USBCanServer__connect_control_ref w.
Proof.
  unfold foreign, bind, native, errcheck, on_log. simpl.
  destruct (check_result _ func arguments (log w)) as [[c | e] l]; simpl; auto.
Qed.

(** *** Construction *)

Lemma init_installs (w : World) :
  USBCanServer__connect_control_ref w = None ->
  trace (snd (__init__ dll w))
  = trace w ++ [(UcanInitHwConnectControlEx,
                 [ArgCallback ConnectControlFktEx_connect_control; ArgNone])]
  /\ USBCanServer__connect_control_ref (snd (__init__ dll w)) = None.
Proof.
  intros Hcls. unfold __init__, getattr_connect_control_ref. simpl.
  rewrite Hcls.
  pose proof (foreign_trace UcanInitHwConnectControlEx
                [ArgCallback ConnectControlFktEx_connect_control; ArgNone] w) as [Ht Hc].
  destruct (foreign dll UcanInitHwConnectControlEx _ w) as [[c | e] w']; simpl in *.
  - rewrite Ht, Hc, Hcls. auto.
  - rewrite Ht, Hc, Hcls. auto.
Qed.

Lemma installs_snoc (t : list Call) (c : Call) :
  is_install c = true -> installs (t ++ [c]) = S (installs t).
Proof.
  intros Hc. unfold installs. rewrite filter_app, length_app. simpl.
  rewrite Hc. simpl. lia.
Qed.

Lemma init_Returned (w w' : World) (self : USBCanServer) :
  __init__ dll w = (Returned self, w') ->
  _handle self = INVALID_HANDLE
  /\ _is_initialized self = false
  /\ _hw_is_initialized self = false
  /\ _ch_is_initialized self
     = [(Channel.CHANNEL_CH0, false); (Channel.CHANNEL_CH1, false)].
Proof.
  unfold __init__.
  destruct (getattr_connect_control_ref _ w) as [cb |].
  - intros H. inversion H; subst. repeat split.
  - destruct (foreign dll UcanInitHwConnectControlEx _ w) as [[c | e] w1];
      intros H; inversion H; subst. repeat split.
Qed.

(** C1.  Each construction in a process hands the connect-control callback
    to [UcanInitHwConnectControlEx]: after the first instance the library
    has been called once, after the second one twice, whatever the library
    answers.  The guard reads the class attribute, which no construction
    assigns (the assignment goes to the instance). *)
Theorem connect_control_installed_per_instance :
  installs (trace (snd (__init__ dll fresh_process))) = 1%nat
  /\ installs (trace (snd (__init__ dll (snd (__init__ dll fresh_process))))) = 2%nat
  /\ USBCanServer__connect_control_ref
       (snd (__init__ dll (snd (__init__ dll fresh_process)))) = None.
Proof.
  destruct (init_installs fresh_process eq_refl) as [Ht1 Hc1].
  destruct (init_installs _ Hc1) as [Ht2 Hc2].
  rewrite Ht2, Ht1. repeat split.
  exact Hc2.
Qed.

(** *** Invariants of the methods *)

Section Invariants.

Variable I : USBCanServer -> Prop.

Lemma preserves_foreign_handle func arguments :
  stable_handle I -> preserves I (foreign_handle dll func arguments).
Proof. intros Hh. unfold foreign_handle. preserve. Qed.

Lemma preserves_init_hardware serial device_number :
  stable_handle I -> stable_hw I -> preserves I (init_hardware dll serial device_number).
Proof.
  intros Hh Hw. unfold init_hardware.
  apply preserves_bind; [apply preserves_self_get | intros hw].
  destruct (negb hw); preserve.
  destruct serial; apply preserves_foreign_handle; exact Hh.
Qed.

Lemma preserves_init_can channel BTR baudrate AMR ACR mode OCR rx tx :
  stable_ch I -> preserves I (init_can dll channel BTR baudrate AMR ACR mode OCR rx tx).
Proof.
  intros Hc. unfold init_can.
  apply preserves_bind; [apply preserves_self_get | intros chs].
  destruct (negb (dict_get chs channel false)); preserve.
Qed.

Lemma preserves_shutdown_channels items channel shutdown_hardware :
  stable_ch I -> preserves I (shutdown_channels dll items channel shutdown_hardware).
Proof.
  intros Hc. induction items as [| [k b] items IH]; simpl.
  - preserve.
  - apply preserves_bind; [| intros; exact IH].
    destruct (b && ((k =? channel) || (channel =? Channel.CHANNEL_ALL)
                    || shutdown_hardware)); preserve.
Qed.

Lemma preserves_shutdown channel shutdown_hardware :
  stable_handle I -> stable_hw I -> stable_ch I ->
  preserves I (shutdown dll channel shutdown_hardware).
Proof.
  intros Hh Hw Hc. unfold shutdown.
  apply preserves_bind; [apply preserves_self_get | intros items].
  apply preserves_bind; [apply preserves_shutdown_channels; exact Hc | intros _].
  apply preserves_bind; [apply preserves_self_get | intros hw].
  destruct (hw && shutdown_hardware); preserve.
Qed.

Lemma preserves_set_baudrate channel BTR baudarate :
  preserves I (set_baudrate dll channel BTR baudarate).
Proof. unfold set_baudrate. preserve. Qed.

Lemma preserves_set_acceptance channel AMR ACR :
  preserves I (set_acceptance dll channel AMR ACR).
Proof. unfold set_acceptance. preserve. Qed.

Lemma preserves_reset_can chanel flags :
  preserves I (reset_can dll chanel flags).
Proof. unfold reset_can. preserve. Qed.

Lemma preserves_enable_cyclic_can_msg channel flags :
  preserves I (enable_cyclic_can_msg dll channel flags).
Proof. unfold enable_cyclic_can_msg. preserve. Qed.

Lemma preserves_passthrough func rest :
  preserves I (passthrough dll func rest).
Proof. unfold passthrough. preserve. Qed.

(** An invariant that holds of a new instance and that no attribute
    assignment breaks holds in every reachable state. *)
Lemma reachable_invariant :
  stable_handle I -> stable_hw I -> stable_ch I ->
  (forall w self w', __init__ dll w = (Returned self, w') -> I self) ->
  forall self, reachable dll self -> I self.
Proof.
  intros Hh Hw Hc Hnew self Hr.
  induction Hr as
    [ w self w' Hi
    | self w serial dn o self' w' _ IH Hm
    | self w channel BTR baudrate AMR ACR mode OCR rx tx o self' w' _ IH Hm
    | self w channel sh o self' w' _ IH Hm
    | self w channel BTR baudarate o self' w' _ IH Hm
    | self w channel AMR ACR o self' w' _ IH Hm
    | self w chanel flags o self' w' _ IH Hm
    | self w channel flags o self' w' _ IH Hm
    | self w func rest o self' w' _ IH Hm ].
  - exact (Hnew w self w' Hi).
  - exact (preserves_init_hardware serial dn Hh Hw (self, w) o (self', w') IH Hm).
  - exact (preserves_init_can channel BTR baudrate AMR ACR mode OCR rx tx Hc
             (self, w) o (self', w') IH Hm).
  - exact (preserves_shutdown channel sh Hh Hw Hc (self, w) o (self', w') IH Hm).
  - exact (preserves_set_baudrate channel BTR baudarate (self, w) o (self', w') IH Hm).
  - exact (preserves_set_acceptance channel AMR ACR (self, w) o (self', w') IH Hm).
  - exact (preserves_reset_can chanel flags (self, w) o (self', w') IH Hm).
  - exact (preserves_enable_cyclic_can_msg channel flags (self, w) o (self', w') IH Hm).
  - exact (preserves_passthrough func rest (self, w) o (self', w') IH Hm).
Qed.

End Invariants.

(** The dictionary of channel flags stays well formed. *)
Lemma reachable_channels_wf (self : USBCanServer) :
  reachable dll self -> channels_wf (_ch_is_initialized self).
Proof.
  apply (reachable_invariant (fun s => channels_wf (_ch_is_initialized s))).
  - intros h s H. exact H.
  - intros b s H. exact H.
  - intros k b s H. simpl. apply dict_set_wf. exact H.
  - intros w s w' Hi. apply init_Returned in Hi.
    destruct Hi as (_ & _ & _ & ->).
    unfold channels_wf. simpl. repeat split.
    + repeat constructor; simpl; intuition discriminate.
    + left. reflexivity.
    + right. left. reflexivity.
Qed.

(** C9.  In every reachable state of an instance the property
    [is_initialized] is [False]: construction stores [False] in
    [_is_initialized] and no method assigns that attribute
    ([init_hardware] sets [_hw_is_initialized]). *)
Theorem is_initialized_never_true (self : USBCanServer)
  (Hreach : reachable dll self) :
  is_initialized self = false.
Proof.
  revert self Hreach.
  apply (reachable_invariant (fun s => is_initialized s = false)).
  - intros h s H. exact H.
  - intros b s H. exact H.
  - intros k b s H. exact H.
  - intros w s w' Hi. apply init_Returned in Hi. apply Hi.
Qed.

(** *** Re-initialization *)

(** C6.  [init_can] on a channel whose flag is already true, and
    [init_hardware] on an instance whose hardware flag is already true,
    return at once: the instance and the process (whose trace holds every
    foreign call issued) are left exactly as they were. *)
Theorem reinit_is_noop (self : USBCanServer) (w : World) :
  (forall channel BTR baudrate AMR ACR mode OCR rx_buffer_entries tx_buffer_entries,
     dict_lookup (_ch_is_initialized self) channel = Some true ->
     init_can dll channel BTR baudrate AMR ACR mode OCR
              rx_buffer_entries tx_buffer_entries (self, w)
     = (Returned tt, (self, w)))
  /\ (forall serial device_number,
        _hw_is_initialized self = true ->
        init_hardware dll serial device_number (self, w) = (Returned tt, (self, w))).
Proof.
  split.
  - intros channel BTR baudrate AMR ACR mode OCR rx tx Hflag.
    unfold init_can, bind, self_get, gets. simpl.
    rewrite (dict_get_lookup _ _ true false Hflag). reflexivity.
  - intros serial device_number Hhw.
    unfold init_hardware, bind, self_get, gets. simpl.
    rewrite Hhw. reflexivity.
Qed.

(** *** Shutdown *)

Lemma on_world_self {A} (m : M World A) (s s' : USBCanServer) (w w' : World)
  (o : Outcome A) :
  on_world m (s, w) = (o, (s', w')) -> s' = s.
Proof.
  unfold on_world. simpl. destruct (m w) as [o1 w1].
  intros H. inversion H. reflexivity.
Qed.

(** With nothing initialized the loop visits every entry and does nothing. *)
Lemma shutdown_channels_noop (items : list (Z * bool)) (channel : Z)
  (shutdown_hardware : bool) (st : St) :
  all_clear items ->
  shutdown_channels dll items channel shutdown_hardware st = (Returned tt, st).
Proof.
  induction items as [| [k b] items IH]; intros Hc; simpl; [reflexivity|].
  assert (Hb : b = false) by exact (Hc (k, b) (or_introl eq_refl)).
  subst b. unfold bind. simpl.
  apply IH. intros kv Hin. apply Hc. right. exact Hin.
Qed.

Lemma shutdown_noop (self : USBCanServer) (w : World) (channel : Z)
  (shutdown_hardware : bool) :
  all_clear (_ch_is_initialized self) ->
  _hw_is_initialized self = false ->
  shutdown dll channel shutdown_hardware (self, w) = (Returned tt, (self, w)).
Proof.
  intros Hc Hhw. unfold shutdown, bind, self_get, gets. simpl.
  rewrite (shutdown_channels_noop _ channel shutdown_hardware (self, w) Hc).
  simpl. rewrite Hhw. reflexivity.
Qed.

(** When the loop completes for [CHANNEL_ALL], it has cleared the flag of
    every entry it found set, and touched nothing else of the instance. *)
Lemma shutdown_channels_all_Returned (items : list (Z * bool)) :
  forall self w self' w',
    shutdown_channels dll items Channel.CHANNEL_ALL true (self, w)
    = (Returned tt, (self', w')) ->
    self' = with_channels (fold_left clear_entry items (_ch_is_initialized self)) self.
Proof.
  induction items as [| [k b] items IH]; intros self w self' w' H; simpl in H.
  - inversion H; subst. simpl. symmetry. apply with_channels_same.
  - apply bind_inv_Returned in H. destruct H as (u & [s1 w1] & Hstep & Hrest).
    destruct u. apply IH in Hrest. subst self'. destruct b; simpl in Hstep.
    + rewrite orb_true_r in Hstep.
      apply bind_inv_Returned in Hstep. destruct Hstep as (h & st1 & Hget & Hstep).
      inversion Hget; subst st1. clear Hget.
      apply bind_inv_Returned in Hstep. destruct Hstep as (c & [s2 w2] & Hcall & Hset).
      apply on_world_self in Hcall. simpl in Hcall. subst s2.
      inversion Hset; subst. reflexivity.
    + inversion Hstep; subst. reflexivity.
Qed.

(** A completed [shutdown(CHANNEL_ALL, True)] clears every flag and resets
    the handle, and a second one right after is a no-op. *)
Lemma shutdown_then_noop (self self1 : USBCanServer) (w w1 : World)
  (Hreach : reachable dll self)
  (Hinv : handle_inv self)
  (Hfirst : shutdown dll Channel.CHANNEL_ALL true (self, w)
            = (Returned tt, (self1, w1))) :
  is_can0_initialized self1 = Returned false
  /\ is_can1_initialized self1 = Returned false
  /\ all_clear (_ch_is_initialized self1)
  /\ _hw_is_initialized self1 = false
  /\ _handle self1 = INVALID_HANDLE
  /\ shutdown dll Channel.CHANNEL_ALL true (self1, w1) = (Returned tt, (self1, w1)).
Proof.
  destruct (reachable_channels_wf self Hreach) as (Hnd & H0 & H1).
  unfold shutdown in Hfirst.
  apply bind_inv_Returned in Hfirst. destruct Hfirst as (items & st0 & Hget & Hfirst).
  inversion Hget; subst items st0. clear Hget.
  apply bind_inv_Returned in Hfirst. destruct Hfirst as (u & [s2 w2] & Hloop & Hfirst).
  destruct u. apply shutdown_channels_all_Returned in Hloop.
  rewrite (clear_entries _ Hnd) in Hloop.
  apply bind_inv_Returned in Hfirst. destruct Hfirst as (hw & st2 & Hget & Hfirst).
  inversion Hget; subst hw st2. clear Hget. simpl in Hfirst.
  assert (Hfinal : _ch_is_initialized self1 = map cleared (_ch_is_initialized self)
                   /\ _hw_is_initialized self1 = false
                   /\ _handle self1 = INVALID_HANDLE).
  { subst s2. simpl in Hfirst.
    destruct (_hw_is_initialized self) eqn:Hhw; simpl in Hfirst.
    - apply bind_inv_Returned in Hfirst. destruct Hfirst as (h & st3 & Hget & Hfirst).
      inversion Hget; subst h st3. clear Hget.
      apply bind_inv_Returned in Hfirst. destruct Hfirst as (c & [s3 w3] & Hcall & Hfirst).
      apply on_world_self in Hcall. subst s3.
      apply bind_inv_Returned in Hfirst. destruct Hfirst as (u1 & st4 & Hset & Hfirst).
      inversion Hset; subst u1 st4. clear Hset.
      inversion Hfirst; subst. simpl. repeat split.
    - inversion Hfirst; subst. simpl. repeat split; [exact Hhw | exact (Hinv Hhw)]. }
  destruct Hfinal as (Hch & Hhw1 & Hh1).
  assert (Hclear : all_clear (_ch_is_initialized self1))
    by (rewrite Hch; apply all_clear_cleared).
  unfold is_can0_initialized, is_can1_initialized. rewrite Hch.
  rewrite (dict_lookup_cleared _ _ H0), (dict_lookup_cleared _ _ H1).
  repeat split; try assumption.
  - rewrite <- Hch. exact Hclear.
  - apply shutdown_noop; assumption.
Qed.

(** C5 (amended).  Take an instance in a reachable state that obeys the
    handle invariant (the handle is [0xFF] while the hardware flag is
    false), and let the first [shutdown(CHANNEL_ALL, True)] return without
    raising.  Then the call is idempotent there: after it both channel flags
    and the hardware flag are false and the handle is [0xFF], and a second
    call right after returns normally and leaves the instance and the
    process (whose trace holds every foreign call) exactly as they were, so
    no deinit call is issued. *)
Theorem shutdown_idempotent (self : USBCanServer) (w : World)
  (Hreach : reachable dll self)
  (Hinv : handle_inv self)
  (Hfirst : fst (shutdown dll Channel.CHANNEL_ALL true (self, w)) = Returned tt) :
  shutdown_is_idempotent_at dll (self, w).
Proof.
  unfold shutdown_is_idempotent_at.
  destruct (shutdown dll Channel.CHANNEL_ALL true (self, w)) as [o [self1 w1]] eqn:E.
  simpl in *. subst o.
  destruct (shutdown_then_noop self self1 w w1 Hreach Hinv E)
    as (H0 & H1 & _ & Hhw & Hh & Hsecond).
  repeat split; assumption.
Qed.

(** *** Totality under a library that reports no error *)

Lemma foreign_returns (func : NativeFn) (arguments : list Arg) (w : World) :
  (forall t c, check_error (BYTE (r_code (dll t c))) = false) ->
  exists c w', foreign dll func arguments w = (Returned c, w').
Proof.
  intros Hok. unfold foreign, bind, native, errcheck, on_log. simpl.
  unfold check_result, bind. rewrite Hok.
  destruct (check_warning _); simpl; eauto.
Qed.

Lemma shutdown_channels_returns (items : list (Z * bool)) (channel : Z)
  (shutdown_hardware : bool) :
  (forall t c, check_error (BYTE (r_code (dll t c))) = false) ->
  forall st, exists st',
    shutdown_channels dll items channel shutdown_hardware st = (Returned tt, st').
Proof.
  intros Hok. induction items as [| [k b] items IH]; intros [s w]; simpl.
  - eexists. reflexivity.
  - unfold bind at 1.
    destruct (b && ((k =? channel) || (channel =? Channel.CHANNEL_ALL)
                    || shutdown_hardware)).
    + unfold bind, self_get, gets, on_world, self_set, modify. simpl.
      destruct (foreign_returns UcanDeinitCanEx
                  [ArgInt (_handle s); ArgInt (BYTE k)] w Hok) as (c & w' & ->).
      simpl. apply IH.
    + simpl. apply IH.
Qed.

(** [shutdown] returns normally from every state when the library reports
    no error. *)
Lemma shutdown_returns (channel : Z) (shutdown_hardware : bool) (st : St) :
  (forall t c, check_error (BYTE (r_code (dll t c))) = false) ->
  exists st', shutdown dll channel shutdown_hardware st = (Returned tt, st').
Proof.
  intros Hok. destruct st as [s w]. unfold shutdown.
  unfold bind at 1. unfold self_get at 1, gets at 1. simpl.
  unfold bind at 1.
  destruct (shutdown_channels_returns (_ch_is_initialized s) channel
              shutdown_hardware Hok (s, w)) as ([s1 w1] & ->).
  unfold bind at 1. unfold self_get at 1, gets at 1. simpl.
  destruct (_hw_is_initialized s1 && shutdown_hardware).
  - unfold bind, self_get, gets, on_world, self_set, modify. simpl.
    destruct (foreign_returns UcanDeinitHardware [ArgInt (_handle s1)] w1 Hok)
      as (c & w' & ->).
    simpl. eexists. reflexivity.
  - eexists. reflexivity.
Qed.

End ServerProperties.

(* ================================================================= *)
(** ** The handle invariant *)

Lemma check_result_Raised (c : Z) (func : NativeFn) (arguments : list Arg)
  (l l' : Log) (e : Exn) :
  check_result c func arguments l = (Raised e, l') -> check_error c = true.
Proof.
  unfold check_result, bind.
  destruct (check_warning c); [discriminate|].
  destruct (check_error c); [reflexivity | discriminate].
Qed.

Lemma preserves_self_set2 (I : USBCanServer -> Prop)
  (f g : USBCanServer -> USBCanServer) :
  (forall s, I s -> I (g (f s))) ->
  preserves I (self_set f ;; self_set g).
Proof.
  intros H st o st' HI Hm. inversion Hm; subst. simpl. apply H, HI.
Qed.

(** Under a library that keeps the sentinel on error, every reachable
    state obeys the handle invariant. *)
Lemma reachable_handle_inv (dll : list Call -> Call -> Reply) :
  keeps_sentinel_on_error dll ->
  forall self, reachable dll self -> handle_inv self.
Proof.
  intros Hdll self Hr.
  induction Hr as
    [ w self w' Hi
    | self w serial dn o self' w' _ IH Hm
    | self w channel BTR baudrate AMR ACR mode OCR rx tx o self' w' _ IH Hm
    | self w channel sh o self' w' _ IH Hm
    | self w channel BTR baudarate o self' w' _ IH Hm
    | self w channel AMR ACR o self' w' _ IH Hm
    | self w chanel flags o self' w' _ IH Hm
    | self w channel flags o self' w' _ IH Hm
    | self w func rest o self' w' _ IH Hm ].
  - apply init_Returned in Hi. intros _. apply Hi.
  - unfold init_hardware, foreign_handle, bind, self_get, gets, on_world, native,
      errcheck, on_log, self_set, modify in Hm. simpl in Hm.
    destruct (_hw_is_initialized self) eqn:Hhw; simpl in Hm.
    + inversion Hm; subst. exact IH.
    + destruct serial as [sn |];
        match type of Hm with
        | context [check_result ?c ?f ?a ?l] =>
            destruct (check_result c f a l) as [[c' | e] l'] eqn:Hcr
        end; simpl in Hm; inversion Hm; subst; intros Hhw'; simpl in *;
        try discriminate Hhw';
        apply check_result_Raised in Hcr; apply Hdll; exact Hcr.
  - refine (preserves_init_can dll handle_inv channel BTR baudrate AMR ACR mode OCR rx tx
              _ (self, w) o (self', w') IH Hm).
    intros k b s H. exact H.
  - assert (Hp : preserves handle_inv (shutdown dll channel sh)).
    { unfold shutdown.
      apply preserves_bind; [apply preserves_self_get | intros items].
      apply preserves_bind;
        [apply preserves_shutdown_channels; intros k b s H; exact H | intros _].
      apply preserves_bind; [apply preserves_self_get | intros hw].
      destruct (hw && sh); [| apply preserves_ret].
      apply preserves_bind; [apply preserves_self_get | intros h].
      apply preserves_bind; [apply preserves_on_world | intros c].
      apply preserves_self_set2. intros s _ _. reflexivity. }
    exact (Hp (self, w) o (self', w') IH Hm).
  - exact (preserves_set_baudrate dll handle_inv channel BTR baudarate
             (self, w) o (self', w') IH Hm).
  - exact (preserves_set_acceptance dll handle_inv channel AMR ACR
             (self, w) o (self', w') IH Hm).
  - exact (preserves_reset_can dll handle_inv chanel flags
             (self, w) o (self', w') IH Hm).
  - exact (preserves_enable_cyclic_can_msg dll handle_inv channel flags
             (self, w) o (self', w') IH Hm).
  - exact (preserves_passthrough dll handle_inv func rest
             (self, w) o (self', w') IH Hm).
Qed.

(* ================================================================= *)
(** ** The sample run *)

Lemma demo_new : __init__ dll_ok fresh_process = (Returned demo_self0, demo_world0).
Proof. reflexivity. Qed.

Lemma demo_reachable1 : reachable dll_ok (fst demo_st1).
Proof.
  apply (reach_init_hardware dll_ok demo_self0 demo_world0 None ANY_MODULE
           (Returned tt) (fst demo_st1) (snd demo_st1)).
  - exact (reach_new dll_ok _ _ _ demo_new).
  - reflexivity.
Qed.

Lemma demo_reachable3 : reachable dll_ok (fst demo_st3).
Proof.
  apply (reach_init_can dll_ok (fst demo_st2) (snd demo_st2) Channel.CHANNEL_CH1
           Baudrate.BAUD_1MBit BaudrateEx.BAUDEX_USE_BTR01 AMR_ALL ACR_ALL
           Mode.MODE_NORMAL OutputControl.OCR_DEFAULT DEFAULT_BUFFER_ENTRIES
           DEFAULT_BUFFER_ENTRIES (Returned tt) (fst demo_st3) (snd demo_st3));
    [| reflexivity].
  apply (reach_init_can dll_ok (fst demo_st1) (snd demo_st1) Channel.CHANNEL_CH0
           Baudrate.BAUD_1MBit BaudrateEx.BAUDEX_USE_BTR01 AMR_ALL ACR_ALL
           Mode.MODE_NORMAL OutputControl.OCR_DEFAULT DEFAULT_BUFFER_ENTRIES
           DEFAULT_BUFFER_ENTRIES (Returned tt) (fst demo_st2) (snd demo_st2));
    [| reflexivity].
  exact demo_reachable1.
Qed.

Lemma is_initialized_never_true_witness :
  reachable dll_ok (fst demo_st1)
  /\ _hw_is_initialized (fst demo_st1) = true
  /\ is_initialized (fst demo_st1) = false.
Proof.
  split; [exact demo_reachable1|]. split; [reflexivity|].
  exact (is_initialized_never_true dll_ok (fst demo_st1) demo_reachable1).
Defined.

Lemma reinit_is_noop_witness :
  (dict_lookup (_ch_is_initialized (fst demo_st3)) Channel.CHANNEL_CH1 = Some true
   /\ _hw_is_initialized (fst demo_st3) = true)
  /\ init_can dll_ok Channel.CHANNEL_CH1 Baudrate.BAUD_1MBit
       BaudrateEx.BAUDEX_USE_BTR01 AMR_ALL ACR_ALL Mode.MODE_NORMAL
       OutputControl.OCR_DEFAULT DEFAULT_BUFFER_ENTRIES DEFAULT_BUFFER_ENTRIES
       (fst demo_st3, snd demo_st3)
     = (Returned tt, (fst demo_st3, snd demo_st3))
  /\ init_hardware dll_ok (Some 4711) ANY_MODULE (fst demo_st3, snd demo_st3)
     = (Returned tt, (fst demo_st3, snd demo_st3)).
Proof.
  split; [split; reflexivity|]. split.
  - apply (proj1 (reinit_is_noop dll_ok (fst demo_st3) (snd demo_st3))).
    reflexivity.
  - apply (proj2 (reinit_is_noop dll_ok (fst demo_st3) (snd demo_st3))).
    reflexivity.
Defined.

Lemma demo_reachable3_handle_inv : handle_inv (fst demo_st3).
Proof. intros H. discriminate H. Qed.

Lemma shutdown_idempotent_witness :
  (reachable dll_ok (fst demo_st3)
   /\ handle_inv (fst demo_st3)
   /\ fst (shutdown dll_ok Channel.CHANNEL_ALL true (fst demo_st3, snd demo_st3))
      = Returned tt)
  /\ is_can0_initialized (fst demo_st3) = Returned true
  /\ is_can1_initialized (fst demo_st3) = Returned true
  /\ _hw_is_initialized (fst demo_st3) = true
  /\ shutdown_is_idempotent_at dll_ok (fst demo_st3, snd demo_st3).
Proof.
  split; [split; [exact demo_reachable3 | split;
            [exact demo_reachable3_handle_inv | reflexivity]]|].
  split; [reflexivity|]. split; [reflexivity|]. split; [reflexivity|].
  apply (shutdown_idempotent dll_ok (fst demo_st3) (snd demo_st3)).
  - exact demo_reachable3.
  - exact demo_reachable3_handle_inv.
  - reflexivity.
Defined.

Lemma unplugged_reachable2 : reachable dll_unplugged (fst unplugged_st2).
Proof.
  apply (reach_init_can dll_unplugged (fst unplugged_st1) (snd unplugged_st1)
           Channel.CHANNEL_CH0
           Baudrate.BAUD_1MBit BaudrateEx.BAUDEX_USE_BTR01 AMR_ALL ACR_ALL
           Mode.MODE_NORMAL OutputControl.OCR_DEFAULT DEFAULT_BUFFER_ENTRIES
           DEFAULT_BUFFER_ENTRIES (Returned tt) (fst unplugged_st2) (snd unplugged_st2));
    [| reflexivity].
  apply (reach_init_hardware dll_unplugged demo_self0 unplugged_world0 None
           ANY_MODULE (Returned tt) (fst unplugged_st1) (snd unplugged_st1));
    [| reflexivity].
  apply (reach_new dll_unplugged fresh_process demo_self0 unplugged_world0).
  reflexivity.
Qed.

(** C5 (as stated) fails when the library reports an error to the first
    call.  With the module unplugged, [shutdown()] on an instance with
    hardware and channel 0 initialized raises [USBCanError] out of
    [UcanDeinitCanEx] before any flag is cleared: afterwards channel 0 and
    the hardware still count as initialized and the handle is not the
    sentinel; the second call issues [UcanDeinitCanEx] again and raises
    again. *)
Lemma shutdown_not_idempotent_when_deinit_fails :
  reachable dll_unplugged (fst unplugged_st2)
  /\ handle_inv (fst unplugged_st2)
  /\ fst (shutdown dll_unplugged Channel.CHANNEL_ALL true unplugged_st2)
     = Raised (USBCanError (payload ReturnCode.ERR_DISCONECT UcanDeinitCanEx
                              [ArgInt 0; ArgInt Channel.CHANNEL_CH0]))
  /\ is_can0_initialized (fst unplugged_st3) = Returned true
  /\ _hw_is_initialized (fst unplugged_st3) = true
  /\ _handle (fst unplugged_st3) = 0
  /\ fst (shutdown dll_unplugged Channel.CHANNEL_ALL true unplugged_st3)
     = Raised (USBCanError (payload ReturnCode.ERR_DISCONECT UcanDeinitCanEx
                              [ArgInt 0; ArgInt Channel.CHANNEL_CH0]))
  /\ trace (snd (snd (shutdown dll_unplugged Channel.CHANNEL_ALL true unplugged_st3)))
     = trace (snd unplugged_st3)
       ++ [(UcanDeinitCanEx, [ArgInt 0; ArgInt Channel.CHANNEL_CH0])]
  /\ ~ shutdown_is_idempotent_at dll_unplugged unplugged_st2.
Proof.
  split; [exact unplugged_reachable2|].
  split; [intros H; discriminate H|].
  split; [reflexivity|]. split; [reflexivity|]. split; [reflexivity|].
  split; [reflexivity|]. split; [reflexivity|]. split; [reflexivity|].
  intros (H0 & _). vm_compute in H0. discriminate H0.
Qed.

(** Why the handle invariant is asked for: the wrapper never writes the
    sentinel back after a failed [init_hardware], so what the handle holds
    then is whatever the library left in the cell, and [shutdown] on an
    instance without initialized hardware does not touch it. *)
Lemma shutdown_keeps_handle_after_failed_init :
  reachable dll_stale (fst stale_st1)
  /\ _hw_is_initialized (fst stale_st1) = false
  /\ _handle (fst stale_st1) = 5
  /\ shutdown dll_stale Channel.CHANNEL_ALL true stale_st1 = (Returned tt, stale_st1).
Proof.
  split; [| repeat split].
  apply (reach_init_hardware dll_stale demo_self0 (snd (__init__ dll_stale fresh_process))
           None ANY_MODULE
           (Raised (USBCanError (payload ReturnCode.ERR_ILLHW UcanInitHardwareEx
              [ArgByref INVALID_HANDLE; ArgInt ANY_MODULE;
               ArgCallback CallbackFktEx_callback; ArgNone])))
           (fst stale_st1) (snd stale_st1)); [| reflexivity].
  apply (reach_new dll_stale fresh_process demo_self0 (snd (__init__ dll_stale fresh_process))).
  reflexivity.
Qed.

(* ================================================================= *)
(** * Further properties of the module *)

(* ================================================================= *)
(** ** Firmware versions and capabilities *)

Lemma testbit_land_ones (a k i : Z) :
  0 <= k -> Z.testbit (Z.land a (Z.ones k)) i = Z.testbit a i && (i <? k).
Proof.
  intros Hk. rewrite Z.land_spec.
  destruct (Z_lt_ge_dec i 0) as [Hneg | Hpos].
  - rewrite (Z.testbit_neg_r a i Hneg). reflexivity.
  - rewrite Z.testbit_ones_nonneg by lia. reflexivity.
Qed.

Lemma convert_to_release_ver_shift_mask (version : Z) :
  convert_to_release_ver version = Z.land (Z.shiftr version 16) (Z.ones 16).
Proof.
  unfold convert_to_release_ver. rewrite Z.shiftr_land. reflexivity.
Qed.

(** X1.  A 32-bit version number is the three parts the converters read
    from it, put back at their places: major in bits 0..7, minor in bits
    8..15, release in bits 16..31; and each part fits its field. *)
Theorem version_parts_roundtrip (version : Z) (Hdword : 0 <= version < 2 ^ 32) :
  Z.lor (Z.lor (convert_to_major_ver version)
               (Z.shiftl (convert_to_minor_ver version) 8))
        (Z.shiftl (convert_to_release_ver version) 16)
  = version
  /\ 0 <= convert_to_major_ver version < 2 ^ 8
  /\ 0 <= convert_to_minor_ver version < 2 ^ 8
  /\ 0 <= convert_to_release_ver version < 2 ^ 16.
Proof.
  rewrite convert_to_minor_ver_shift_mask, convert_to_release_ver_shift_mask.
  unfold convert_to_major_ver.
  change 0xFF with (Z.ones 8).
  split; [| rewrite !Z.land_ones by lia;
            repeat split; try apply Z.mod_pos_bound; lia ].
  apply Z.bits_inj'. intros n Hn.
  rewrite !Z.lor_spec, !Z.shiftl_spec by lia.
  rewrite !testbit_land_ones by lia.
  destruct (Z_lt_ge_dec n 8) as [H8 | H8].
  - rewrite (Z.testbit_neg_r _ (n - 8)), (Z.testbit_neg_r _ (n - 16)) by lia.
    replace (n <? 8) with true by (symmetry; apply Z.ltb_lt; lia).
    destruct (Z.testbit version n); reflexivity.
  - replace (n <? 8) with false by (symmetry; apply Z.ltb_ge; lia).
    rewrite Z.shiftr_spec by lia. replace (n - 8 + 8) with n by lia.
    destruct (Z_lt_ge_dec n 16) as [H16 | H16].
    + rewrite (Z.testbit_neg_r _ (n - 16)) by lia.
      replace (n - 8 <? 8) with true by (symmetry; apply Z.ltb_lt; lia).
      destruct (Z.testbit version n); reflexivity.
    + replace (n - 8 <? 8) with false by (symmetry; apply Z.ltb_ge; lia).
      rewrite Z.shiftr_spec by lia. replace (n - 16 + 16) with n by lia.
      destruct (Z_lt_ge_dec n 32) as [H32 | H32].
      * replace (n - 16 <? 16) with true by (symmetry; apply Z.ltb_lt; lia).
        destruct (Z.testbit version n); reflexivity.
      * rewrite (testbit_above_width 32 version n) by lia. reflexivity.
Qed.

Lemma version_parts_roundtrip_witness :
  0 <= version_2_16 < 2 ^ 32
  /\ Z.lor (Z.lor (convert_to_major_ver version_2_16)
                  (Z.shiftl (convert_to_minor_ver version_2_16) 8))
           (Z.shiftl (convert_to_release_ver version_2_16) 16)
     = version_2_16
  /\ convert_to_release_ver version_2_16 = 5.
Proof.
  assert (H : 0 <= version_2_16 < 2 ^ 32) by (vm_compute; split; congruence).
  split; [exact H|]. split; [| reflexivity].
  exact (proj1 (version_parts_roundtrip version_2_16 H)).
Defined.

Lemma check_version_lower (version cmp_major cmp_minor lower_major lower_minor : Z) :
  check_version_is_equal_or_higher version cmp_major cmp_minor = true ->
  lower_major < cmp_major \/ (lower_major = cmp_major /\ lower_minor <= cmp_minor) ->
  check_version_is_equal_or_higher version lower_major lower_minor = true.
Proof.
  intros Hhigher Hlower.
  apply check_version_is_equal_or_higher_true.
  apply check_version_is_equal_or_higher_true in Hhigher. lia.
Qed.

(** X2.  The version test is monotone in the version asked for: a version
    that is equal or higher than (major, minor) is also equal or higher than
    every pair that is lexicographically not above it. *)
Theorem check_version_monotone (version cmp_major cmp_minor lower_major lower_minor : Z)
  (Hhigher : check_version_is_equal_or_higher version cmp_major cmp_minor = true)
  (Hlower : lower_major < cmp_major
            \/ (lower_major = cmp_major /\ lower_minor <= cmp_minor)) :
  check_version_is_equal_or_higher version lower_major lower_minor = true.
Proof. exact (check_version_lower _ _ _ _ _ Hhigher Hlower). Qed.

Lemma check_version_monotone_witness :
  (check_version_is_equal_or_higher version_2_16 2 16 = true
   /\ (2 < 2 \/ (2 = 2 /\ 9 <= 16)))
  /\ check_version_is_equal_or_higher version_2_16 2 9 = true.
Proof.
  assert (H1 : check_version_is_equal_or_higher version_2_16 2 16 = true)
    by reflexivity.
  assert (H2 : 2 < 2 \/ (2 = 2 /\ 9 <= 16)) by (right; split; [reflexivity | lia]).
  split; [split; assumption|].
  exact (check_version_monotone version_2_16 2 16 2 9 H1 H2).
Defined.

(** X3.  A module that supports the USB-CANnetwork driver (systec,
    firmware 3.8 or higher) also supports cyclic CAN messages (systec,
    firmware 3.6 or higher), and it supports the user port unless its
    product id is [PRODCODE_PID_BASIC] or [PRODCODE_PID_RESERVED1]. *)
Theorem ucannet_implies_older_features (hw_info_ex : HardwareInfoEx.t)
  (Hucannet : check_support_ucannet hw_info_ex = true) :
  check_is_systec hw_info_ex = true
  /\ check_support_cyclic_msg hw_info_ex = true
  /\ (Z.land (HardwareInfoEx.m_dwProductCode hw_info_ex) PRODCODE_MASK_PID
        <> ProductCode.PRODCODE_PID_BASIC ->
      Z.land (HardwareInfoEx.m_dwProductCode hw_info_ex) PRODCODE_MASK_PID
        <> ProductCode.PRODCODE_PID_RESERVED1 ->
      check_support_user_port hw_info_ex = true).
Proof.
  unfold check_support_ucannet in Hucannet.
  apply andb_true_iff in Hucannet. destruct Hucannet as [Hsys Hver].
  split; [exact Hsys|]. split.
  - unfold check_support_cyclic_msg. rewrite Hsys. simpl.
    apply (check_version_lower _ 3 8 3 6 Hver). right. split; [reflexivity | lia].
  - intros Hbasic Hres. unfold check_support_user_port.
    apply Z.eqb_neq in Hbasic. apply Z.eqb_neq in Hres.
    rewrite Hbasic, Hres. simpl.
    apply (check_version_lower _ 3 8 2 16 Hver). left. lia.
Qed.

Lemma ucannet_implies_older_features_witness :
  check_support_ucannet sample_hw_info = true
  /\ check_support_cyclic_msg sample_hw_info = true
  /\ check_support_user_port sample_hw_info = true.
Proof.
  assert (H : check_support_ucannet sample_hw_info = true) by reflexivity.
  destruct (ucannet_implies_older_features sample_hw_info H) as (_ & Hc & Hu).
  split; [exact H|]. split; [exact Hc|].
  apply Hu; vm_compute; discriminate.
Defined.

(** X4.  The four feature tests read the same bit of the product code:
    [check_support_term_resistor], [check_support_rb_user_port] and
    [check_support_rb_can_port] return the same integer (bit 0, so 0 or 1)
    for every hardware info, and [check_support_two_channel] is truthy
    exactly for a systec module on which that integer is not 0. *)
Theorem feature_tests_share_bit0 (hw_info_ex : HardwareInfoEx.t) :
  check_support_rb_user_port hw_info_ex = check_support_term_resistor hw_info_ex
  /\ check_support_rb_can_port hw_info_ex = check_support_term_resistor hw_info_ex
  /\ (check_support_term_resistor hw_info_ex = 0
      \/ check_support_term_resistor hw_info_ex = 1)
  /\ (truthy (check_support_two_channel hw_info_ex) = true
      <-> check_is_systec hw_info_ex = true
          /\ check_support_term_resistor hw_info_ex <> 0).
Proof.
  split; [reflexivity|]. split; [reflexivity|]. split.
  - unfold check_support_term_resistor, PRODCODE_PID_TERM.
    change 1 with (Z.ones 1) at 1 2. rewrite Z.land_ones by lia.
    pose proof (Z.mod_pos_bound (HardwareInfoEx.m_dwProductCode hw_info_ex) (2 ^ 1)).
    lia.
  - unfold check_support_two_channel, check_support_term_resistor,
      PRODCODE_PID_TWO_CHA, PRODCODE_PID_TERM.
    destruct (check_is_systec hw_info_ex); simpl.
    + rewrite negb_true_iff, Z.eqb_neq. tauto.
    + split; [discriminate | intros [H _]; discriminate H].
Qed.

(* ================================================================= *)
(** ** Structures *)

Lemma BTR_bytes_roundtrip (BTR : Z) :
  Z.lor (Z.shiftl (BYTE (Z.shiftr BTR 8)) 8) (BYTE BTR) = WORD BTR.
Proof.
  unfold BYTE, WORD. rewrite <- !Z.land_ones by lia.
  apply Z.bits_inj'. intros n Hn.
  rewrite Z.lor_spec, Z.shiftl_spec by lia.
  rewrite !testbit_land_ones by lia.
  destruct (Z_lt_ge_dec n 8) as [H8 | H8].
  - rewrite (Z.testbit_neg_r _ (n - 8)) by lia.
    replace (n <? 8) with true by (symmetry; apply Z.ltb_lt; lia).
    replace (n <? 16) with true by (symmetry; apply Z.ltb_lt; lia).
    destruct (Z.testbit BTR n); reflexivity.
  - rewrite Z.shiftr_spec by lia. replace (n - 8 + 8) with n by lia.
    replace (n <? 8) with false by (symmetry; apply Z.ltb_ge; lia).
    destruct (Z_lt_ge_dec n 16) as [H16 | H16].
    + replace (n - 8 <? 8) with true by (symmetry; apply Z.ltb_lt; lia).
      replace (n <? 16) with true by (symmetry; apply Z.ltb_lt; lia).
      destruct (Z.testbit BTR n); reflexivity.
    + replace (n - 8 <? 8) with false by (symmetry; apply Z.ltb_ge; lia).
      replace (n <? 16) with false by (symmetry; apply Z.ltb_ge; lia).
      destruct (Z.testbit BTR n); reflexivity.
Qed.

(** X5.  The two timing bytes of [InitCanParam] hold a 16-bit [BTR]
    without loss: the property [BTR] reads back the value given to the
    constructor, or to the setter, reduced modulo 2^16; so every value in
    0..0xFFFF reads back unchanged, and [BAUD_AUTO] (-1) reads back as
    0xFFFF. *)
Theorem InitCanParam_BTR_roundtrip
  (mode BTR OCR AMR ACR baudrate rx_buffer_entries tx_buffer_entries : Z)
  (p : InitCanParam) :
  InitCanParam_BTR (InitCanParam_init mode BTR OCR AMR ACR baudrate
                      rx_buffer_entries tx_buffer_entries) = WORD BTR
  /\ InitCanParam_BTR (InitCanParam_set_BTR BTR p) = WORD BTR
  /\ (0 <= BTR < 2 ^ 16 -> WORD BTR = BTR)
  /\ WORD Baudrate.BAUD_AUTO = 0xFFFF.
Proof.
  split; [apply BTR_bytes_roundtrip|]. split; [apply BTR_bytes_roundtrip|].
  split; [intros H; apply Z.mod_small; exact H | reflexivity].
Qed.

(** X6.  Reading [tx_buffer_entries] of an [InitCanParam] yields the
    receive buffer size: the last binding of the name takes its getter from
    the property [rx_buffer_entries].  Assigning [tx_buffer_entries] stores
    into the transmit field, and the value read afterwards is still the
    receive buffer size. *)
Theorem tx_buffer_entries_reads_rx
  (mode BTR OCR AMR ACR baudrate rx_buffer_entries tx_buffer_entries v : Z)
  (p : InitCanParam) :
  property_get InitCanParam_tx_buffer_entries p = m_wNrOfRxBufferEntries p
  /\ property_get InitCanParam_tx_buffer_entries
       (InitCanParam_init mode BTR OCR AMR ACR baudrate
          rx_buffer_entries tx_buffer_entries)
     = WORD rx_buffer_entries
  /\ property_set InitCanParam_tx_buffer_entries v p
     = Ok (InitCanParam_with_tx (WORD v) p)
  /\ property_get InitCanParam_tx_buffer_entries (InitCanParam_with_tx (WORD v) p)
     = m_wNrOfRxBufferEntries p
  /\ property_get InitCanParam_rx_buffer_entries p = m_wNrOfRxBufferEntries p
  /\ property_set InitCanParam_rx_buffer_entries v p
     = Ok (InitCanParam_with_rx (WORD v) p).
Proof. repeat split. Qed.

Lemma firstn_length_app {A} (l r : list A) :
  firstn (List.length l) (l ++ r) = l.
Proof.
  rewrite firstn_app, Nat.sub_diag, firstn_all. simpl. apply app_nil_r.
Qed.

(** X7.  A message built from at most eight data items gives them back
    through [data], each reduced to a byte, with the length code equal to
    their number; identifier and frame format are stored at their widths and
    the time stamp is 0.  More than eight items make the constructor raise
    [IndexError]. *)
Theorem CanMsg_init_roundtrip (id frame_format : Z) (data : list Z) :
  ((List.length data <= 8)%nat ->
   exists m, CanMsg_init id frame_format data = Ok m
     /\ CanMsg_data m = map BYTE data
     /\ m_bDLC m = Z.of_nat (List.length data)
     /\ List.length (m_bData m) = 8%nat
     /\ CanMsg_id m = DWORD id
     /\ CanMsg_frame_format m = BYTE frame_format
     /\ CanMsg_time m = 0)
  /\ ((8 < List.length data)%nat ->
      CanMsg_init id frame_format data = Err IndexError).
Proof.
  unfold CanMsg_init, BYTE_Array_8. split; intros Hlen.
  - replace (8 <? List.length data)%nat with false
      by (symmetry; apply Nat.ltb_ge; exact Hlen).
    eexists. split; [reflexivity|].
    assert (Hdlc : BYTE (Z.of_nat (List.length data)) = Z.of_nat (List.length data))
      by (apply Z.mod_small; change (2 ^ 8) with 256; lia).
    unfold CanMsg_data, CanMsg_id, CanMsg_frame_format, CanMsg_time.
    cbn [m_dwID m_bFF m_bDLC m_bData m_dwTime].
    rewrite Hdlc, Nat2Z.id.
    repeat split.
    + rewrite <- (length_map BYTE data) at 1. apply firstn_length_app.
    + rewrite length_app, length_map, repeat_length. lia.
  - replace (8 <? List.length data)%nat with true
      by (symmetry; apply Nat.ltb_lt; exact Hlen).
    reflexivity.
Qed.

Lemma CanMsg_init_roundtrip_witness :
  (List.length [0x11; 0x22; 0x133] <= 8)%nat
  /\ exists m, CanMsg_init 0x123 0 [0x11; 0x22; 0x133] = Ok m
       /\ CanMsg_data m = [0x11; 0x22; 0x33]
       /\ m_bDLC m = 3.
Proof.
  assert (H : (List.length [0x11; 0x22; 0x133] <= 8)%nat) by (simpl; lia).
  split; [exact H|].
  destruct (proj1 (CanMsg_init_roundtrip 0x123 0 [0x11; 0x22; 0x133]) H)
    as (m & Hm & Hdata & Hdlc & _).
  exists m. split; [exact Hm|]. split; [exact Hdata | exact Hdlc].
Defined.

(** X8.  The setter of [data] never succeeds.  It first stores the number
    of items into the length code, then raises: [IndexError] for more than
    eight items, [TypeError] otherwise.  The data bytes are left as they
    were, so afterwards [data] shows the old bytes cut to the new length. *)
Theorem CanMsg_set_data_raises (data : list Z) (self : CanMsg) :
  fst (CanMsg_set_data data self)
  = Err (if (8 <? List.length data)%nat then IndexError else TypeError)
  /\ m_bData (snd (CanMsg_set_data data self)) = m_bData self
  /\ m_bDLC (snd (CanMsg_set_data data self)) = BYTE (Z.of_nat (List.length data))
  /\ CanMsg_data (snd (CanMsg_set_data data self))
     = firstn (Z.to_nat (BYTE (Z.of_nat (List.length data)))) (m_bData self).
Proof.
  unfold CanMsg_set_data, BYTE_Array_8.
  destruct (8 <? List.length data)%nat; repeat split.
Qed.

(* ================================================================= *)
(** ** Status and baud-rate messages *)

Lemma status_msgs_eq :
  status_msgs
  = [ (0x400, "Transmit message lost"); (0x200, "Memory test failed");
      (0x100, "Register test failed"); (0x80, "Transmit queue is full");
      (0x40, "Receive queue overrun"); (0x20, "Receive queue is empty");
      (0x10, "Bus Off"); (0x8, "Error Passive"); (0x4, "Warning Limit");
      (0x2, "Rx-buffer is full"); (0x1, "Tx-buffer is full") ].
Proof. reflexivity. Qed.

Lemma land_submask (s m f : Z) :
  Z.land m f = f -> Z.land s m = 0 -> Z.land s f = 0.
Proof.
  intros Hf Hm. rewrite <- Hf, Z.land_assoc, Hm. apply Z.land_0_l.
Qed.

(** No message is selected exactly when none of the eleven known bits is
    set. *)
Lemma selected_msgs_nil (can_status : Z) :
  selected_msgs can_status = [] <-> Z.land can_status 0x7FF = 0.
Proof.
  unfold selected_msgs. rewrite status_msgs_eq. split.
  - intros H. cbn [filter fst] in H.
    repeat match type of H with
    | context [Z.land can_status ?f =? 0] =>
        let E := fresh "E" in
        destruct (Z.land can_status f =? 0) eqn:E;
          [apply Z.eqb_eq in E | simpl in H; discriminate H];
          cbn [negb] in H
    end.
    change 0x7FF with
      (Z.lor 0x400 (Z.lor 0x200 (Z.lor 0x100 (Z.lor 0x80 (Z.lor 0x40 (Z.lor 0x20
        (Z.lor 0x10 (Z.lor 0x8 (Z.lor 0x4 (Z.lor 0x2 0x1)))))))))).
    rewrite !Z.land_lor_distr_r.
    repeat match goal with E : Z.land can_status _ = 0 |- _ => rewrite E; clear E end.
    reflexivity.
  - intros H. cbn [filter fst].
    repeat match goal with
    | |- context [Z.land can_status ?f =? 0] =>
        rewrite (land_submask can_status 0x7FF f eq_refl H); cbn [Z.eqb negb]
    end.
    reflexivity.
Qed.

Lemma selected_msgs_In (can_status : Z) (x : string) :
  In x (selected_msgs can_status) -> In x (map snd status_msgs).
Proof.
  unfold selected_msgs. rewrite !in_map_iff.
  intros (kv & Hx & Hin). apply filter_In in Hin.
  exists kv. split; [exact Hx | apply Hin].
Qed.

(** Joined messages start with the first letter of a message, which is
    never the letter O. *)
Lemma concat_selected_head (x : string) (r : list string) :
  In x (map snd status_msgs) ->
  exists c t, String.concat ", " (x :: r) = String c t /\ c <> "O"%char.
Proof.
  rewrite status_msgs_eq. cbn [map snd]. intros H.
  repeat (destruct H as [<- | H];
          [destruct r; cbn; eexists; eexists; (split; [reflexivity | discriminate])|]).
  destruct H.
Qed.

(** X9.  [get_can_status_message] answers ["OK"] exactly for status 0, and
    the empty string exactly for a nonzero status none of whose bits is one
    of the eleven known flags (bits 0..10). *)
Theorem get_can_status_message_edges (can_status : Z) :
  (get_can_status_message can_status = "OK" <-> can_status = 0)
  /\ (get_can_status_message can_status = ""
      <-> can_status <> 0 /\ Z.land can_status 0x7FF = 0).
Proof.
  unfold get_can_status_message, CanStatus.CANERR_OK.
  destruct (Z.eqb_spec can_status 0) as [-> | Hne].
  - split; split; try reflexivity; try discriminate.
    intros [H _]. contradiction H. reflexivity.
  - rewrite <- selected_msgs_nil.
    pose proof (selected_msgs_In can_status) as Hin.
    destruct (selected_msgs can_status) as [| x r].
    + cbn. split.
      * split; [discriminate | intros H; contradiction].
      * split; [intros _; split; [exact Hne | reflexivity] | reflexivity].
    + destruct (concat_selected_head x r (Hin x (or_introl eq_refl)))
        as (c & t & -> & Hc).
      split.
      * split; [| intros H; contradiction].
        intros H. inversion H. subst c. contradiction Hc. reflexivity.
      * split; [discriminate | intros [_ H]; discriminate H].
Qed.

Lemma get_baudrate_message_table (S : Type) (s : S) (baudrate : Z) :
  get_baudrate_message baudrate s
  = (Returned
       (dict_get
          [ (-1, "auto baudrate"); (0x672F, "10 kBit/sec"); (0x532F, "20 kBit/sec");
            (0x472F, "50 kBit/sec"); (0x432F, "100 kBit/sec"); (0x31C, "125 kBit/sec");
            (0x11C, "250 kBit/sec"); (0x1C, "500 kBit/sec"); (0x16, "800 kBit/sec");
            (0x14, "1 MBit/s"); (0x0, "BTR Ext is used") ]
          baudrate "BTR is unknown (user specific)"), s).
Proof. reflexivity. Qed.

Lemma get_baudrate_message_nonneg (S : Type) (s : S) (baudrate : Z) :
  0 <= baudrate ->
  fst (get_baudrate_message baudrate s) <> Returned "auto baudrate".
Proof.
  intros Hpos. rewrite get_baudrate_message_table.
  unfold dict_get. cbn [fst dict_lookup].
  destruct (Z.eqb_spec (-1) baudrate) as [E | _]; [lia|].
  repeat match goal with
  | |- context [?k =? baudrate] => destruct (k =? baudrate); [discriminate|]
  end.
  discriminate.
Qed.

(** X10.  A baud rate read back from an [InitCanParam] is never reported
    as ["auto baudrate"]: the structure holds 16 bits and the table keys
    that text under -1.  Values in 0..0xFFFF keep their message through the
    structure; [BAUD_AUTO] itself comes back as 0xFFFF and is reported as
    unknown. *)
Theorem get_baudrate_message_of_struct (S : Type) (s : S)
  (mode BTR OCR AMR ACR baudrate rx_buffer_entries tx_buffer_entries : Z) :
  fst (get_baudrate_message
         (InitCanParam_BTR (InitCanParam_init mode BTR OCR AMR ACR baudrate
                              rx_buffer_entries tx_buffer_entries)) s)
    <> Returned "auto baudrate"
  /\ (0 <= BTR < 2 ^ 16 ->
      get_baudrate_message
        (InitCanParam_BTR (InitCanParam_init mode BTR OCR AMR ACR baudrate
                             rx_buffer_entries tx_buffer_entries)) s
      = get_baudrate_message BTR s)
  /\ get_baudrate_message Baudrate.BAUD_AUTO s = (Returned "auto baudrate", s)
  /\ get_baudrate_message
       (InitCanParam_BTR (InitCanParam_init mode Baudrate.BAUD_AUTO OCR AMR ACR
                            baudrate rx_buffer_entries tx_buffer_entries)) s
     = (Returned "BTR is unknown (user specific)", s).
Proof.
  unfold InitCanParam_BTR, InitCanParam_init. cbn [m_bBTR0 m_bBTR1].
  rewrite !BTR_bytes_roundtrip.
  split; [| split; [| split; reflexivity]].
  - apply get_baudrate_message_nonneg.
    unfold WORD. apply Z.mod_pos_bound. lia.
  - intros H. unfold WORD. rewrite Z.mod_small by exact H. reflexivity.
Qed.

(* ================================================================= *)
(** ** Acceptance filters over a pair of identifiers *)

(** A mask [(from ^ to) << k] with [k] low ones and a code [(from & to) << k]
    let an identifier through exactly when it agrees with [from] on every
    bit on which [from] and [to] agree. *)
Lemma range_filter_bits (k w from_id to_id id : Z) :
  0 <= k -> 0 <= w -> k + w = 32 ->
  (accepts (Z.lor (Z.shiftl (Z.lxor from_id to_id) k) (Z.ones k))
           (Z.lor (Z.shiftl (Z.land from_id to_id) k) 0)
           (Z.shiftl id k) = true
   <-> forall j, 0 <= j < w ->
         Z.testbit from_id j = Z.testbit to_id j ->
         Z.testbit id j = Z.testbit from_id j).
Proof.
  intros Hk Hw Hkw. rewrite accepts_true. split.
  - intros H j Hj Heq.
    specialize (H (j + k)).
    rewrite !Z.lor_spec, !Z.shiftl_spec, Z.lxor_spec, Z.land_spec in H by lia.
    replace (j + k - k) with j in H by lia.
    rewrite Z.ones_spec_high, Z.testbit_0_l, Heq, xorb_nilpotent, andb_diag,
      !orb_false_r in H by lia.
    rewrite Heq. apply H; [lia | reflexivity].
  - intros H i Hi Hamr.
    rewrite Z.lor_spec in Hamr. apply orb_false_iff in Hamr.
    destruct Hamr as [Hx Hones].
    assert (Hik : k <= i).
    { destruct (Z_lt_ge_dec i k) as [Hlt | Hge]; [| lia].
      rewrite Z.ones_spec_low in Hones by lia. discriminate Hones. }
    rewrite Z.shiftl_spec, Z.lxor_spec in Hx by lia.
    apply xorb_eq in Hx.
    rewrite Z.lor_spec, !Z.shiftl_spec, Z.land_spec, Z.testbit_0_l, orb_false_r by lia.
    rewrite (H (i - k)) by (try lia; exact Hx).
    rewrite <- Hx. symmetry. apply andb_diag.
Qed.

Lemma calculate_amr_default (is_extended : bool) (from_id to_id : Z) :
  calculate_amr is_extended from_id to_id false true
  = Z.lor (Z.shiftl (Z.lxor from_id to_id) (id_shift is_extended))
          (Z.ones (id_shift is_extended)).
Proof. destruct is_extended; reflexivity. Qed.

Lemma calculate_acr_default (is_extended : bool) (from_id to_id : Z) :
  calculate_acr is_extended from_id to_id false true
  = Z.lor (Z.shiftl (Z.land from_id to_id) (id_shift is_extended)) 0.
Proof. destruct is_extended; reflexivity. Qed.

(** X11.  With the default RTR flags, the filter computed from [from_id]
    and [to_id] lets an identifier pass exactly when it agrees with
    [from_id] on every identifier bit on which [from_id] and [to_id] agree.
    Both end points always pass. *)
Theorem range_filter_characterization (is_extended : bool) (from_id to_id id : Z) :
  (accepts (calculate_amr is_extended from_id to_id false true)
           (calculate_acr is_extended from_id to_id false true)
           (register_image is_extended id) = true
   <-> forall j, 0 <= j < id_width is_extended ->
         Z.testbit from_id j = Z.testbit to_id j ->
         Z.testbit id j = Z.testbit from_id j)
  /\ accepts (calculate_amr is_extended from_id to_id false true)
             (calculate_acr is_extended from_id to_id false true)
             (register_image is_extended from_id) = true
  /\ accepts (calculate_amr is_extended from_id to_id false true)
             (calculate_acr is_extended from_id to_id false true)
             (register_image is_extended to_id) = true.
Proof.
  rewrite calculate_amr_default, calculate_acr_default. unfold register_image.
  assert (Hchar : forall x,
    accepts (Z.lor (Z.shiftl (Z.lxor from_id to_id) (id_shift is_extended))
                   (Z.ones (id_shift is_extended)))
            (Z.lor (Z.shiftl (Z.land from_id to_id) (id_shift is_extended)) 0)
            (Z.shiftl x (id_shift is_extended)) = true
    <-> forall j, 0 <= j < id_width is_extended ->
          Z.testbit from_id j = Z.testbit to_id j ->
          Z.testbit x j = Z.testbit from_id j).
  { intros x. apply range_filter_bits; destruct is_extended; simpl; lia. }
  split; [apply Hchar|]. split; apply Hchar.
  - intros j _ _. reflexivity.
  - intros j _ Heq. symmetry. exact Heq.
Qed.

(** The filter is not a numeric range: 5 lies between 4 and 6 and is
    rejected by the filter computed from 4 and 6. *)
Lemma range_filter_rejects_inner_id :
  accepts (calculate_amr false 4 6 false true) (calculate_acr false 4 6 false true)
          (register_image false 5) = false.
Proof. reflexivity. Qed.

Lemma shiftr_lor_shiftl_low (x c k : Z) :
  0 <= k -> Z.shiftr c k = 0 -> Z.shiftr (Z.lor (Z.shiftl x k) c) k = x.
Proof.
  intros Hk Hc.
  rewrite Z.shiftr_lor, Hc, Z.lor_0_r, Z.shiftr_shiftl_l by lia.
  rewrite Z.sub_diag. apply Z.shiftl_0_r.
Qed.

Lemma testbit_lor_shiftl_low (x c k i : Z) :
  i < k -> Z.testbit (Z.lor (Z.shiftl x k) c) i = Z.testbit c i.
Proof.
  intros Hi. rewrite Z.lor_spec, Z.shiftl_spec_low by lia. reflexivity.
Qed.

(** X12.  The registers can be decoded.  Whatever the RTR flags, the
    identifier part of AMR is [from_id ^ to_id] and that of ACR is
    [from_id & to_id].  Below it, the RTR position (bit 2 for extended,
    bit 20 for standard identifiers) is masked in AMR exactly when
    [rtr_too] holds and [rtr_only] does not, and set in ACR exactly when
    [rtr_only] holds; every bit below the RTR position is masked in AMR and
    clear in ACR. *)
Theorem filter_registers_decode (is_extended : bool) (from_id to_id : Z)
  (rtr_only rtr_too : bool) :
  Z.shiftr (calculate_amr is_extended from_id to_id rtr_only rtr_too)
           (id_shift is_extended) = Z.lxor from_id to_id
  /\ Z.shiftr (calculate_acr is_extended from_id to_id rtr_only rtr_too)
              (id_shift is_extended) = Z.land from_id to_id
  /\ Z.testbit (calculate_amr is_extended from_id to_id rtr_only rtr_too)
               (id_shift is_extended - 1) = rtr_too && negb rtr_only
  /\ Z.testbit (calculate_acr is_extended from_id to_id rtr_only rtr_too)
               (id_shift is_extended - 1) = rtr_only
  /\ (forall i, 0 <= i < id_shift is_extended - 1 ->
        Z.testbit (calculate_amr is_extended from_id to_id rtr_only rtr_too) i = true
        /\ Z.testbit (calculate_acr is_extended from_id to_id rtr_only rtr_too) i
           = false).
Proof.
  unfold calculate_amr, calculate_acr, id_shift.
  split; [| split; [| split; [| split]]].
  - destruct is_extended, rtr_too, rtr_only; cbn [andb negb];
      apply shiftr_lor_shiftl_low; try lia; reflexivity.
  - destruct is_extended, rtr_only;
      apply shiftr_lor_shiftl_low; try lia; reflexivity.
  - destruct is_extended, rtr_too, rtr_only; cbn [andb negb];
      rewrite testbit_lor_shiftl_low by lia; reflexivity.
  - destruct is_extended, rtr_only;
      rewrite testbit_lor_shiftl_low by lia; reflexivity.
  - intros i Hi.
    destruct is_extended.
    + rewrite !testbit_lor_shiftl_low by lia.
      assert (Hcases : i = 0 \/ i = 1) by lia.
      destruct Hcases as [-> | ->]; destruct rtr_too, rtr_only; split; reflexivity.
    + rewrite !testbit_lor_shiftl_low by lia. split.
      * destruct (rtr_too && negb rtr_only).
        -- change 0x1FFFFF with (Z.ones 21). apply Z.ones_spec_low. lia.
        -- change 0xFFFFF with (Z.ones 20). apply Z.ones_spec_low. lia.
      * destruct rtr_only; [| apply Z.testbit_0_l].
        change 0x100000 with (2 ^ 20). rewrite Z.pow2_bits_eqb by lia.
        apply Z.eqb_neq. lia.
Qed.

(* ================================================================= *)
(** ** Return codes, once more *)

Lemma check_result_no_error (c : Z) (func : NativeFn) (arguments : list Arg)
  (l : Log) :
  check_error c = false ->
  exists l', check_result c func arguments l = (Returned c, l').
Proof.
  intros H. unfold check_result, bind. rewrite H.
  destruct (check_warning c); cbn; eexists; reflexivity.
Qed.

Lemma check_result_error (c : Z) (func : NativeFn) (arguments : list Arg)
  (l : Log) :
  check_error c = true ->
  check_result c func arguments l
  = (Raised (if check_error_cmd c
             then USBCanCmdError (payload c func arguments)
             else USBCanError (payload c func arguments)), l).
Proof.
  intros H. unfold check_result, bind, payload.
  replace (check_warning c) with false.
  - rewrite H. destruct (check_error_cmd c); reflexivity.
  - symmetry. apply check_warning_false. apply check_error_true in H. lia.
Qed.

(** X13.  What the caller sees after a checked call.  [check_result]
    returns the code exactly when [check_error] is false for it.  Among the
    codes it returns, only [WARN_NODATA] fails [check_valid_rx_can_msg] and
    [check_tx_ok].  A code accepted by [check_tx_not_all] is never raised as
    an exception: it passes [check_tx_ok] and fails [check_tx_success]. *)
Theorem checked_call_predicates (c : Z) (func : NativeFn) (arguments : list Arg)
  (l : Log) :
  (fst (check_result c func arguments l) = Returned c <-> check_error c = false)
  /\ (check_error c = false ->
      (check_valid_rx_can_msg c = true <-> c <> ReturnCode.WARN_NODATA)
      /\ (check_tx_ok c = true <-> c <> ReturnCode.WARN_NODATA))
  /\ (check_tx_not_all c = true ->
      check_error c = false /\ check_tx_ok c = true /\ check_tx_success c = false).
Proof.
  split; [| split].
  - split.
    + intros H. destruct (check_error c) eqn:E; [| reflexivity].
      rewrite (check_result_error c func arguments l E) in H. discriminate H.
    + intros H. destruct (check_result_no_error c func arguments l H) as (l' & ->).
      reflexivity.
  - intros H. apply check_error_false in H.
    unfold check_valid_rx_can_msg, check_tx_ok, ReturnCode.WARN_NODATA,
      ReturnCode.SUCCESSFUL, ReturnCode.WARNING.
    rewrite orb_true_iff, Z.eqb_eq, Z.gtb_lt. lia.
  - unfold check_tx_not_all, ReturnCode.WARN_TXLIMIT. intros H.
    apply Z.eqb_eq in H. subst c. repeat split.
Qed.

Lemma record_built_cases (c : Z) (func : NativeFn) (arguments : list Arg) :
  record_built c func arguments
  = if check_warning c then Some (USBCanWarning (payload c func arguments))
    else if check_error c then
      Some (if check_error_cmd c
            then USBCanCmdError (payload c func arguments)
            else USBCanError (payload c func arguments))
    else None.
Proof.
  unfold record_built, check_result, bind, payload.
  destruct (check_warning c); [reflexivity|].
  destruct (check_error c); [| reflexivity].
  destruct (check_error_cmd c); reflexivity.
Qed.

Lemma In_all_bytes (c : Z) : 0 <= c <= 255 -> In c all_bytes.
Proof.
  intros H. unfold all_bytes. apply in_map_iff.
  exists (Z.to_nat c). split; [lia | apply in_seq; lia].
Qed.

Lemma class_text_table :
  forallb (fun c => Bool.eqb (String.eqb (class_text c) "unknown")
                             (negb (named_code c) || (c =? 0)))
          all_bytes = true.
Proof. vm_compute. reflexivity. Qed.

(** X14.  For a return code in 0..255, [check_result] builds no record
    exactly for code 0, and a record it builds (the exception raised or the
    warning logged) renders as
    ["Function <name> returned <code>: <text>"], where the text is
    ["unknown"] exactly when the code has no name in [ReturnCode]: the
    class picked for a code is always the one whose table holds it. *)
Theorem built_record_text (c : Z) (func : NativeFn) (arguments : list Arg)
  (Hbyte : 0 <= c <= 255) :
  (record_built c func arguments = None <-> c = 0)
  /\ (forall e, record_built c func arguments = Some e ->
        USBCanException_str e
        = ("Function " ++ func_name func ++ " returned " ++ format_d c ++ ": "
           ++ message_text e)%string
        /\ (message_text e = "unknown" <-> named_code c = false)).
Proof.
  pose proof class_text_table as Htable.
  rewrite forallb_forall in Htable.
  specialize (Htable c (In_all_bytes c Hbyte)).
  apply eqb_prop in Htable.
  rewrite record_built_cases. unfold class_text in Htable.
  split.
  - destruct (check_warning c) eqn:Ew.
    + apply check_warning_true in Ew. split; [discriminate | lia].
    + destruct (check_error c) eqn:Ee.
      * apply check_error_true in Ee. split; [discriminate | lia].
      * apply check_error_false in Ee. apply check_warning_false in Ew.
        split; [lia | reflexivity].
  - intros e He.
    assert (Hc0 : (c =? 0) = false).
    { apply Z.eqb_neq. intros ->. discriminate He. }
    rewrite Hc0, orb_false_r in Htable.
    assert (Htext : message_text e = "unknown" <-> named_code c = false).
    { rewrite <- negb_true_iff, <- Htable, String.eqb_eq.
      destruct (check_warning c); [inversion He; subst e; reflexivity|].
      destruct (check_error c); [| discriminate He].
      destruct (check_error_cmd c); inversion He; subst e; reflexivity. }
    split; [| exact Htext].
    destruct (check_warning c); [inversion He; subst e; reflexivity|].
    destruct (check_error c); [| discriminate He].
    destruct (check_error_cmd c); inversion He; subst e; reflexivity.
Qed.

Lemma built_record_text_witness :
  0 <= ReturnCode.ERRCMD_NOTINIT <= 255
  /\ record_built ReturnCode.ERRCMD_NOTINIT UcanWriteCanMsgEx [ArgInt 0]
     = Some (USBCanCmdError (payload ReturnCode.ERRCMD_NOTINIT UcanWriteCanMsgEx [ArgInt 0]))
  /\ USBCanException_str
       (USBCanCmdError (payload ReturnCode.ERRCMD_NOTINIT UcanWriteCanMsgEx [ArgInt 0]))
     = "Function UcanWriteCanMsgEx returned 72: CAN channel is not initialized".
Proof.
  assert (H : 0 <= ReturnCode.ERRCMD_NOTINIT <= 255) by (vm_compute; split; discriminate).
  split; [exact H|]. split; [reflexivity|].
  destruct (proj2 (built_record_text ReturnCode.ERRCMD_NOTINIT UcanWriteCanMsgEx
                     [ArgInt 0] H) _ eq_refl) as [Hstr _].
  exact (eq_trans Hstr eq_refl).
Defined.

(* ================================================================= *)
(** ** The session, once more *)

Lemma bind_ext {S A B} (m : M S A) (k k' : A -> M S B) (s : S) :
  (forall a s1, k a s1 = k' a s1) -> bind m k s = bind m k' s.
Proof.
  intros H. unfold bind. destruct (m s) as [[a | e] s1]; [apply H | reflexivity].
Qed.

Lemma bind_ext_head {S A B} (m m' : M S A) (k : A -> M S B) (s : S) :
  m s = m' s -> bind m k s = bind m' k s.
Proof. intros H. unfold bind. rewrite H. reflexivity. Qed.

Lemma dict_lookup_set_same {V} (d : list (Z * V)) (k : Z) (v : V) :
  dict_lookup (dict_set d k v) k = Some v.
Proof.
  induction d as [| [k' v'] d IH]; simpl.
  - rewrite Z.eqb_refl. reflexivity.
  - destruct (k' =? k) eqn:E; simpl; rewrite E; [reflexivity | exact IH].
Qed.

Lemma dict_lookup_set_other {V} (d : list (Z * V)) (k k' : Z) (v : V) :
  k <> k' -> dict_lookup (dict_set d k' v) k = dict_lookup d k.
Proof.
  intros Hne. induction d as [| [k0 v0] d IH]; simpl.
  - apply Z.eqb_neq in Hne. rewrite Z.eqb_sym in Hne. rewrite Hne. reflexivity.
  - destruct (k0 =? k') eqn:E; simpl.
    + apply Z.eqb_eq in E. subst k0.
      replace (k' =? k) with false; [reflexivity|].
      symmetry. apply Z.eqb_neq. intros H. apply Hne. symmetry. exact H.
    + destruct (k0 =? k); [reflexivity | exact IH].
Qed.

Lemma dict_lookup_In {V} (d : list (Z * V)) (k : Z) (v : V) :
  NoDup (map fst d) -> In (k, v) d -> dict_lookup d k = Some v.
Proof.
  induction d as [| [k' v'] d IH]; simpl; intros Hnd Hin; [destruct Hin|].
  inversion Hnd as [| x l Hnotin Hnd']; subst.
  destruct Hin as [E | Hin].
  - inversion E; subst. rewrite Z.eqb_refl. reflexivity.
  - destruct (Z.eqb_spec k' k) as [-> | Hne].
    + exfalso. apply Hnotin. apply in_map_iff. exists (k, v). split; [reflexivity | exact Hin].
    + apply IH; assumption.
Qed.

Lemma dict_lookup_key {V} (d : list (Z * V)) (k : Z) :
  In k (map fst d) -> exists v, dict_lookup d k = Some v.
Proof.
  induction d as [| [k' v'] d IH]; simpl; intros Hin; [destruct Hin|].
  destruct (Z.eqb_spec k' k) as [-> | Hne]; [eexists; reflexivity|].
  apply IH. destruct Hin as [E | Hin]; [contradiction | exact Hin].
Qed.

Section ServerLifecycle.

Variable dll : list Call -> Call -> Reply.

(** *** Shutdown, for any arguments *)

Lemma shutdown_channels_hardware_any (items : list (Z * bool)) (channel channel' : Z) :
  forall st,
    shutdown_channels dll items channel true st
    = shutdown_channels dll items channel' true st.
Proof.
  induction items as [| [k b] items IH]; intros st; simpl; [reflexivity|].
  rewrite !orb_true_r. apply bind_ext. intros _ s1. apply IH.
Qed.

(** X15.  With [shutdown_hardware = True] the argument [channel] has no
    effect: every initialized channel is deinitialized, whichever channel
    is named. *)
Theorem shutdown_hardware_ignores_channel (channel channel' : Z) (st : St) :
  shutdown dll channel true st = shutdown dll channel' true st.
Proof.
  unfold shutdown. apply bind_ext. intros items s1.
  apply bind_ext_head. apply shutdown_channels_hardware_any.
Qed.

Lemma preserves_shutdown_channels_selective (I : USBCanServer -> Prop)
  (items : list (Z * bool)) (channel : Z) :
  channel <> Channel.CHANNEL_ALL ->
  (forall s, I s -> I (set_ch_is_initialized channel false s)) ->
  preserves I (shutdown_channels dll items channel false).
Proof.
  intros Hall Hset. induction items as [| [k b] items IH]; simpl.
  - apply preserves_ret.
  - apply preserves_bind; [| intros; exact IH].
    destruct b; simpl; [| apply preserves_ret].
    rewrite orb_false_r.
    replace (channel =? Channel.CHANNEL_ALL) with false
      by (symmetry; apply Z.eqb_neq; exact Hall).
    rewrite orb_false_r.
    destruct (Z.eqb_spec k channel) as [-> | Hne]; [| apply preserves_ret].
    preserve.
Qed.

(** X16.  [shutdown(channel, shutdown_hardware=False)] for one channel
    leaves the hardware flag, the handle and the flag of every other
    channel as they were, whether it returns or raises. *)
Theorem shutdown_channel_frame (self self' : USBCanServer) (w w' : World)
  (channel k : Z) (o : Outcome unit)
  (Hone : channel <> Channel.CHANNEL_ALL)
  (Hother : k <> channel)
  (Hrun : shutdown dll channel false (self, w) = (o, (self', w'))) :
  _hw_is_initialized self' = _hw_is_initialized self
  /\ _handle self' = _handle self
  /\ dict_lookup (_ch_is_initialized self') k = dict_lookup (_ch_is_initialized self) k.
Proof.
  assert (Hp : preserves
            (fun s => _hw_is_initialized s = _hw_is_initialized self
                      /\ _handle s = _handle self
                      /\ dict_lookup (_ch_is_initialized s) k
                         = dict_lookup (_ch_is_initialized self) k)
            (shutdown dll channel false)).
  { unfold shutdown.
    apply preserves_bind; [apply preserves_self_get | intros items].
    apply preserves_bind; [| intros _].
    - apply preserves_shutdown_channels_selective; [exact Hone|].
      intros s (H1 & H2 & H3). repeat split; try assumption.
      simpl. rewrite dict_lookup_set_other by exact Hother. exact H3.
    - apply preserves_bind; [apply preserves_self_get | intros hw].
      rewrite andb_false_r. apply preserves_ret. }
  apply (Hp (self, w) o (self', w')); [| exact Hrun].
  repeat split.
Qed.

Lemma shutdown_channels_skip (items : list (Z * bool)) (channel : Z)
  (shutdown_hardware : bool) :
  (forall k b, In (k, b) items ->
     b && ((k =? channel) || (channel =? Channel.CHANNEL_ALL) || shutdown_hardware)
     = false) ->
  forall st, shutdown_channels dll items channel shutdown_hardware st = (Returned tt, st).
Proof.
  induction items as [| [k b] items IH]; intros Hskip st; simpl; [reflexivity|].
  rewrite (Hskip k b (or_introl eq_refl)). unfold bind. simpl.
  apply IH. intros k' b' Hin. apply Hskip. right. exact Hin.
Qed.

(** X17.  In a reachable state, [shutdown(channel, shutdown_hardware=False)]
    for a channel that is not flagged initialized does nothing: it returns
    normally, issues no foreign call and leaves the instance unchanged. *)
Theorem shutdown_uninitialized_channel_noop (self : USBCanServer) (w : World)
  (channel : Z)
  (Hreach : reachable dll self)
  (Hone : channel <> Channel.CHANNEL_ALL)
  (Hflag : dict_get (_ch_is_initialized self) channel false = false) :
  shutdown dll channel false (self, w) = (Returned tt, (self, w)).
Proof.
  destruct (reachable_channels_wf dll self Hreach) as (Hnd & _ & _).
  unfold shutdown, bind, self_get, gets. simpl.
  rewrite shutdown_channels_skip.
  - simpl. rewrite andb_false_r. reflexivity.
  - intros k b Hin. destruct b; [| reflexivity]. simpl.
    rewrite orb_false_r.
    replace (channel =? Channel.CHANNEL_ALL) with false
      by (symmetry; apply Z.eqb_neq; exact Hone).
    rewrite orb_false_r. apply Z.eqb_neq. intros ->.
    rewrite (dict_get_lookup _ _ true false (dict_lookup_In _ _ _ Hnd Hin)) in Hflag.
    discriminate Hflag.
Qed.

(** *** What the initializing methods do *)

Lemma init_can_eval (self : USBCanServer) (w : World)
  (channel BTR baudrate AMR ACR mode OCR rx tx : Z) :
  dict_get (_ch_is_initialized self) channel false = false ->
  trace (snd (snd (init_can dll channel BTR baudrate AMR ACR mode OCR rx tx (self, w))))
  = trace w ++ [init_can_call self channel BTR baudrate AMR ACR mode OCR rx tx]
  /\ (check_error
        (BYTE (r_code (dll (trace w)
                 (init_can_call self channel BTR baudrate AMR ACR mode OCR rx tx))))
      = true ->
      (exists e,
         fst (init_can dll channel BTR baudrate AMR ACR mode OCR rx tx (self, w))
         = Raised e)
      /\ fst (snd (init_can dll channel BTR baudrate AMR ACR mode OCR rx tx (self, w)))
         = self)
  /\ (check_error
        (BYTE (r_code (dll (trace w)
                 (init_can_call self channel BTR baudrate AMR ACR mode OCR rx tx))))
      = false ->
      fst (init_can dll channel BTR baudrate AMR ACR mode OCR rx tx (self, w))
      = Returned tt
      /\ fst (snd (init_can dll channel BTR baudrate AMR ACR mode OCR rx tx (self, w)))
         = set_ch_is_initialized channel true self).
Proof.
  intros Hflag. unfold init_can_call.
  unfold init_can, bind, self_get, gets. simpl. rewrite Hflag. simpl.
  unfold on_world, foreign, bind, native, errcheck, on_log, self_set, modify. simpl.
  match goal with
  | |- context [check_result ?c ?f ?a ?l] =>
      destruct (check_error c) eqn:E;
        [ rewrite (check_result_error c f a l E)
        | destruct (check_result_no_error c f a l E) as (l' & ->) ]
  end; simpl.
  - split; [reflexivity|]. split; [| discriminate].
    intros _. split; [eexists; reflexivity | reflexivity].
  - split; [reflexivity|]. split; [discriminate|].
    intros _. split; reflexivity.
Qed.

(** X18.  [init_can] on a channel that is not flagged initialized issues
    exactly one foreign call, [UcanInitCanEx2] with the current handle, the
    channel and the parameter structure.  If the library reports an error
    the method raises and the instance is unchanged (the channel stays
    uninitialized); otherwise it returns and the only change to the instance
    is that the channel is flagged initialized. *)
Theorem init_can_outcome (self : USBCanServer) (w : World)
  (channel BTR baudrate AMR ACR mode OCR rx tx : Z)
  (Hflag : dict_get (_ch_is_initialized self) channel false = false) :
  trace (snd (snd (init_can dll channel BTR baudrate AMR ACR mode OCR rx tx (self, w))))
  = trace w ++ [init_can_call self channel BTR baudrate AMR ACR mode OCR rx tx]
  /\ (check_error
        (BYTE (r_code (dll (trace w)
                 (init_can_call self channel BTR baudrate AMR ACR mode OCR rx tx))))
      = true ->
      (exists e,
         fst (init_can dll channel BTR baudrate AMR ACR mode OCR rx tx (self, w))
         = Raised e)
      /\ fst (snd (init_can dll channel BTR baudrate AMR ACR mode OCR rx tx (self, w)))
         = self)
  /\ (check_error
        (BYTE (r_code (dll (trace w)
                 (init_can_call self channel BTR baudrate AMR ACR mode OCR rx tx))))
      = false ->
      fst (init_can dll channel BTR baudrate AMR ACR mode OCR rx tx (self, w))
      = Returned tt
      /\ fst (snd (init_can dll channel BTR baudrate AMR ACR mode OCR rx tx (self, w)))
         = set_ch_is_initialized channel true self).
Proof. exact (init_can_eval self w channel BTR baudrate AMR ACR mode OCR rx tx Hflag). Qed.

(** X19.  [init_hardware] on an instance whose hardware flag is false
    issues exactly one foreign call: [UcanInitHardwareEx] with the device
    number when no serial number is given, [UcanInitHardwareEx2] with the
    serial number otherwise (the device number is then not used).  The
    handle becomes what the library left in the cell.  If the library
    reports an error the method raises and the hardware flag stays false;
    otherwise it returns with the flag true.  The channel flags are not
    touched. *)
Theorem init_hardware_outcome (self : USBCanServer) (w : World)
  (serial : option Z) (device_number : Z)
  (Hflag : _hw_is_initialized self = false) :
  trace (snd (snd (init_hardware dll serial device_number (self, w))))
  = trace w ++ [init_hardware_call self serial device_number]
  /\ _handle (fst (snd (init_hardware dll serial device_number (self, w))))
     = Handle (r_out (dll (trace w) (init_hardware_call self serial device_number)))
  /\ _ch_is_initialized (fst (snd (init_hardware dll serial device_number (self, w))))
     = _ch_is_initialized self
  /\ (check_error
        (BYTE (r_code (dll (trace w) (init_hardware_call self serial device_number))))
      = true ->
      (exists e, fst (init_hardware dll serial device_number (self, w)) = Raised e)
      /\ _hw_is_initialized
           (fst (snd (init_hardware dll serial device_number (self, w)))) = false)
  /\ (check_error
        (BYTE (r_code (dll (trace w) (init_hardware_call self serial device_number))))
      = false ->
      fst (init_hardware dll serial device_number (self, w)) = Returned tt
      /\ _hw_is_initialized
           (fst (snd (init_hardware dll serial device_number (self, w)))) = true).
Proof.
  unfold init_hardware_call.
  unfold init_hardware, bind, self_get, gets. simpl. rewrite Hflag. simpl.
  destruct serial as [sn |];
    unfold foreign_handle, on_world, bind, native, errcheck, on_log, self_set, modify;
    simpl;
    match goal with
    | |- context [check_result ?c ?f ?a ?l] =>
        destruct (check_error c) eqn:E;
          [ rewrite (check_result_error c f a l E)
          | destruct (check_result_no_error c f a l E) as (l' & ->) ]
    end; simpl;
    (split; [reflexivity|]); (split; [reflexivity|]); (split; [reflexivity|]).
  - split; [| discriminate]. intros _. split; [eexists; reflexivity | exact Hflag].
  - split; [discriminate|]. intros _. split; reflexivity.
  - split; [| discriminate]. intros _. split; [eexists; reflexivity | exact Hflag].
  - split; [discriminate|]. intros _. split; reflexivity.
Qed.

(** X20.  When the library leaves the sentinel in the handle cell
    whenever it reports an error, every reachable state of an instance
    keeps the handle at [0xFF] for as long as the hardware flag is false. *)
Theorem handle_is_sentinel_while_uninitialized (self : USBCanServer)
  (Hdll : keeps_sentinel_on_error dll)
  (Hreach : reachable dll self)
  (Hflag : _hw_is_initialized self = false) :
  _handle self = INVALID_HANDLE.
Proof. exact (reachable_handle_inv dll Hdll self Hreach Hflag). Qed.

(** *** Which exceptions [shutdown] can raise *)








(** *** States the methods do not rule out *)

(** X22.  [init_can] does not ask for initialized hardware.  On a
    reachable instance whose hardware flag is false it still calls the
    library, and when the library reports no error the instance ends up, in
    a reachable state, with the channel flagged initialized and the hardware
    flag still false. *)
Theorem init_can_without_hardware (self : USBCanServer) (w : World)
  (channel BTR baudrate AMR ACR mode OCR rx tx : Z)
  (Hreach : reachable dll self)
  (Hhw : _hw_is_initialized self = false)
  (Hflag : dict_get (_ch_is_initialized self) channel false = false)
  (Hok : check_error
           (BYTE (r_code (dll (trace w)
                    (init_can_call self channel BTR baudrate AMR ACR mode OCR rx tx))))
         = false) :
  reachable dll
    (fst (snd (init_can dll channel BTR baudrate AMR ACR mode OCR rx tx (self, w))))
  /\ _hw_is_initialized
       (fst (snd (init_can dll channel BTR baudrate AMR ACR mode OCR rx tx (self, w))))
     = false
  /\ dict_lookup
       (_ch_is_initialized
          (fst (snd (init_can dll channel BTR baudrate AMR ACR mode OCR rx tx (self, w)))))
       channel
     = Some true.
Proof.
  split.
  - destruct (init_can dll channel BTR baudrate AMR ACR mode OCR rx tx (self, w))
      as [o [self' w']] eqn:E.
    exact (reach_init_can dll self w channel BTR baudrate AMR ACR mode OCR rx tx
             o self' w' Hreach E).
  - destruct (init_can_eval self w channel BTR baudrate AMR ACR mode OCR rx tx Hflag)
      as (_ & _ & Hsucc).
    destruct (Hsucc Hok) as [_ ->]. split; [exact Hhw|].
    simpl. apply dict_lookup_set_same.
Qed.

(** X23.  The properties [is_can0_initialized] and [is_can1_initialized]
    never raise [KeyError] on a reachable instance: both keys are entered
    at construction and no method removes a key. *)
Theorem channel_properties_never_raise (self : USBCanServer)
  (Hreach : reachable dll self) :
  exists b0 b1,
    is_can0_initialized self = Returned b0 /\ is_can1_initialized self = Returned b1.
Proof.
  destruct (reachable_channels_wf dll self Hreach) as (_ & H0 & H1).
  destruct (dict_lookup_key _ _ H0) as (b0 & E0).
  destruct (dict_lookup_key _ _ H1) as (b1 & E1).
  exists b0, b1. unfold is_can0_initialized, is_can1_initialized.
  rewrite E0, E1. split; reflexivity.
Qed.

End ServerLifecycle.

(* ================================================================= *)
(** ** The sample run, once more *)

Lemma demo_reachable0 : reachable dll_ok demo_self0.
Proof. exact (reach_new dll_ok _ _ _ demo_new). Qed.

Lemma demo_reachable4 : reachable dll_ok (fst demo_st4).
Proof.
  apply (reach_shutdown dll_ok (fst demo_st3) (snd demo_st3) Channel.CHANNEL_ALL true
           (Returned tt) (fst demo_st4) (snd demo_st4)); [| reflexivity].
  exact demo_reachable3.
Qed.

Lemma demo_reachable5 : reachable dll_ok (fst demo_st5).
Proof.
  apply (reach_shutdown dll_ok (fst demo_st3) (snd demo_st3) Channel.CHANNEL_CH0 false
           (Returned tt) (fst demo_st5) (snd demo_st5)); [| reflexivity].
  exact demo_reachable3.
Qed.

Lemma dll_ok_keeps_sentinel : keeps_sentinel_on_error dll_ok.
Proof. intros t c H. discriminate H. Qed.

Lemma shutdown_channel_frame_witness :
  (Channel.CHANNEL_CH0 <> Channel.CHANNEL_ALL
   /\ Channel.CHANNEL_CH1 <> Channel.CHANNEL_CH0
   /\ shutdown dll_ok Channel.CHANNEL_CH0 false (fst demo_st3, snd demo_st3)
      = (Returned tt, (fst demo_st5, snd demo_st5)))
  /\ is_can0_initialized (fst demo_st5) = Returned false
  /\ _hw_is_initialized (fst demo_st5) = true
  /\ _handle (fst demo_st5) = _handle (fst demo_st3)
  /\ dict_lookup (_ch_is_initialized (fst demo_st5)) Channel.CHANNEL_CH1 = Some true.
Proof.
  assert (H1 : Channel.CHANNEL_CH0 <> Channel.CHANNEL_ALL) by discriminate.
  assert (H2 : Channel.CHANNEL_CH1 <> Channel.CHANNEL_CH0) by discriminate.
  assert (H3 : shutdown dll_ok Channel.CHANNEL_CH0 false (fst demo_st3, snd demo_st3)
               = (Returned tt, (fst demo_st5, snd demo_st5))) by reflexivity.
  destruct (shutdown_channel_frame dll_ok (fst demo_st3) (fst demo_st5)
              (snd demo_st3) (snd demo_st5) Channel.CHANNEL_CH0 Channel.CHANNEL_CH1
              (Returned tt) H1 H2 H3) as (Hhw & Hh & Hch).
  split; [split; [exact H1 | split; [exact H2 | exact H3]]|].
  split; [reflexivity|]. split; [rewrite Hhw; reflexivity|].
  split; [exact Hh | rewrite Hch; reflexivity].
Defined.

Lemma shutdown_uninitialized_channel_noop_witness :
  (reachable dll_ok (fst demo_st5)
   /\ Channel.CHANNEL_CH0 <> Channel.CHANNEL_ALL
   /\ dict_get (_ch_is_initialized (fst demo_st5)) Channel.CHANNEL_CH0 false = false)
  /\ shutdown dll_ok Channel.CHANNEL_CH0 false (fst demo_st5, snd demo_st5)
     = (Returned tt, (fst demo_st5, snd demo_st5)).
Proof.
  assert (H1 : Channel.CHANNEL_CH0 <> Channel.CHANNEL_ALL) by discriminate.
  assert (H2 : dict_get (_ch_is_initialized (fst demo_st5)) Channel.CHANNEL_CH0 false
               = false) by reflexivity.
  split; [split; [exact demo_reachable5 | split; [exact H1 | exact H2]]|].
  exact (shutdown_uninitialized_channel_noop dll_ok (fst demo_st5) (snd demo_st5)
           Channel.CHANNEL_CH0 demo_reachable5 H1 H2).
Defined.

Lemma init_can_outcome_witness :
  dict_get (_ch_is_initialized (fst demo_st1)) Channel.CHANNEL_CH0 false = false
  /\ fst (init_can dll_ok Channel.CHANNEL_CH0 Baudrate.BAUD_1MBit
            BaudrateEx.BAUDEX_USE_BTR01 AMR_ALL ACR_ALL Mode.MODE_NORMAL
            OutputControl.OCR_DEFAULT DEFAULT_BUFFER_ENTRIES DEFAULT_BUFFER_ENTRIES
            (fst demo_st1, snd demo_st1))
     = Returned tt
  /\ fst (snd (init_can dll_ok Channel.CHANNEL_CH0 Baudrate.BAUD_1MBit
                 BaudrateEx.BAUDEX_USE_BTR01 AMR_ALL ACR_ALL Mode.MODE_NORMAL
                 OutputControl.OCR_DEFAULT DEFAULT_BUFFER_ENTRIES DEFAULT_BUFFER_ENTRIES
                 (fst demo_st1, snd demo_st1)))
     = set_ch_is_initialized Channel.CHANNEL_CH0 true (fst demo_st1).
Proof.
  assert (H : dict_get (_ch_is_initialized (fst demo_st1)) Channel.CHANNEL_CH0 false
              = false) by reflexivity.
  split; [exact H|].
  apply (init_can_outcome dll_ok (fst demo_st1) (snd demo_st1) Channel.CHANNEL_CH0
           Baudrate.BAUD_1MBit BaudrateEx.BAUDEX_USE_BTR01 AMR_ALL ACR_ALL
           Mode.MODE_NORMAL OutputControl.OCR_DEFAULT DEFAULT_BUFFER_ENTRIES
           DEFAULT_BUFFER_ENTRIES H).
  reflexivity.
Defined.

Lemma init_hardware_outcome_witness :
  _hw_is_initialized demo_self0 = false
  /\ fst (init_hardware dll_ok (Some 4711) ANY_MODULE (demo_self0, demo_world0))
     = Returned tt
  /\ _hw_is_initialized
       (fst (snd (init_hardware dll_ok (Some 4711) ANY_MODULE (demo_self0, demo_world0))))
     = true.
Proof.
  assert (H : _hw_is_initialized demo_self0 = false) by reflexivity.
  split; [exact H|].
  apply (init_hardware_outcome dll_ok demo_self0 demo_world0 (Some 4711) ANY_MODULE H).
  reflexivity.
Defined.

Lemma handle_is_sentinel_while_uninitialized_witness :
  (keeps_sentinel_on_error dll_ok
   /\ reachable dll_ok (fst demo_st4)
   /\ _hw_is_initialized (fst demo_st4) = false)
  /\ _handle (fst demo_st4) = INVALID_HANDLE.
Proof.
  assert (H : _hw_is_initialized (fst demo_st4) = false) by reflexivity.
  split; [split; [exact dll_ok_keeps_sentinel | split; [exact demo_reachable4 | exact H]]|].
  exact (handle_is_sentinel_while_uninitialized dll_ok (fst demo_st4)
           dll_ok_keeps_sentinel demo_reachable4 H).
Defined.


Lemma init_can_without_hardware_witness :
  (reachable dll_ok demo_self0
   /\ _hw_is_initialized demo_self0 = false
   /\ dict_get (_ch_is_initialized demo_self0) Channel.CHANNEL_CH1 false = false)
  /\ _hw_is_initialized
       (fst (snd (init_can dll_ok Channel.CHANNEL_CH1 Baudrate.BAUD_1MBit
                    BaudrateEx.BAUDEX_USE_BTR01 AMR_ALL ACR_ALL Mode.MODE_NORMAL
                    OutputControl.OCR_DEFAULT DEFAULT_BUFFER_ENTRIES
                    DEFAULT_BUFFER_ENTRIES (demo_self0, demo_world0))))
     = false
  /\ is_can1_initialized
       (fst (snd (init_can dll_ok Channel.CHANNEL_CH1 Baudrate.BAUD_1MBit
                    BaudrateEx.BAUDEX_USE_BTR01 AMR_ALL ACR_ALL Mode.MODE_NORMAL
                    OutputControl.OCR_DEFAULT DEFAULT_BUFFER_ENTRIES
                    DEFAULT_BUFFER_ENTRIES (demo_self0, demo_world0))))
     = Returned true.
Proof.
  assert (H1 : _hw_is_initialized demo_self0 = false) by reflexivity.
  assert (H2 : dict_get (_ch_is_initialized demo_self0) Channel.CHANNEL_CH1 false = false)
    by reflexivity.
  split; [split; [exact demo_reachable0 | split; [exact H1 | exact H2]]|].
  destruct (init_can_without_hardware dll_ok demo_self0 demo_world0
              Channel.CHANNEL_CH1 Baudrate.BAUD_1MBit BaudrateEx.BAUDEX_USE_BTR01
              AMR_ALL ACR_ALL Mode.MODE_NORMAL OutputControl.OCR_DEFAULT
              DEFAULT_BUFFER_ENTRIES DEFAULT_BUFFER_ENTRIES
              demo_reachable0 H1 H2 eq_refl) as (_ & Hhw & _).
  split; [exact Hhw | reflexivity].
Defined.

Lemma channel_properties_never_raise_witness :
  reachable dll_ok (fst demo_st5)
  /\ exists b0 b1,
       is_can0_initialized (fst demo_st5) = Returned b0
       /\ is_can1_initialized (fst demo_st5) = Returned b1.
Proof.
  split; [exact demo_reachable5|].
  exact (channel_properties_never_raise dll_ok (fst demo_st5) demo_reachable5).
Defined.

(* ================================================================= *)
(** ** Shutdown under a library that reports no error *)

Section ShutdownSequence.

Variable dll : list Call -> Call -> Reply.
Hypothesis Hok : reports_no_error dll.

Lemma foreign_ok (func : NativeFn) (arguments : list Arg) (w : World) :
  exists c w',
    foreign dll func arguments w = (Returned c, w')
    /\ trace w' = trace w ++ [(func, arguments)].
Proof.
  destruct (foreign_returns dll func arguments w Hok) as (c & w' & E).
  exists c, w'. split; [exact E|].
  pose proof (foreign_trace dll func arguments w) as [Ht _].
  rewrite E in Ht. exact Ht.
Qed.

Lemma shutdown_channels_sequence (items : list (Z * bool)) (channel : Z) :
  forall s w, exists s' w',
    shutdown_channels dll items channel true (s, w) = (Returned tt, (s', w'))
    /\ trace w' = trace w ++ deinit_channel_calls (_handle s) items
    /\ _handle s' = _handle s
    /\ _hw_is_initialized s' = _hw_is_initialized s.
Proof.
  induction items as [| [k b] items IH]; intros s w; simpl.
  - exists s, w. unfold deinit_channel_calls. simpl. rewrite app_nil_r. repeat split.
  - rewrite orb_true_r, andb_true_r. destruct b.
    + unfold bind at 1. unfold bind at 1, self_get at 1, gets at 1. cbn [fst snd].
      unfold bind at 1, on_world at 1. cbn [fst snd].
      destruct (foreign_ok UcanDeinitCanEx [ArgInt (_handle s); ArgInt (BYTE k)] w)
        as (c & w1 & -> & Ht).
      unfold self_set, modify. cbn [fst snd].
      destruct (IH (set_ch_is_initialized k false s) w1) as (s' & w' & -> & Ht' & Hh & Hhw).
      exists s', w'. split; [reflexivity|].
      split; [| split; [exact Hh | exact Hhw]].
      rewrite Ht', Ht. unfold deinit_channel_calls. cbn [filter snd map fst].
      rewrite <- app_assoc. reflexivity.
    + unfold bind at 1. cbn.
      destruct (IH s w) as (s' & w' & -> & Ht' & Hh & Hhw).
      exists s', w'. repeat split; assumption.
Qed.

(** X24.  When the library reports no error (warnings included),
    [shutdown] returns normally for every argument and from every state. *)
Theorem shutdown_never_raises_without_errors (channel : Z) (shutdown_hardware : bool)
  (st : St) :
  fst (shutdown dll channel shutdown_hardware st) = Returned tt.
Proof.
  destruct (shutdown_returns dll channel shutdown_hardware st Hok) as (st' & ->).
  reflexivity.
Qed.

(** X25.  When the library reports no error, [shutdown()] with its default
    arguments issues exactly these foreign calls, in this order: one
    [UcanDeinitCanEx] per channel flagged initialized, in the order of the
    dictionary, each with the handle the instance had, and then one
    [UcanDeinitHardware] with that handle if the hardware flag was set. *)
Theorem shutdown_call_sequence (self : USBCanServer) (w : World) :
  trace (snd (snd (shutdown dll Channel.CHANNEL_ALL true (self, w))))
  = trace w ++ deinit_calls self.
Proof.
  unfold shutdown, deinit_calls.
  unfold bind at 1, self_get at 1, gets at 1. cbn [fst snd].
  unfold bind at 1.
  destruct (shutdown_channels_sequence (_ch_is_initialized self)
              Channel.CHANNEL_ALL self w) as (s' & w' & -> & Ht & Hh & Hhw).
  unfold bind at 1, self_get at 1, gets at 1. cbn [fst snd].
  rewrite Hhw, andb_true_r.
  destruct (_hw_is_initialized self).
  - unfold bind at 1, self_get at 1, gets at 1. cbn [fst snd].
    unfold bind at 1, on_world at 1. cbn [fst snd].
    destruct (foreign_ok UcanDeinitHardware [ArgInt (_handle s')] w')
      as (c & w1 & -> & Ht1).
    cbn. rewrite Ht1, Ht, Hh, <- app_assoc. reflexivity.
  - cbn. rewrite Ht, app_nil_r. reflexivity.
Qed.

End ShutdownSequence.

Lemma dll_ok_reports_no_error : reports_no_error dll_ok.
Proof. intros t c. reflexivity. Qed.

Lemma shutdown_never_raises_without_errors_witness :
  reports_no_error dll_ok
  /\ fst (shutdown dll_ok Channel.CHANNEL_CH1 true demo_st3) = Returned tt.
Proof.
  split; [exact dll_ok_reports_no_error|].
  exact (shutdown_never_raises_without_errors dll_ok dll_ok_reports_no_error
           Channel.CHANNEL_CH1 true demo_st3).
Defined.

Lemma shutdown_call_sequence_witness :
  reports_no_error dll_ok
  /\ trace (snd demo_st4)
     = trace (snd demo_st3)
       ++ [ (UcanDeinitCanEx, [ArgInt 0; ArgInt 0]);
            (UcanDeinitCanEx, [ArgInt 0; ArgInt 1]);
            (UcanDeinitHardware, [ArgInt 0]) ].
Proof.
  split; [exact dll_ok_reports_no_error|].
  exact (shutdown_call_sequence dll_ok dll_ok_reports_no_error
           (fst demo_st3) (snd demo_st3)).
Defined.
